(** * The usage ledger of the AI side panel add-on (analytics.py)

    A shallow embedding of [src/analytics.py]: the analytics record kept in
    the host's add-on configuration, the tracking operations that read,
    modify and write it, the retention metrics, and the once-a-day upload.

    Conventions of the embedding.
    - A JSON value of the configuration is a [value]; a Python [dict] with
      string keys is a [gmap string value].  Python strings are held as
      their UTF-8 bytes, which keeps Python's code-point ordering.
    - Each function of the module is a computation in the monad [M]: it
      reads and writes the host configuration held in a [world], may raise,
      and appends to an event log what it does to the outside (a
      [writeConfig] call, a started thread, an HTTP POST).
    - [datetime.now()] is an argument, one per call site in the source.
    - [datetime.fromisoformat], whose grammar differs between Python
      versions, is a parameter of the development. *)

From Stdlib Require Import ZArith String Ascii List Bool Lia Floats Uint63.
From stdpp Require Import gmap strings pretty.

Set Warnings "-register-all".
Local Open Scope string_scope.
Local Open Scope Z_scope.

(* ===================================================================== *)
(** ** JSON values and the Python primitives the module applies to them *)
(* ===================================================================== *)

Inductive value :=
| VNone
| VBool (b : bool)
| VInt (z : Z)
| VFloat (f : float)
| VStr (s : string)
| VList (l : list value)
| VDict (d : gmap string value).

Abbreviation dict := (gmap string value).

(** Python's truth value, as tested by [if not x]. *)
Definition truthy (v : value) : bool :=
  match v with
  | VNone => false
  | VBool b => b
  | VInt z => negb (z =? 0)
  | VFloat f => negb (PrimFloat.eqb f 0%float)
  | VStr s => negb (String.eqb s "")
  | VList l => match l with [] => false | _ :: _ => true end
  | VDict d => negb (Nat.eqb (size d) 0)
  end.

(** [d.get(k)] and [d.get(k, dflt)]. *)
Definition dict_get (k : string) (d : dict) : value :=
  default VNone (d !! k).

Definition dict_get_default (k : string) (dflt : value) (d : dict) : value :=
  default dflt (d !! k).

(** [v != s] for a string literal [s]: values of another type differ. *)
Definition py_ne_str (v : value) (s : string) : bool :=
  match v with
  | VStr t => negb (String.eqb t s)
  | _ => true
  end.

Inductive exn :=
| AttributeError
| TypeError
| ValueError
| OverflowError
| URLError.

Inductive result (A : Type) :=
| Ret (a : A)
| Raise (e : exn).
Arguments Ret {A} a.
Arguments Raise {A} e.

(** [v + 1]: integers are unbounded, [True + 1 = 2], floats add 1.0,
    everything else raises [TypeError]. *)
Definition py_add_one (v : value) : result value :=
  match v with
  | VInt z => Ret (VInt (z + 1))
  | VBool b => Ret (VInt (Z.b2z b + 1))
  | VFloat f => Ret (VFloat (f + 1)%float)
  | _ => Raise TypeError
  end.

(** Number of code points of a UTF-8 string: the bytes that are not
    continuation bytes (10xxxxxx). *)
Fixpoint code_points (s : string) : nat :=
  match s with
  | EmptyString => 0%nat
  | String c s' =>
      let n := Z.of_N (N_of_ascii c) in
      if (128 <=? n) && (n <? 192) then code_points s'
      else S (code_points s')
  end.

(** [len(v)]. *)
Definition py_len (v : value) : result Z :=
  match v with
  | VDict d => Ret (Z.of_nat (size d))
  | VList l => Ret (Z.of_nat (List.length l))
  | VStr s => Ret (Z.of_nat (code_points s))
  | _ => Raise TypeError
  end.

(** The integer a counter holds, when it holds one ([bool] is an [int]). *)
Definition as_int (v : value) : option Z :=
  match v with
  | VInt z => Some z
  | VBool b => Some (Z.b2z b)
  | _ => None
  end.

(* ===================================================================== *)
(** ** Floating point: [a / b] on integers and [round(x, 2)] *)
(* ===================================================================== *)

(** An integer below 2^53 as a binary64 float (exact). *)
Definition float_of_Z (z : Z) : float :=
  if z <? 0 then PrimFloat.opp (PrimFloat.of_uint63 (Uint63.of_Z (- z)))
  else PrimFloat.of_uint63 (Uint63.of_Z z).

(** True division of two integers below 2^53: the correctly rounded
    quotient. *)
Definition int_true_div (a b : Z) : float :=
  PrimFloat.div (float_of_Z a) (float_of_Z b).

(** Round half to even of [n / d], for [d > 0]. *)
Definition round_half_even (n d : Z) : Z :=
  let q := n / d in
  let r := n mod d in
  if 2 * r <? d then q
  else if d <? 2 * r then q + 1
  else if Z.even q then q else q + 1.

(** Round half to even of [m * 2^e * 100]. *)
Definition scaled_hundredths (m e : Z) : Z :=
  if 0 <=? e then m * 2 ^ e * 100
  else round_half_even (m * 100) (2 ^ (- e)).

(** [round(x, 2)] on a float: the exact binary value is rounded, half to
    even, to two decimals, and the decimal result is converted back to the
    nearest float.  Zeros, infinities and NaN are returned as they are. *)
Definition py_round2 (x : float) : float :=
  match Prim2SF x with
  | S754_finite s m e =>
      let n := scaled_hundredths (Zpos m) e in
      let r := PrimFloat.div (float_of_Z n) 100%float in
      if s then PrimFloat.opp r else r
  | _ => x
  end.

(** What rounding to two decimals means, in exact arithmetic: [n] is the
    integer nearest to [100 * m * 2^e], and of two equally near the even
    one. *)
Definition nearest_hundredths (m e n : Z) : Prop :=
  let num := 100 * m * 2 ^ Z.max e 0 in
  let den := 2 ^ Z.max (- e) 0 in
  2 * Z.abs (num - n * den) <= den /\
  (2 * Z.abs (num - n * den) = den -> Z.even n = true).

(** [r] is [x] rounded to two decimals: for a finite [x] other than zero,
    of exact value [+/- m * 2^e], the float of [n / 100] with that sign,
    [n] being the hundredths nearest to the exact value; a zero, an
    infinity and NaN are their own rounding. *)
Definition rounded_to_2_decimals (x r : float) : Prop :=
  match Prim2SF x with
  | S754_finite s m e =>
      exists n : Z,
        nearest_hundredths (Zpos m) e n /\
        r = (let q := PrimFloat.div (float_of_Z n) 100%float in
             if s then PrimFloat.opp q else q)
  | _ => r = x
  end.

(* ===================================================================== *)
(** ** Dates and times ([datetime]) *)
(* ===================================================================== *)

Record date := mk_date { year : Z; month : Z; day : Z }.

(** A [datetime]; [tzinfo] is the UTC offset, in microseconds, of an aware
    value and [None] for a naive one, as [datetime.now()] returns. *)
Record datetime := mk_datetime {
  dt_date : date;
  hour : Z;
  minute : Z;
  second : Z;
  microsecond : Z;
  tzinfo : option Z
}.

Definition is_leap (y : Z) : bool :=
  (y mod 4 =? 0) && (negb (y mod 100 =? 0) || (y mod 400 =? 0)).

Definition days_in_month (y m : Z) : Z :=
  if m =? 2 then (if is_leap y then 29 else 28)
  else if (m =? 4) || (m =? 6) || (m =? 9) || (m =? 11) then 30
  else 31.

(** [MINYEAR = 1], [MAXYEAR = 9999]. *)
Definition valid_date (d : date) : bool :=
  (1 <=? year d) && (year d <=? 9999) &&
  (1 <=? month d) && (month d <=? 12) &&
  (1 <=? day d) && (day d <=? days_in_month (year d) (month d)).

Definition valid_time (t : datetime) : bool :=
  (0 <=? hour t) && (hour t <? 24) &&
  (0 <=? minute t) && (minute t <? 60) &&
  (0 <=? second t) && (second t <? 60) &&
  (0 <=? microsecond t) && (microsecond t <? 1000000).

Definition valid_datetime (t : datetime) : bool :=
  valid_date (dt_date t) && valid_time t.

(** Comparison of dates, as [date.__lt__] does it: on (year, month, day). *)
Definition date_compare (a b : date) : comparison :=
  match year a ?= year b with
  | Eq => match month a ?= month b with
          | Eq => day a ?= day b
          | c => c
          end
  | c => c
  end.

Definition date_ltb (a b : date) : bool :=
  match date_compare a b with Lt => true | _ => false end.

Definition date_leb (a b : date) : bool :=
  match date_compare a b with Gt => false | _ => true end.

(** The day before; [None] is the [OverflowError] below 0001-01-01. *)
Definition prev_day (d : date) : option date :=
  if 1 <? day d then Some (mk_date (year d) (month d) (day d - 1))
  else if 1 <? month d then
    Some (mk_date (year d) (month d - 1) (days_in_month (year d) (month d - 1)))
  else if 1 <? year d then Some (mk_date (year d - 1) 12 31)
  else None.

(** [d - timedelta(days=n)]. *)
Fixpoint sub_days (n : nat) (d : date) : option date :=
  match n with
  | O => Some d
  | S n' => match prev_day d with
            | Some p => sub_days n' p
            | None => None
            end
  end.

(** [date.toordinal()]: 0001-01-01 is day 1. *)
Definition days_before_year (y : Z) : Z :=
  let y' := y - 1 in
  y' * 365 + y' / 4 - y' / 100 + y' / 400.

Fixpoint days_before_month_nat (y : Z) (m : nat) : Z :=
  match m with
  | O => 0
  | S m' => days_before_month_nat y m' + days_in_month y (Z.of_nat m)
  end.

Definition days_before_month (y m : Z) : Z :=
  days_before_month_nat y (Z.to_nat (m - 1)).

Definition toordinal (d : date) : Z :=
  days_before_year (year d) + days_before_month (year d) (month d) + day d.

(** Microseconds since the start of day 0, for a naive datetime. *)
Definition to_microseconds (t : datetime) : Z :=
  (((toordinal (dt_date t) * 24 + hour t) * 60 + minute t) * 60 + second t)
  * 1000000 + microsecond t.

(** [(a - b).days] for two naive datetimes: a [timedelta] is normalised
    with its seconds and microseconds non-negative, so [days] is the
    floor. *)
Definition delta_days (a b : datetime) : Z :=
  (to_microseconds a - to_microseconds b) / 86400000000.

(** [a - b]: mixing a naive and an aware datetime raises [TypeError]. *)
Definition datetime_sub_days (a b : datetime) : result Z :=
  match tzinfo a, tzinfo b with
  | None, None => Ret (delta_days a b)
  | Some oa, Some ob =>
      Ret ((to_microseconds a - oa - (to_microseconds b - ob)) / 86400000000)
  | _, _ => Raise TypeError
  end.

(** A date as one number that orders as the date does. *)
Definition date_index (d : date) : Z :=
  (year d * 16 + month d) * 32 + day d.

(** *** Formatting *)

Definition digit (n : Z) : ascii :=
  ascii_of_N (48 + Z.to_N (n mod 10)).

(** [n] in decimal, zero-padded to [w] digits ([%02d], [%04d], [%06d]). *)
Fixpoint pad (w : nat) (n : Z) : string :=
  match w with
  | O => ""
  | S w' => pad w' (n / 10) ++ String (digit n) ""
  end.

(** [%Y] of [strftime] as glibc prints it (Python on Linux): the year in
    decimal, without padding, so 999 gives three digits.  Other C libraries
    pad the year to four digits; from the year 1000 on all of them give the
    same string.  The year of a [datetime] is between 1 and 9999. *)
Definition strftime_Y (y : Z) : string :=
  if y <? 10 then pad 1 y
  else if y <? 100 then pad 2 y
  else if y <? 1000 then pad 3 y
  else pad 4 y.

(** [strftime("%Y-%m-%d")]. *)
Definition strftime_ymd (d : date) : string :=
  strftime_Y (year d) ++ "-" ++ pad 2 (month d) ++ "-" ++ pad 2 (day d).

(** [isoformat()] of a naive datetime, which Python formats itself: the
    year always has four digits, and the fraction is left out when the
    microsecond is 0. *)
Definition isoformat (t : datetime) : string :=
  pad 4 (year (dt_date t)) ++ "-" ++ pad 2 (month (dt_date t)) ++ "-" ++
  pad 2 (day (dt_date t)) ++ "T" ++ pad 2 (hour t) ++ ":" ++
  pad 2 (minute t) ++ ":" ++ pad 2 (second t) ++
  (if microsecond t =? 0 then "" else "." ++ pad 6 (microsecond t)).

(** [a >= b] on strings. *)
Definition str_ge (a b : string) : bool :=
  match String.compare a b with Lt => false | _ => true end.

(* ===================================================================== *)
(** ** The host: configuration store, event log, and the monad *)
(* ===================================================================== *)

(** What the module does to the outside, in order. *)
Inductive event :=
| EvWriteConfig (c : dict)
| EvThreadStart
| EvHttpPost (url : value) (payload : dict).

(** [config] is what [mw.addonManager.getConfig(ADDON_NAME)] returns:
    [None] when the add-on has no configuration. *)
Record world := mk_world {
  config : option dict;
  events : list event
}.

(** A computation reads and changes the world and returns or raises; an
    exception keeps the changes made before it. *)
Definition M (A : Type) : Type := world -> result A * world.

#[export] Instance M_ret : MRet M := fun A a w => (Ret a, w).

#[export] Instance M_bind : MBind M := fun A B k m w =>
  match m w with
  | (Ret a, w') => k a w'
  | (Raise e, w') => (Raise e, w')
  end.

Definition raise {A : Type} (e : exn) : M A := fun w => (Raise e, w).

Definition lift {A : Type} (r : result A) : M A := fun w => (r, w).

(** [try: body except: handler] with a handler that catches everything. *)
Definition try_except {A : Type} (body : M A) (handler : M A) : M A :=
  fun w =>
    match body w with
    | (Ret a, w') => (Ret a, w')
    | (Raise _, w') => handler w'
    end.

(** The world a computation leaves, whether it returned or raised. *)
Definition exec {A : Type} (m : M A) (w : world) : world := snd (m w).

Definition getConfig : M (option dict) := fun w => (Ret (config w), w).

Definition writeConfig (c : dict) : M unit := fun w =>
  (Ret tt, mk_world (Some c) (events w ++ [EvWriteConfig c])).

(** [getConfig(ADDON_NAME) or {}]. *)
Definition config_or_empty (c : option dict) : dict := default ∅ c.

(** The receiver of [.get]: anything but a dict has no such method. *)
Definition expect_dict (e : exn) (v : value) : M dict :=
  match v with
  | VDict d => mret d
  | _ => raise e
  end.

(* ===================================================================== *)
(** ** analytics.py *)
(* ===================================================================== *)

(** Lines 13-16. *)
Definition get_analytics_data : M value :=
  c ← getConfig;
  mret (dict_get_default "analytics" (VDict ∅) (config_or_empty c)).

(** Lines 19-23. *)
Definition save_analytics_data (analytics : value) : M unit :=
  c ← getConfig;
  writeConfig (<["analytics" := analytics]> (config_or_empty c)).

(** What the locale detection of [get_locale_info] found. *)
Record locale_probe := mk_probe {
  getdefaultlocale : value * value;
  platform_system : string;
  tz_name : value
}.

(** The machine the add-on runs on; [probe = None] when the detection
    raised. *)
Record host := mk_host {
  sys_platform : string;
  probe : option locale_probe
}.

(** Lines 230-248: the dict of what was detected, or [{}] when anything in
    the detection raised.  [getdefaultlocale()] returns a pair, so
    [user_locale[0] if user_locale else None] is its first component. *)
Definition get_locale_info (h : host) : dict :=
  match probe h with
  | Some p =>
      <["locale" := fst (getdefaultlocale p)]>
      (<["encoding" := snd (getdefaultlocale p)]>
      (<["platform" := VStr (platform_system p)]>
      (<["timezone" := tz_name p]> ∅)))
  | None => ∅
  end.

(** Lines 26-54. *)
Definition init_analytics (now : datetime) (h : host) : M unit :=
  analytics ← get_analytics_data;
  a ← expect_dict AttributeError analytics;
  if negb (truthy (dict_get "first_install_date" a)) then
    let locale_info := get_locale_info h in
    let a := <["first_install_date" := VStr (isoformat now)]> a in
    let a := <["platform" := VStr (sys_platform h)]> a in
    let a := <["locale" := dict_get "locale" locale_info]> a in
    let a := <["timezone" := dict_get "timezone" locale_info]> a in
    let a := <["total_uses" := VInt 0]> a in
    let a := <["daily_usage" := VDict ∅]> a in
    let a := <["last_used_date" := VNone]> a in
    let a := <["signup_method" := VNone]> a in
    let a := <["has_logged_in" := VBool false]> a in
    let a := <["auth_button_clicked" := VNone]> a in
    let a := <["onboarding_completed" := VBool false]> a in
    let a := <["tutorial_status" := VNone]> a in
    let a := <["tutorial_current_step" := VNone]> a in
    let a := <["quick_action_usage_count" := VInt 0]> a in
    let a := <["shortcut_usage_count" := VInt 0]> a in
    save_analytics_data (VDict a)
  else mret tt.

(** Lines 181-195.  The dict is changed in place in the source; here the
    changed dict is returned. *)
Definition cleanup_old_daily_data (now : datetime) (a : dict) : M dict :=
  match a !! "daily_usage" with
  | None => mret a
  | Some v =>
      match sub_days 90 (dt_date now) with
      | None => raise OverflowError
      | Some cutoff_date =>
          let cutoff_str := strftime_ymd cutoff_date in
          daily_usage ← expect_dict AttributeError v;
          mret (<["daily_usage" :=
                    VDict (filter (λ kv, str_ge kv.1 cutoff_str = true)
                                  daily_usage)]> a)
      end
  end.

(** Lines 57-76.  [now] is the clock read at the top of the function,
    [now'] the one read in [cleanup_old_daily_data]. *)
Definition track_usage (now now' : datetime) : M unit :=
  analytics ← get_analytics_data;
  a ← expect_dict AttributeError analytics;
  let today := strftime_ymd (dt_date now) in
  n ← lift (py_add_one (dict_get_default "total_uses" (VInt 0) a));
  let a := <["total_uses" := n]> a in
  daily_usage ←
    expect_dict AttributeError (dict_get_default "daily_usage" (VDict ∅) a);
  c ← lift (py_add_one (dict_get_default today (VInt 0) daily_usage));
  let daily_usage := <[today := c]> daily_usage in
  let a := <["daily_usage" := VDict daily_usage]> a in
  let a := <["last_used_date" := VStr today]> a in
  a ← cleanup_old_daily_data now' a;
  save_analytics_data (VDict a).

(** Lines 79-92: the record is saved on both branches. *)
Definition track_signup_click (method : string) (now : datetime) : M unit :=
  analytics ← get_analytics_data;
  a ← expect_dict AttributeError analytics;
  let a :=
    if negb (truthy (dict_get "signup_method" a)) then
      <["signup_date" := VStr (isoformat now)]>
        (<["signup_method" := VStr method]> a)
    else a in
  save_analytics_data (VDict a).

(** Lines 95-108. *)
Definition track_auth_button_click (button_type : string) (now : datetime)
  : M unit :=
  analytics ← get_analytics_data;
  a ← expect_dict AttributeError analytics;
  if negb (truthy (dict_get "auth_button_clicked" a)) then
    save_analytics_data
      (VDict (<["auth_button_click_date" := VStr (isoformat now)]>
                (<["auth_button_clicked" := VStr button_type]> a)))
  else mret tt.

(** Lines 111-118. *)
Definition track_login_detected (now : datetime) : M unit :=
  analytics ← get_analytics_data;
  a ← expect_dict AttributeError analytics;
  if negb (truthy (dict_get "has_logged_in" a)) then
    save_analytics_data
      (VDict (<["first_login_date" := VStr (isoformat now)]>
                (<["has_logged_in" := VBool true]> a)))
  else mret tt.

(** Lines 121-124. *)
Definition is_user_logged_in : M value :=
  analytics ← get_analytics_data;
  a ← expect_dict AttributeError analytics;
  mret (dict_get_default "has_logged_in" (VBool false) a).

(** Lines 127-132. *)
Definition track_onboarding_completed : M unit :=
  analytics ← get_analytics_data;
  a ← expect_dict AttributeError analytics;
  if negb (truthy (dict_get "onboarding_completed" a)) then
    save_analytics_data (VDict (<["onboarding_completed" := VBool true]> a))
  else mret tt.

(** Lines 135-151. *)
Definition track_tutorial_status (status : string) : M unit :=
  analytics ← get_analytics_data;
  a ← expect_dict AttributeError analytics;
  let current := dict_get "tutorial_status" a in
  if py_ne_str current "completed" then
    save_analytics_data (VDict (<["tutorial_status" := VStr status]> a))
  else mret tt.

(** [f"{current}/{total}"]. *)
Definition step_string (current total : Z) : string :=
  pretty current ++ "/" ++ pretty total.

(** Lines 154-164: the first use of the record is an item assignment,
    which raises [TypeError] on anything but a dict. *)
Definition track_tutorial_step (current total : Z) : M unit :=
  analytics ← get_analytics_data;
  a ← expect_dict TypeError analytics;
  save_analytics_data
    (VDict (<["tutorial_current_step" := VStr (step_string current total)]> a)).

(** Lines 167-171. *)
Definition track_quick_action_used : M unit :=
  analytics ← get_analytics_data;
  a ← expect_dict AttributeError analytics;
  n ← lift (py_add_one (dict_get_default "quick_action_usage_count" (VInt 0) a));
  save_analytics_data (VDict (<["quick_action_usage_count" := n]> a)).

(** Lines 174-178. *)
Definition track_shortcut_used : M unit :=
  analytics ← get_analytics_data;
  a ← expect_dict AttributeError analytics;
  n ← lift (py_add_one (dict_get_default "shortcut_usage_count" (VInt 0) a));
  save_analytics_data (VDict (<["shortcut_usage_count" := n]> a)).

(** [round(v, 2)]: an [int] is returned as it is. *)
Definition py_round_2 (v : value) : result value :=
  match v with
  | VFloat f => Ret (VFloat (py_round2 f))
  | VInt z => Ret (VInt z)
  | VBool b => Ret (VInt (Z.b2z b))
  | _ => Raise TypeError
  end.

(** Lines 283-300: the payload of the upload. *)
Definition build_payload (a : dict) : dict :=
  <["first_install_date" := dict_get "first_install_date" a]>
  (<["platform" := dict_get "platform" a]>
  (<["locale" := dict_get "locale" a]>
  (<["timezone" := dict_get "timezone" a]>
  (<["total_uses" := dict_get_default "total_uses" (VInt 0) a]>
  (<["has_logged_in" := dict_get_default "has_logged_in" (VBool false) a]>
  (<["signup_method" := dict_get "signup_method" a]>
  (<["auth_button_clicked" := dict_get "auth_button_clicked" a]>
  (<["last_used_date" := dict_get "last_used_date" a]>
  (<["onboarding_completed" :=
       dict_get_default "onboarding_completed" (VBool false) a]>
  (<["tutorial_status" := dict_get "tutorial_status" a]>
  (<["tutorial_current_step" := dict_get "tutorial_current_step" a]>
  (<["quick_action_usage_count" :=
       dict_get_default "quick_action_usage_count" (VInt 0) a]>
  (<["shortcut_usage_count" :=
       dict_get_default "shortcut_usage_count" (VInt 0) a]> ∅))))))))))))).

(** How the one HTTP exchange of an upload ends.  [RequestError] is an
    exception raised before anything is sent (serialising the payload,
    building the request); the other three are what [urlopen] does. *)
Inductive http_result :=
| HttpResponse (status : Z)
| NetworkError
| Timeout
| RequestError.

Definition urlopen (url : value) (payload : dict) (net : http_result) : M Z :=
  match net with
  | RequestError => raise ValueError
  | HttpResponse status => fun w =>
      (Ret status, mk_world (config w) (events w ++ [EvHttpPost url payload]))
  | NetworkError | Timeout => fun w =>
      (Raise URLError, mk_world (config w) (events w ++ [EvHttpPost url payload]))
  end.

(** Lines 269-328: the body of the background thread, [_send]. *)
Definition _send (net : http_result) (now : datetime) : M unit :=
  try_except
    (c ← getConfig;
     let endpoint_url := dict_get "analytics_endpoint" (config_or_empty c) in
     if negb (truthy endpoint_url) then mret tt
     else
       analytics ← get_analytics_data;
       a ← expect_dict AttributeError analytics;
       let payload := build_payload a in
       status ← urlopen endpoint_url payload net;
       if status =? 200 then
         save_analytics_data
           (VDict (<["last_analytics_sent" := VStr (isoformat now)]> a))
       else mret tt)
    (mret tt).

(** Lines 267-332: starting the thread returns at once; its body runs
    later. *)
Definition send_analytics_background : M unit := fun w =>
  (Ret tt, mk_world (config w) (events w ++ [EvThreadStart])).

(** [_send] waits in [urlopen] while the main thread goes on.  This is
    the rest of its body from the answer on, with the record [a] it read
    before the request. *)
Definition _send_after (a : dict) (net : http_result) (now : datetime)
  : M unit :=
  try_except
    (status ← match net with
              | HttpResponse status => mret status
              | _ => raise URLError
              end;
     if status =? 200 then
       save_analytics_data
         (VDict (<["last_analytics_sent" := VStr (isoformat now)]> a))
     else mret tt)
    (mret tt).

Section WithParser.

(** [datetime.fromisoformat]: [None] is its [ValueError]. *)
Variable fromisoformat : string -> option datetime.

Definition py_fromisoformat (v : value) : M datetime :=
  match v with
  | VStr s =>
      match fromisoformat s with
      | Some t => mret t
      | None => raise ValueError
      end
  | _ => raise TypeError
  end.

(** Lines 198-227. *)
Definition get_retention_metrics (now : datetime) : M dict :=
  analytics ← get_analytics_data;
  a ← expect_dict AttributeError analytics;
  if negb (truthy (dict_get "first_install_date" a)) then mret (∅ : dict)
  else
    first_install ← py_fromisoformat (dict_get "first_install_date" a);
    days_since_install ← lift (datetime_sub_days now first_install);
    let daily_usage := dict_get_default "daily_usage" (VDict ∅) a in
    active_days ← lift (py_len daily_usage);
    let retention_rate :=
      if 0 <? days_since_install then
        VFloat (int_true_div active_days (Z.max days_since_install 1)
                * 100)%float
      else VInt 0 in
    rounded ← lift (py_round_2 retention_rate);
    mret (M := M)
         (<["days_since_install" := VInt days_since_install]>
         (<["active_days" := VInt active_days]>
         (<["total_uses" := dict_get_default "total_uses" (VInt 0) a]>
         (<["retention_rate" := rounded]>
         (<["last_used" := dict_get "last_used_date" a]>
         (<["has_logged_in" :=
              dict_get_default "has_logged_in" (VBool false) a]>
         (<["signup_method" := dict_get "signup_method" a]>
            (∅ : dict)))))))).

(** Lines 251-264: the lookup is outside the [try], the parse and the
    comparison inside. *)
Definition should_send_analytics (now : datetime) : M bool :=
  analytics ← get_analytics_data;
  a ← expect_dict AttributeError analytics;
  let last_sent := dict_get "last_analytics_sent" a in
  if negb (truthy last_sent) then mret true
  else
    try_except
      (last_sent_dt ← py_fromisoformat last_sent;
       let last_sent_date := dt_date last_sent_dt in
       let today := dt_date now in
       mret (date_ltb last_sent_date today))
      (mret true).

(** Lines 335-338. *)
Definition try_send_daily_analytics (now : datetime) : M unit :=
  b ← should_send_analytics now;
  if (b : bool) then send_analytics_background else mret tt.

End WithParser.

(** A parser for the two shapes [isoformat] writes for a naive datetime,
    [YYYY-MM-DDTHH:MM:SS] and [YYYY-MM-DDTHH:MM:SS.ffffff], which every
    version of [datetime.fromisoformat] reads back; it serves as the
    parser of the concrete examples. *)
Definition digit_val (c : ascii) : option Z :=
  let n := Z.of_N (N_of_ascii c) in
  if (48 <=? n) && (n <=? 57) then Some (n - 48) else None.

Fixpoint read_digits (w : nat) (acc : Z) (s : string) : option (Z * string) :=
  match w with
  | O => Some (acc, s)
  | S w' =>
      match s with
      | String c s' =>
          match digit_val c with
          | Some d => read_digits w' (acc * 10 + d) s'
          | None => None
          end
      | EmptyString => None
      end
  end.

Definition expect_char (c : ascii) (s : string) : option string :=
  match s with
  | String c' s' => if Ascii.eqb c c' then Some s' else None
  | EmptyString => None
  end.

Definition parse_isoformat (s : string) : option datetime :=
  '(y, s) ← read_digits 4 0 s;
  s ← expect_char "-" s;
  '(mo, s) ← read_digits 2 0 s;
  s ← expect_char "-" s;
  '(d, s) ← read_digits 2 0 s;
  s ← expect_char "T" s;
  '(h, s) ← read_digits 2 0 s;
  s ← expect_char ":" s;
  '(mi, s) ← read_digits 2 0 s;
  s ← expect_char ":" s;
  '(sec, s) ← read_digits 2 0 s;
  '(us, s) ← match s with
             | EmptyString => Some (0, s)
             | _ => s ← expect_char "." s; read_digits 6 0 s
             end;
  let t := mk_datetime (mk_date y mo d) h mi sec us None in
  match s with
  | EmptyString => if valid_datetime t then Some t else None
  | _ => None
  end.

(* ===================================================================== *)
(** ** Reading the stored record and the event log *)
(* ===================================================================== *)

(** The analytics record a world holds, as [get_analytics_data] reads it. *)
Definition stored_analytics (w : world) : value :=
  dict_get_default "analytics" (VDict ∅) (config_or_empty (config w)).

(** A field of the stored record; [VNone] when the record is no dict. *)
Definition stored_field (k : string) (w : world) : value :=
  match stored_analytics w with
  | VDict a => dict_get k a
  | _ => VNone
  end.

(** The integer a stored counter holds, read with the default 0 the
    module uses. *)
Definition stored_counter (k : string) (w : world) : option Z :=
  match stored_analytics w with
  | VDict a => as_int (dict_get_default k (VInt 0) a)
  | _ => None
  end.

(** An install date is stored. *)
Definition installed (w : world) : Prop :=
  truthy (stored_field "first_install_date" w) = true.

(** The endpoint the configuration names. *)
Definition endpoint_url_of (w : world) : value :=
  dict_get "analytics_endpoint" (config_or_empty (config w)).

(** The events a computation added to the log. *)
Definition new_events (w w' : world) : list event :=
  drop (List.length (events w)) (events w').

Definition is_write (e : event) : bool :=
  match e with EvWriteConfig _ => true | _ => false end.

Definition is_thread_start (e : event) : bool :=
  match e with EvThreadStart => true | _ => false end.

Definition is_post (e : event) : bool :=
  match e with EvHttpPost _ _ => true | _ => false end.

Definition count_events (p : event -> bool) (l : list event) : nat :=
  List.length (List.filter p l).

(** The world after the POST has been made. *)
Definition posted (w : world) (a : dict) : world :=
  mk_world (config w)
           (events w ++ [EvHttpPost (endpoint_url_of w) (build_payload a)]).

(* ===================================================================== *)
(** ** The keys of the payload *)
(* ===================================================================== *)

(** The keys [build_payload] gives a payload. *)
Definition payload_keys : gset string :=
  list_to_set
    ["first_install_date"; "platform"; "locale"; "timezone"; "total_uses";
     "has_logged_in"; "signup_method"; "auth_button_clicked";
     "last_used_date"; "onboarding_completed"; "tutorial_status";
     "tutorial_current_step"; "quick_action_usage_count";
     "shortcut_usage_count"].

(** The fields of the analytics record as the specification's data model
    lists them (section 3 of the specification, not the source). *)
Definition spec_data_model_fields : gset string :=
  list_to_set
    ["first_install_date"; "platform"; "locale"; "timezone"; "total_uses";
     "daily_usage"; "last_used_date"; "signup_method"; "auth_button_clicked";
     "has_logged_in"; "onboarding_completed"; "tutorial_status";
     "tutorial_current_step"; "quick_action_usage_count";
     "shortcut_usage_count"; "last_analytics_sent"].

(** The default [build_payload] reads a key with. *)
Definition payload_default (k : string) : value :=
  if bool_decide (k ∈ ({["total_uses"; "quick_action_usage_count";
                         "shortcut_usage_count"]} : gset string))
  then VInt 0
  else if bool_decide (k ∈ ({["has_logged_in"; "onboarding_completed"]}
                              : gset string))
  then VBool false
  else VNone.

(** The retention rate as the specification writes it (section 4.1 of the
    specification, not the source):
    [100 * active_days / max(days_since_install, 1)], rounded to two
    decimal places.  First in hundredths, over the exact quotient; then as
    the float the expression gives when it is evaluated as it is
    written. *)
Definition spec_retention_rate_hundredths
  (active_days days_since_install : Z) : Z :=
  round_half_even (100 * (100 * active_days)) (Z.max days_since_install 1).

Definition spec_retention_rate (active_days days_since_install : Z) : float :=
  py_round2 (int_true_div (100 * active_days) (Z.max days_since_install 1)).

(* ===================================================================== *)
(** ** Sequences of ledger operations *)
(* ===================================================================== *)

(** One call of the ledger, with the clock readings, the machine and the
    network answer it meets. *)
Inductive ledger_op :=
| OpInitialize (now : datetime) (h : host)
| OpRecordUsage (now now' : datetime)
| OpSignupClick (method : string) (now : datetime)
| OpAuthButtonClick (button_type : string) (now : datetime)
| OpLoginDetected (now : datetime)
| OpOnboardingCompleted
| OpTutorialStatus (status : string)
| OpTutorialStep (current total : Z)
| OpQuickAction
| OpShortcut
| OpFlush (net : http_result) (now : datetime).

(** The world after the call, whether it returned or raised; a flush runs
    to its end before the next call. *)
Definition run_op (o : ledger_op) (w : world) : world :=
  match o with
  | OpInitialize now h => exec (init_analytics now h) w
  | OpRecordUsage now now' => exec (track_usage now now') w
  | OpSignupClick method now => exec (track_signup_click method now) w
  | OpAuthButtonClick button_type now =>
      exec (track_auth_button_click button_type now) w
  | OpLoginDetected now => exec (track_login_detected now) w
  | OpOnboardingCompleted => exec track_onboarding_completed w
  | OpTutorialStatus status => exec (track_tutorial_status status) w
  | OpTutorialStep current total => exec (track_tutorial_step current total) w
  | OpQuickAction => exec track_quick_action_used w
  | OpShortcut => exec track_shortcut_used w
  | OpFlush net now => exec (_send net now) w
  end.

Definition run_ops (ops : list ledger_op) (w : world) : world :=
  fold_left (fun w o => run_op o w) ops w.

Definition counter_keys : list string :=
  ["total_uses"; "quick_action_usage_count"; "shortcut_usage_count"].

(** Every counter that holds an integer in [w] holds one at least as large
    in [w']. *)
Definition counters_le (w w' : world) : Prop :=
  forall (k : string) (n : Z),
    In k counter_keys ->
    stored_counter k w = Some n ->
    exists n', stored_counter k w' = Some n' /\ n <= n'.

Definition record_grows (a a' : dict) : Prop :=
  truthy (dict_get "first_install_date" a') = true /\
  forall (k : string) (n : Z),
    In k counter_keys ->
    as_int (dict_get_default k (VInt 0) a) = Some n ->
    exists n', as_int (dict_get_default k (VInt 0) a') = Some n' /\ n <= n'.

(** The call an operation stands for. *)
Definition op_call (o : ledger_op) : M unit :=
  match o with
  | OpInitialize now h => init_analytics now h
  | OpRecordUsage now now' => track_usage now now'
  | OpSignupClick method now => track_signup_click method now
  | OpAuthButtonClick button_type now =>
      track_auth_button_click button_type now
  | OpLoginDetected now => track_login_detected now
  | OpOnboardingCompleted => track_onboarding_completed
  | OpTutorialStatus status => track_tutorial_status status
  | OpTutorialStep current total => track_tutorial_step current total
  | OpQuickAction => track_quick_action_used
  | OpShortcut => track_shortcut_used
  | OpFlush net now => _send net now
  end.

(** The keys of the record a call assigns to. *)
Definition touched (o : ledger_op) : list string :=
  match o with
  | OpInitialize _ _ =>
      ["first_install_date"; "platform"; "locale"; "timezone"; "total_uses";
       "daily_usage"; "last_used_date"; "signup_method"; "has_logged_in";
       "auth_button_clicked"; "onboarding_completed"; "tutorial_status";
       "tutorial_current_step"; "quick_action_usage_count";
       "shortcut_usage_count"]
  | OpRecordUsage _ _ => ["total_uses"; "daily_usage"; "last_used_date"]
  | OpSignupClick _ _ => ["signup_method"; "signup_date"]
  | OpAuthButtonClick _ _ => ["auth_button_clicked"; "auth_button_click_date"]
  | OpLoginDetected _ => ["has_logged_in"; "first_login_date"]
  | OpOnboardingCompleted => ["onboarding_completed"]
  | OpTutorialStatus _ => ["tutorial_status"]
  | OpTutorialStep _ _ => ["tutorial_current_step"]
  | OpQuickAction => ["quick_action_usage_count"]
  | OpShortcut => ["shortcut_usage_count"]
  | OpFlush _ _ => ["last_analytics_sent"]
  end.

(** [a'] holds what [a] holds under every key outside [ks]. *)
Definition same_off (ks : list string) (a a' : dict) : Prop :=
  forall k : string, k ∉ ks -> a' !! k = a !! k.

(** What one call does to the world: nothing (it returned or raised with
    the world as it was), one POST and nothing else, or one write of a
    record that differs from the stored one only under the keys of
    [touched], after a POST when the call is an upload. *)
Definition op_outcome (o : ledger_op) (w : world) : Prop :=
  op_call o w = (Ret tt, w)
  \/ (exists e, op_call o w = (Raise e, w))
  \/ (exists a net now,
        o = OpFlush net now /\ op_call o w = (Ret tt, posted w a))
  \/ (exists a a' w0,
        stored_analytics w = VDict a /\
        (w0 = w \/ (exists net now, o = OpFlush net now) /\ w0 = posted w a) /\
        op_call o w = save_analytics_data (VDict a') w0 /\
        same_off (touched o) a a').


(** The record counts [t] uses in all and [c] uses on day [D]. *)
Definition usage_state (D : date) (t c : Z) (w : world) : Prop :=
  exists a du : dict,
    stored_analytics w = VDict a /\
    dict_get_default "total_uses" (VInt 0) a = VInt t /\
    dict_get_default "daily_usage" (VDict ∅) a = VDict du /\
    dict_get_default (strftime_ymd D) (VInt 0) du = VInt c.

(** The calls of [track_usage] at the given pairs of clock readings. *)
Definition usage_calls (nows : list (datetime * datetime)) : list ledger_op :=
  List.map (fun p => OpRecordUsage (fst p) (snd p)) nows.

(** The sum of the counts of a [daily_usage]. *)
Definition daily_sum (du : dict) : Z :=
  map_fold (fun (_ : string) (v : value) (acc : Z) =>
              acc + default 0 (as_int v)) 0 du.

(** The record holds an integer [total_uses] and daily counts that are
    non-negative integers summing to at most [total_uses]; missing fields
    read as 0 and as no counts. *)
Definition usage_consistent (w : world) : Prop :=
  exists (a du : dict) (t : Z),
    stored_analytics w = VDict a /\
    dict_get_default "total_uses" (VInt 0) a = VInt t /\
    dict_get_default "daily_usage" (VDict ∅) a = VDict du /\
    (forall k v, du !! k = Some v -> exists z, v = VInt z /\ 0 <= z) /\
    daily_sum du <= t.

(* ===================================================================== *)
(** ** The other writers of the configuration, and the tutorial's data *)
(* ===================================================================== *)

(** Of the widget classes, what is modelled is the data the Python code
    keeps itself (dicts, lists, sets and flags) and what it writes to the
    add-on's configuration; the calls into Qt (styles, geometry, timers,
    animations) are left out. *)

(** [OnboardingAccordion.complete_onboarding], onboarding_accordion.py
    lines 470-484: the write is inside a [try] that swallows everything. *)
Definition complete_onboarding : M unit :=
  try_except
    (c ← getConfig;
     writeConfig (<["onboarding_completed" := VBool true]> (config_or_empty c)))
    (mret tt).

(** [QuickActionsSettingsView.save_shortcuts], settings_quick_actions.py
    lines 256-260: the configuration is used as it comes, so the item
    assignment raises [TypeError] when there is none. *)
Definition save_shortcuts (shortcuts : value) : M unit :=
  c ← getConfig;
  match c with
  | Some config => writeConfig (<["quick_actions" := shortcuts]> config)
  | None => raise TypeError
  end.

(** A task of the tutorial checklist: the ["id"] and ["completed"] entries
    of the dict built in [create_section], tutorial.py lines 426-434. *)
Record task := mk_task {
  task_id : Z;
  completed : bool
}.

(** The [_data] of a section: tutorial.py lines 406-417. *)
Record section_data := mk_section {
  collapsed : bool;
  tasks : list task;
  completed_count : Z;
  total_count : Z
}.

(** The sections [TutorialChecklist.setup_ui] builds, tutorial.py lines
    175-206: all collapsed, nothing completed. *)
Definition new_sections : list section_data :=
  [mk_section true [mk_task 0 false] 0 1;
   mk_section true [mk_task 1 false; mk_task 2 false] 0 2;
   mk_section true [mk_task 3 false] 0 1;
   mk_section true [mk_task 4 false] 0 1].

(** The inner loop of [complete_task]: the first task with this id that is
    not completed is completed; [None] when the loop finds none. *)
Fixpoint complete_in_tasks (id : Z) (ts : list task) : option (list task) :=
  match ts with
  | [] => None
  | t :: rest =>
      if (task_id t =? id) && negb (completed t)
      then Some (mk_task (task_id t) true :: rest)
      else option_map (cons t) (complete_in_tasks id rest)
  end.

(** [TutorialChecklist.complete_task], tutorial.py lines 561-632: the
    first match over the sections is completed, its section counts one
    more, and the function returns. *)
Fixpoint complete_task (id : Z) (secs : list section_data)
  : list section_data :=
  match secs with
  | [] => []
  | s :: rest =>
      match complete_in_tasks id (tasks s) with
      | Some ts =>
          mk_section (collapsed s) ts (completed_count s + 1) (total_count s)
          :: rest
      | None => s :: complete_task id rest
      end
  end.

(** The position a Python list index stands for; [None] is the
    [IndexError]. *)
Definition list_index (len : nat) (i : Z) : option nat :=
  if (0 <=? i) && (i <? Z.of_nat len) then Some (Z.to_nat i)
  else if (- Z.of_nat len <=? i) && (i <? 0) then Some (Z.to_nat (i + Z.of_nat len))
  else None.

(** [TutorialChecklist.toggle_section], tutorial.py lines 516-559: every
    other section that is open is closed, then the section is flipped;
    [None] is the [IndexError] of [self.sections[section_idx]]. *)
Definition toggle_section (section_idx : Z) (secs : list section_data)
  : option (list section_data) :=
  match list_index (List.length secs) section_idx with
  | None => None
  | Some i =>
      match secs !! i with
      | None => None
      | Some s =>
          let is_currently_collapsed := collapsed s in
          let closed :=
            imap (fun idx other =>
                    if negb (Z.of_nat idx =? section_idx)
                       && negb (collapsed other)
                    then mk_section true (tasks other) (completed_count other)
                           (total_count other)
                    else other) secs in
          Some (alter (fun s' => mk_section (negb is_currently_collapsed)
                                   (tasks s') (completed_count s')
                                   (total_count s')) i closed)
      end
  end.

(** [TutorialManager]: the checklist, when the tutorial is running, and
    the set of tasks seen. *)
Record manager := mk_manager {
  checklist : option (list section_data);
  completed_tasks : gset Z
}.

(** [TutorialManager.__init__], tutorial.py lines 723-727. *)
Definition new_manager : manager := mk_manager None ∅.

(** [TutorialManager.start], tutorial.py lines 729-745: a new checklist;
    the set of tasks seen is kept. *)
Definition start (m : manager) : manager :=
  mk_manager (Some new_sections) (completed_tasks m).

(** The [event_to_task] table of [on_event]. *)
Definition event_to_task (event_name : string) : option Z :=
  if String.eqb event_name "panel_opened" then Some 0
  else if String.eqb event_name "shortcut_used" then Some 2
  else if String.eqb event_name "text_highlighted" then Some 3
  else if String.eqb event_name "settings_opened" then Some 4
  else None.

(** [TutorialManager.on_event], tutorial.py lines 789-810. *)
Definition on_event (event_name : string) (m : manager) : manager :=
  match checklist m with
  | None => m
  | Some c =>
      match event_to_task event_name with
      | Some task_index =>
          if bool_decide (task_index ∈ completed_tasks m) then m
          else
            let seen := {[task_index]} ∪ completed_tasks m in
            let c := complete_task task_index c in
            if (task_index =? 2) && negb (bool_decide (1 ∈ seen))
            then mk_manager (Some (complete_task 1 c)) ({[1]} ∪ seen)
            else mk_manager (Some c) seen
      | None => m
      end
  end.

(** [TutorialManager.complete_tutorial], tutorial.py lines 770-787: the
    checklist is dropped and the configuration records the completion. *)
Definition complete_tutorial (m : manager) : M manager :=
  c ← getConfig;
  writeConfig (<["tutorial_completed" := VBool true]> (config_or_empty c));;
  mret (mk_manager None (completed_tasks m)).

(** The ids of the completed tasks and of the tasks still open. *)
Definition ticked (secs : list section_data) : list Z :=
  flat_map (fun s => List.map task_id (List.filter completed (tasks s))) secs.

Definition pending (secs : list section_data) : list Z :=
  flat_map (fun s => List.map task_id
                       (List.filter (fun t => negb (completed t)) (tasks s)))
           secs.

(** The counts of a section agree with its tasks. *)
Definition section_counts_ok (s : section_data) : Prop :=
  completed_count s = Z.of_nat (List.length (List.filter completed (tasks s)))
  /\ total_count s = Z.of_nat (List.length (tasks s)).

(** The manager after a sequence of events, each handled by [on_event]. *)
Definition after_events (events : list string) (m : manager) : manager :=
  fold_left (fun m e => on_event e m) events m.

(** Records that are no dict: a [null] stored under ["analytics"]. *)
Definition world_null_record : world :=
  mk_world (Some {["analytics" := VNone]}) [].


(* ===================================================================== *)
(** ** Sample clock readings, machines and records *)
(* ===================================================================== *)

Definition now_jan14 : datetime := mk_datetime (mk_date 2026 1 14) 10 0 0 0 None.

(** A machine whose locale detection raises. *)
Definition host_no_locale : host := mk_host "linux" None.

(** A record whose tutorial was skipped. *)
Definition world_skipped : world :=
  mk_world (Some {["analytics" := VDict {["tutorial_status" := VStr "skip"]}]}) [].

(** A record whose last upload was the day before [now_jan14]. *)
Definition world_sent_yesterday : world :=
  mk_world
    (Some {["analytics" :=
              VDict {["last_analytics_sent" := VStr "2026-01-13T23:59:59.500000"]}]})
    [].

(** A record whose last upload carries the date after [now_jan14]. *)
Definition world_sent_tomorrow : world :=
  mk_world
    (Some {["analytics" :=
              VDict {["last_analytics_sent" := VStr "2026-01-15T00:10:00"]}]})
    [].

(** A record whose [last_analytics_sent] is no timestamp. *)
Definition world_sent_garbled : world :=
  mk_world
    (Some {["analytics" := VDict {["last_analytics_sent" := VStr "yesterday"]}]})
    [].

(** A configuration with an endpoint and a record in use. *)
Definition world_in_use : world :=
  mk_world
    (Some (<["analytics_endpoint" := VStr "https://collector.example/ingest"]>
             {["analytics" :=
                 VDict (<["first_install_date" := VStr "2026-01-04T10:00:00"]>
                          {["total_uses" := VInt 7]})]}))
    [].

(** A record with usage on the cut-off day and on the day before it. *)
Definition world_with_history : world :=
  mk_world
    (Some {["analytics" :=
              VDict (<["total_uses" := VInt 7]>
                    (<["first_install_date" := VStr "2025-09-01T08:00:00"]>
                       {["daily_usage" :=
                           VDict (<["2025-10-15" := VInt 2]>
                                 (<["2025-10-16" := VInt 4]>
                                    {["2026-01-14" := VInt 1]}))]}))]})
    [].

(** A record installed ten days before [now_jan14], used on three days. *)
Definition world_ten_days : world :=
  mk_world
    (Some {["analytics" :=
              VDict (<["first_install_date" := VStr "2026-01-04T09:15:00"]>
                    (<["total_uses" := VInt 5]>
                       {["daily_usage" :=
                           VDict (<["2026-01-04" := VInt 2]>
                                 (<["2026-01-09" := VInt 1]>
                                    {["2026-01-14" := VInt 2]}))]}))]})
    [].

(** A record installed 160 days before [now_jan14], used on 23 days. *)
Definition usage_23_days : dict :=
  list_to_map
    (List.map (fun k : string => (k, VInt 1))
       ["2025-12-01"; "2025-12-02"; "2025-12-03"; "2025-12-04"; "2025-12-05";
        "2025-12-06"; "2025-12-07"; "2025-12-08"; "2025-12-09"; "2025-12-10";
        "2025-12-11"; "2025-12-12"; "2025-12-13"; "2025-12-14"; "2025-12-15";
        "2025-12-16"; "2025-12-17"; "2025-12-18"; "2025-12-19"; "2025-12-20";
        "2025-12-21"; "2025-12-22"; "2025-12-23"]).

Definition record_23_in_160 : dict :=
  <["first_install_date" := VStr "2025-08-07T10:00:00"]>
    {["daily_usage" := VDict usage_23_days]}.

Definition world_23_in_160 : world :=
  mk_world (Some {["analytics" := VDict record_23_in_160]}) [].

(* ===================================================================== *)
(** ** Running the monad *)
(* ===================================================================== *)

Lemma bind_run {A B : Type} (m : M A) (k : A -> M B) (w : world) :
  (m ≫= k) w =
  match m w with
  | (Ret a, w') => k a w'
  | (Raise e, w') => (Raise e, w')
  end.
Proof. reflexivity. Qed.

Lemma get_analytics_data_run (w : world) :
  get_analytics_data w = (Ret (stored_analytics w), w).
Proof. reflexivity. Qed.

Lemma save_analytics_data_run (v : value) (w : world) :
  save_analytics_data v w =
  (Ret tt,
   mk_world (Some (<["analytics" := v]> (config_or_empty (config w))))
            (events w ++
             [EvWriteConfig (<["analytics" := v]> (config_or_empty (config w)))])).
Proof. reflexivity. Qed.

Lemma stored_analytics_saved (v : value) (c : dict) (l : list event) :
  stored_analytics (mk_world (Some (<["analytics" := v]> c)) l) = v.
Proof.
  unfold stored_analytics, dict_get_default, config_or_empty. simpl.
  by rewrite lookup_insert_eq.
Qed.

(** Saving the record that is stored leaves the configuration as it is. *)
Lemma save_stored_config (w : world) (a : dict) :
  stored_analytics w = VDict a ->
  a ≠ ∅ ->
  Some (<["analytics" := VDict a]> (config_or_empty (config w))) = config w.
Proof.
  unfold stored_analytics, dict_get_default, config_or_empty.
  destruct (config w) as [c|]; simpl.
  - destruct (c !! "analytics") as [v|] eqn:Hc; simpl.
    + intros -> _. by rewrite insert_id.
    + intros [= <-] Hne. by destruct Hne.
  - rewrite lookup_empty. simpl. intros [= <-] Hne. by destruct Hne.
Qed.

Lemma dict_get_truthy_nonempty (k : string) (a : dict) :
  truthy (dict_get k a) = true -> a ≠ ∅.
Proof.
  intros H ->. unfold dict_get in H. by rewrite lookup_empty in H.
Qed.

Lemma new_events_app (w : world) (c : option dict) (l : list event) :
  new_events w (mk_world c (events w ++ l)) = l.
Proof. unfold new_events. simpl. by rewrite drop_app_length. Qed.

Lemma new_events_same (w : world) : new_events w w = [].
Proof. unfold new_events. by rewrite drop_all. Qed.

(** Unfolds one operation down to a case analysis on the stored record. *)
Ltac run_op :=
  rewrite ?bind_run, ?get_analytics_data_run;
  repeat match goal with
         | H : stored_analytics _ = _ |- _ => rewrite H
         end;
  cbn [expect_dict mret M_ret raise lift];
  rewrite ?bind_run;
  cbn [expect_dict mret M_ret raise lift].

(* ===================================================================== *)
(** ** Tutorial status *)
(* ===================================================================== *)

Lemma py_ne_str_false (v : value) (s : string) :
  py_ne_str v s = false <-> v = VStr s.
Proof.
  destruct v; simpl; try (split; [discriminate | discriminate]).
  rewrite negb_false_iff, String.eqb_eq. split; [by intros -> | by intros [= ->]].
Qed.

Lemma track_tutorial_status_completed (status : string) (w : world) (a : dict) :
  stored_analytics w = VDict a ->
  dict_get "tutorial_status" a = VStr "completed" ->
  track_tutorial_status status w = (Ret tt, w).
Proof.
  intros Hs Hc. unfold track_tutorial_status. run_op.
  by rewrite Hc.
Qed.

Lemma track_tutorial_status_other (status : string) (w : world) (a : dict) :
  stored_analytics w = VDict a ->
  dict_get "tutorial_status" a ≠ VStr "completed" ->
  track_tutorial_status status w =
  save_analytics_data (VDict (<["tutorial_status" := VStr status]> a)) w.
Proof.
  intros Hs Hc. unfold track_tutorial_status. run_op.
  destruct (py_ne_str _ _) eqn:E; [done|].
  by apply py_ne_str_false in E.
Qed.

Lemma stored_field_saved (k : string) (a : dict) (w : world) :
  stored_field k (exec (save_analytics_data (VDict a)) w) = dict_get k a.
Proof.
  unfold exec. rewrite save_analytics_data_run. simpl.
  unfold stored_field. by rewrite stored_analytics_saved.
Qed.

(** C6. [track_tutorial_status] does nothing once the stored status is
    ["completed"]; from every other stored status it writes the status it
    is given, whatever that is; and after a call with ["completed"] a
    further call leaves ["completed"] stored. *)
Theorem tutorial_status_completed_is_sticky
  (status : string) (w : world) (a : dict) :
  stored_analytics w = VDict a ->
  (dict_get "tutorial_status" a = VStr "completed" ->
   track_tutorial_status status w = (Ret tt, w))
  /\ (dict_get "tutorial_status" a ≠ VStr "completed" ->
      exists w',
        track_tutorial_status status w = (Ret tt, w') /\
        stored_analytics w' = VDict (<["tutorial_status" := VStr status]> a))
  /\ stored_field "tutorial_status"
       (exec (track_tutorial_status status)
             (exec (track_tutorial_status "completed") w))
     = VStr "completed".
Proof.
  intros Hs. split; [|split].
  - intros Hc. by apply track_tutorial_status_completed with a.
  - intros Hc. rewrite (track_tutorial_status_other _ _ _ Hs Hc).
    rewrite save_analytics_data_run. eexists. split; [reflexivity|].
    apply stored_analytics_saved.
  - assert (Hdone : forall w1 a1,
               stored_analytics w1 = VDict a1 ->
               dict_get "tutorial_status" a1 = VStr "completed" ->
               stored_field "tutorial_status"
                 (exec (track_tutorial_status status) w1) = VStr "completed").
    { intros w1 a1 H1 Hc. unfold exec.
      rewrite (track_tutorial_status_completed _ _ _ H1 Hc). simpl.
      unfold stored_field. by rewrite H1. }
    destruct (py_ne_str (dict_get "tutorial_status" a) "completed") eqn:E.
    + assert (Hc : dict_get "tutorial_status" a ≠ VStr "completed").
      { intros Hc. apply py_ne_str_false in Hc. congruence. }
      unfold exec at 2. rewrite (track_tutorial_status_other _ _ _ Hs Hc).
      rewrite save_analytics_data_run. simpl.
      eapply Hdone; [apply stored_analytics_saved|].
      unfold dict_get. by rewrite lookup_insert_eq.
    + apply py_ne_str_false in E.
      unfold exec at 2. rewrite (track_tutorial_status_completed _ _ _ Hs E).
      simpl. by apply Hdone with a.
Qed.

Lemma tutorial_status_completed_is_sticky_witness :
  stored_field "tutorial_status"
    (exec (track_tutorial_status "skip")
          (exec (track_tutorial_status "completed") world_skipped))
  = VStr "completed".
Proof.
  apply (tutorial_status_completed_is_sticky "skip" world_skipped
           {["tutorial_status" := VStr "skip"]}).
  reflexivity.
Defined.

(* ===================================================================== *)
(** ** Signup attribution *)
(* ===================================================================== *)

Lemma track_signup_click_run (method : string) (now : datetime)
  (w : world) (a : dict) :
  stored_analytics w = VDict a ->
  track_signup_click method now w =
  save_analytics_data
    (VDict (if negb (truthy (dict_get "signup_method" a)) then
              <["signup_date" := VStr (isoformat now)]>
                (<["signup_method" := VStr method]> a)
            else a)) w.
Proof. intros Hs. unfold track_signup_click. by run_op. Qed.

(** C7. [track_signup_click] stores the method and the signup date when no
    signup method is stored yet (the stored value is missing, [None] or
    otherwise false); when one is stored the configuration is left as it
    was; so after ["organic"] then ["sidebar_button"] on a record without
    a method, ["organic"] is stored. *)
Theorem signup_first_write_wins
  (method : string) (now : datetime) (w : world) (a : dict) :
  stored_analytics w = VDict a ->
  (truthy (dict_get "signup_method" a) = false ->
   exists w',
     track_signup_click method now w = (Ret tt, w') /\
     stored_analytics w' =
       VDict (<["signup_date" := VStr (isoformat now)]>
                (<["signup_method" := VStr method]> a)))
  /\ (truthy (dict_get "signup_method" a) = true ->
      exists w',
        track_signup_click method now w = (Ret tt, w') /\
        config w' = config w)
  /\ (truthy (dict_get "signup_method" a) = false ->
      forall now' : datetime,
        stored_field "signup_method"
          (exec (track_signup_click "sidebar_button" now')
                (exec (track_signup_click "organic" now) w))
        = VStr "organic").
Proof.
  intros Hs. split; [|split].
  - intros Hf. rewrite (track_signup_click_run _ _ _ _ Hs), Hf. simpl.
    rewrite save_analytics_data_run. eexists. split; [reflexivity|].
    apply stored_analytics_saved.
  - intros Ht. rewrite (track_signup_click_run _ _ _ _ Hs), Ht. simpl.
    rewrite save_analytics_data_run. eexists. split; [reflexivity|]. simpl.
    apply save_stored_config; [done|]. by apply dict_get_truthy_nonempty in Ht.
  - intros Hf now'. unfold exec at 2.
    rewrite (track_signup_click_run _ _ _ _ Hs), Hf. cbn [negb].
    rewrite save_analytics_data_run. cbn [snd].
    set (a1 := <["signup_date" := _]> _).
    set (w1 := mk_world _ _).
    assert (H1 : stored_analytics w1 = VDict a1) by apply stored_analytics_saved.
    assert (Hm : dict_get "signup_method" a1 = VStr "organic").
    { unfold a1, dict_get. rewrite lookup_insert_ne by done.
      by rewrite lookup_insert_eq. }
    unfold exec. rewrite (track_signup_click_run _ _ _ _ H1), Hm.
    cbn [truthy negb String.eqb]. fold (exec (save_analytics_data (VDict a1)) w1).
    by rewrite stored_field_saved.
Qed.

Lemma signup_first_write_wins_witness :
  stored_field "signup_method"
    (exec (track_signup_click "sidebar_button"
             (mk_datetime (mk_date 2026 1 15) 8 0 0 0 None))
          (exec (track_signup_click "organic"
                   (mk_datetime (mk_date 2026 1 14) 9 30 0 0 None))
                (mk_world None [])))
  = VStr "organic".
Proof.
  apply (signup_first_write_wins "organic"
           (mk_datetime (mk_date 2026 1 14) 9 30 0 0 None)
           (mk_world None []) ∅); reflexivity.
Defined.

(* ===================================================================== *)
(** ** First-run initialisation *)
(* ===================================================================== *)

Lemma append_nonempty_l (s r : string) : s ≠ "" -> s ++ r ≠ "".
Proof. destruct s; [done | discriminate]. Qed.

Lemma append_nonempty_r (s r : string) : r ≠ "" -> s ++ r ≠ "".
Proof. destruct s, r; simpl; (done || discriminate). Qed.

Lemma isoformat_nonempty (t : datetime) : isoformat t ≠ "".
Proof.
  unfold isoformat.
  apply append_nonempty_r, append_nonempty_l. discriminate.
Qed.

Lemma isoformat_truthy (t : datetime) : truthy (VStr (isoformat t)) = true.
Proof.
  cbn [truthy]. apply negb_true_iff, String.eqb_neq, isoformat_nonempty.
Qed.

(** The record [init_analytics] writes over a record [a]. *)
Lemma init_analytics_first (now : datetime) (h : host) (w : world) (a : dict) :
  stored_analytics w = VDict a ->
  truthy (dict_get "first_install_date" a) = false ->
  exists a',
    init_analytics now h w = save_analytics_data (VDict a') w /\
    dict_get "first_install_date" a' = VStr (isoformat now) /\
    dict_get "platform" a' = VStr (sys_platform h) /\
    dict_get "locale" a' = dict_get "locale" (get_locale_info h) /\
    dict_get "timezone" a' = dict_get "timezone" (get_locale_info h) /\
    dict_get "total_uses" a' = VInt 0 /\
    dict_get "daily_usage" a' = VDict ∅ /\
    dict_get "last_used_date" a' = VNone /\
    dict_get "signup_method" a' = VNone /\
    dict_get "has_logged_in" a' = VBool false /\
    dict_get "auth_button_clicked" a' = VNone /\
    dict_get "onboarding_completed" a' = VBool false /\
    dict_get "tutorial_status" a' = VNone /\
    dict_get "tutorial_current_step" a' = VNone /\
    dict_get "quick_action_usage_count" a' = VInt 0 /\
    dict_get "shortcut_usage_count" a' = VInt 0.
Proof.
  intros Hs Hf. unfold init_analytics. run_op. rewrite Hf. cbn [negb].
  eexists. split; [reflexivity|].
  unfold dict_get. repeat split; by simplify_map_eq.
Qed.

Lemma init_analytics_installed (now : datetime) (h : host) (w : world) :
  truthy (stored_field "first_install_date" w) = true ->
  init_analytics now h w = (Ret tt, w).
Proof.
  unfold stored_field. intros Ht. unfold init_analytics. run_op.
  destruct (stored_analytics w); try discriminate.
  cbn [expect_dict mret M_ret]. by rewrite Ht.
Qed.

Lemma get_locale_info_failed (h : host) :
  probe h = None ->
  dict_get "locale" (get_locale_info h) = VNone /\
  dict_get "timezone" (get_locale_info h) = VNone.
Proof. unfold get_locale_info. by intros ->. Qed.

Lemma get_locale_info_found (h : host) (p : locale_probe) :
  probe h = Some p ->
  dict_get "locale" (get_locale_info h) = fst (getdefaultlocale p) /\
  dict_get "timezone" (get_locale_info h) = tz_name p.
Proof.
  unfold get_locale_info. intros ->. unfold dict_get. by simplify_map_eq.
Qed.

(** C8. [init_analytics] changes nothing when an install date is stored;
    run twice it leaves the world it leaves when run once; and on a record
    without an install date it returns normally and stores the install
    date, the platform, the detected locale and timezone ([None] for both
    when the detection raised) and the zero and empty defaults. *)
Theorem init_analytics_idempotent
  (now now' : datetime) (h h' : host) (w : world) :
  (truthy (stored_field "first_install_date" w) = true ->
   init_analytics now h w = (Ret tt, w))
  /\ exec (init_analytics now' h') (exec (init_analytics now h) w)
     = exec (init_analytics now h) w
  /\ (forall a : dict,
        stored_analytics w = VDict a ->
        truthy (dict_get "first_install_date" a) = false ->
        exists w',
          init_analytics now h w = (Ret tt, w') /\
          stored_field "first_install_date" w' = VStr (isoformat now) /\
          stored_field "platform" w' = VStr (sys_platform h) /\
          stored_field "locale" w' =
            match probe h with
            | Some p => fst (getdefaultlocale p)
            | None => VNone
            end /\
          stored_field "timezone" w' =
            match probe h with
            | Some p => tz_name p
            | None => VNone
            end /\
          stored_field "total_uses" w' = VInt 0 /\
          stored_field "daily_usage" w' = VDict ∅ /\
          stored_field "quick_action_usage_count" w' = VInt 0 /\
          stored_field "shortcut_usage_count" w' = VInt 0 /\
          stored_field "last_used_date" w' = VNone /\
          stored_field "signup_method" w' = VNone /\
          stored_field "auth_button_clicked" w' = VNone /\
          stored_field "has_logged_in" w' = VBool false /\
          stored_field "onboarding_completed" w' = VBool false /\
          stored_field "tutorial_status" w' = VNone /\
          stored_field "tutorial_current_step" w' = VNone).
Proof.
  split; [apply init_analytics_installed | split].
  - destruct (stored_analytics w) as [| | | | | |a] eqn:Hs;
      try (unfold exec, init_analytics; run_op; cbn [snd]; run_op; done).
    destruct (truthy (dict_get "first_install_date" a)) eqn:Ht.
    + assert (Hw : truthy (stored_field "first_install_date" w) = true).
      { unfold stored_field. by rewrite Hs. }
      unfold exec. rewrite (init_analytics_installed now h w Hw). cbn [snd].
      by rewrite (init_analytics_installed now' h' w Hw).
    + unfold exec.
      destruct (init_analytics_first now h w a Hs Ht) as (a' & -> & Hd & _).
      rewrite save_analytics_data_run. cbn [snd].
      rewrite init_analytics_installed; [done|].
      unfold stored_field. rewrite stored_analytics_saved, Hd.
      apply isoformat_truthy.
  - intros a Hs Hf.
    destruct (init_analytics_first now h w a Hs Hf)
      as (a' & -> & H1 & H2 & H3 & H4 & H5 & H6 & H7 & H8 & H9 & H10 & H11
          & H12 & H13 & H14 & H15).
    rewrite save_analytics_data_run. eexists. split; [reflexivity|].
    unfold stored_field. rewrite stored_analytics_saved.
    rewrite H3, H4.
    destruct (probe h) as [p|] eqn:Hp.
    + destruct (get_locale_info_found h p Hp) as [-> ->]. by repeat split.
    + destruct (get_locale_info_failed h Hp) as [-> ->]. by repeat split.
Qed.

Lemma init_analytics_idempotent_witness :
  exists w',
    init_analytics (mk_datetime (mk_date 2026 1 14) 9 30 0 0 None)
      host_no_locale (mk_world None []) = (Ret tt, w') /\
    stored_field "first_install_date" w' = VStr "2026-01-14T09:30:00" /\
    stored_field "locale" w' = VNone /\
    stored_field "total_uses" w' = VInt 0.
Proof.
  destruct (init_analytics_idempotent
              (mk_datetime (mk_date 2026 1 14) 9 30 0 0 None)
              (mk_datetime (mk_date 2026 1 15) 9 30 0 0 None)
              host_no_locale host_no_locale (mk_world None []))
    as (_ & _ & H).
  destruct (H ∅) as (w' & Hrun & Hd & _ & Hl & _ & Hu & _);
    [reflexivity | reflexivity |].
  exists w'. repeat split; assumption.
Defined.

(* ===================================================================== *)
(** ** The daily gate of the upload *)
(* ===================================================================== *)

Lemma date_compare_refl (d : date) : date_compare d d = Eq.
Proof. unfold date_compare. by rewrite !Z.compare_refl. Qed.

Lemma date_ltb_irrefl (d : date) : date_ltb d d = false.
Proof. unfold date_ltb. by rewrite date_compare_refl. Qed.

Lemma prev_day_lt (d p : date) : prev_day d = Some p -> date_ltb p d = true.
Proof.
  unfold prev_day, date_ltb, date_compare.
  destruct (1 <? day d) eqn:Hd; [|destruct (1 <? month d) eqn:Hm;
    [|destruct (1 <? year d) eqn:Hy; [|discriminate]]];
    intros [= <-]; simpl.
  - rewrite !Z.compare_refl.
    by replace (day d - 1 ?= day d) with Lt by (symmetry; apply Z.compare_lt_iff; lia).
  - rewrite Z.compare_refl.
    by replace (month d - 1 ?= month d) with Lt
      by (symmetry; apply Z.compare_lt_iff; lia).
  - by replace (year d - 1 ?= year d) with Lt
      by (symmetry; apply Z.compare_lt_iff; lia).
Qed.

Section DailyGate.

Variable fromisoformat : string -> option datetime.

Local Abbreviation should_send := (should_send_analytics fromisoformat).
Local Abbreviation try_send := (try_send_daily_analytics fromisoformat).

Lemma should_send_unset (now : datetime) (w : world) (a : dict) :
  stored_analytics w = VDict a ->
  truthy (dict_get "last_analytics_sent" a) = false ->
  should_send now w = (Ret true, w).
Proof.
  intros Hs Hf. unfold should_send_analytics. run_op. by rewrite Hf.
Qed.

Lemma should_send_parsed (now t : datetime) (w : world) (a : dict) (s : string) :
  stored_analytics w = VDict a ->
  dict_get "last_analytics_sent" a = VStr s ->
  s ≠ "" ->
  fromisoformat s = Some t ->
  should_send now w = (Ret (date_ltb (dt_date t) (dt_date now)), w).
Proof.
  intros Hs Hv Hne Hp. unfold should_send_analytics. run_op. rewrite Hv.
  cbn [truthy]. apply String.eqb_neq in Hne. rewrite Hne. cbn [negb].
  unfold try_except, py_fromisoformat. rewrite bind_run, Hp. reflexivity.
Qed.

Lemma should_send_unparsed (now : datetime) (w : world) (a : dict) :
  stored_analytics w = VDict a ->
  (forall s, dict_get "last_analytics_sent" a = VStr s ->
             fromisoformat s = None) ->
  should_send now w = (Ret true, w).
Proof.
  intros Hs Hv. unfold should_send_analytics. run_op.
  destruct (negb (truthy (dict_get "last_analytics_sent" a))); [done|].
  unfold try_except, py_fromisoformat. rewrite bind_run.
  destruct (dict_get "last_analytics_sent" a) as [| | | |s| |]; try done.
  by rewrite (Hv s eq_refl).
Qed.

Lemma try_send_events (now : datetime) (w : world) (b : bool) :
  should_send now w = (Ret b, w) ->
  config (exec (try_send now) w) = config w /\
  new_events w (exec (try_send now) w) = if b then [EvThreadStart] else [].
Proof.
  intros Hb. unfold exec, try_send_daily_analytics. rewrite bind_run, Hb.
  destruct b; cbn [snd].
  - unfold send_analytics_background. cbn [snd config].
    split; [done | apply new_events_app].
  - cbn [mret M_ret snd]. split; [done | apply new_events_same].
Qed.

(** Whatever is stored, the check returns a boolean and changes
    nothing. *)
Lemma should_send_total (now : datetime) (w : world) (a : dict) :
  stored_analytics w = VDict a ->
  exists b, should_send now w = (Ret b, w).
Proof.
  intros Hs.
  destruct (dict_get "last_analytics_sent" a) as [| | | |s| |] eqn:Hv;
    try (exists true; apply should_send_unparsed with a; [done|];
         intros s' Hs'; congruence).
  destruct (fromisoformat s) as [t|] eqn:Hp.
  - destruct (String.eqb s "") eqn:He.
    + exists true. apply should_send_unset with a; [done|].
      rewrite Hv. cbn [truthy]. by rewrite He.
    + eexists. apply should_send_parsed with a s; [done..| |done].
      by apply String.eqb_neq.
  - exists true. apply should_send_unparsed with a; [done|].
    intros s' Hs'. congruence.
Qed.

(** C10. A stored [last_analytics_sent] that does not parse (it is no
    string, or [fromisoformat] rejects it) makes [should_send_analytics]
    return [True], without raising and without touching the world. *)
Theorem should_send_when_unparseable (now : datetime) (w : world) (a : dict) :
  stored_analytics w = VDict a ->
  (forall s, dict_get "last_analytics_sent" a = VStr s ->
             fromisoformat s = None) ->
  should_send now w = (Ret true, w).
Proof. apply should_send_unparsed. Qed.

(** C4, as the code has it. [try_send_daily_analytics] leaves the
    configuration alone and starts no thread or exactly one, and makes no
    HTTP call itself.  It starts none exactly when the stored
    [last_analytics_sent] is a non-empty string that parses to a datetime
    whose date is not before today: today, and a later date as well.  With
    yesterday's date stored, or nothing stored, it starts exactly one. *)
Theorem daily_flush_gate (now : datetime) (w : world) (a : dict) :
  stored_analytics w = VDict a ->
  let w' := exec (try_send now) w in
  config w' = config w
  /\ (new_events w w' = [] \/ new_events w w' = [EvThreadStart])
  /\ (new_events w w' = [] <->
      exists s t,
        dict_get "last_analytics_sent" a = VStr s /\ s ≠ "" /\
        fromisoformat s = Some t /\
        date_ltb (dt_date t) (dt_date now) = false)
  /\ (forall s t,
        dict_get "last_analytics_sent" a = VStr s -> s ≠ "" ->
        fromisoformat s = Some t ->
        dt_date t = dt_date now ->
        new_events w w' = [])
  /\ (forall s t,
        dict_get "last_analytics_sent" a = VStr s -> s ≠ "" ->
        fromisoformat s = Some t ->
        prev_day (dt_date now) = Some (dt_date t) ->
        new_events w w' = [EvThreadStart])
  /\ (a !! "last_analytics_sent" = None ->
      new_events w w' = [EvThreadStart]).
Proof.
  intros Hs w'.
  assert (Hskip : forall s t,
             dict_get "last_analytics_sent" a = VStr s -> s ≠ "" ->
             fromisoformat s = Some t ->
             new_events w w' =
             if date_ltb (dt_date t) (dt_date now) then [EvThreadStart] else []).
  { intros s t Hv Hne Hp.
    apply (try_send_events now w _ (should_send_parsed now t w a s Hs Hv Hne Hp)). }
  destruct (should_send_total now w a Hs) as [b Hb].
  destruct (try_send_events now w b Hb) as [Hc He]. fold w' in Hc, He.
  split; [done|]. split; [destruct b; auto|]. split; [|split; [|split]].
  - split.
    + intros Hnil.
      destruct (dict_get "last_analytics_sent" a) as [| | | |s| |] eqn:Hv;
        try (rewrite (should_send_unparsed now w a Hs) in Hb;
             [|intros s' Hs'; congruence];
             injection Hb as <-; rewrite He in Hnil; discriminate).
      destruct (String.eqb s "") eqn:Hne.
      { rewrite (should_send_unset now w a Hs) in Hb;
          [|by rewrite Hv; cbn [truthy]; rewrite Hne].
        injection Hb as <-. rewrite He in Hnil. discriminate. }
      apply String.eqb_neq in Hne.
      destruct (fromisoformat s) as [t|] eqn:Hp.
      * exists s, t. repeat split; try done.
        rewrite (Hskip s t eq_refl Hne Hp) in Hnil.
        by destruct (date_ltb _ _).
      * rewrite (should_send_unparsed now w a Hs) in Hb;
          [|intros s' Hs'; rewrite Hv in Hs'; by injection Hs' as <-].
        injection Hb as <-. rewrite He in Hnil. discriminate.
    + intros (s & t & Hv & Hne & Hp & Hlt).
      by rewrite (Hskip s t Hv Hne Hp), Hlt.
  - intros s t Hv Hne Hp Hd.
    by rewrite (Hskip s t Hv Hne Hp), Hd, date_ltb_irrefl.
  - intros s t Hv Hne Hp Hd.
    by rewrite (Hskip s t Hv Hne Hp), (prev_day_lt _ _ Hd).
  - intros Hnone.
    rewrite (should_send_unset now w a Hs) in Hb;
      [|by unfold dict_get; rewrite Hnone].
    by injection Hb as <-.
Qed.

End DailyGate.

Lemma should_send_when_unparseable_witness :
  should_send_analytics parse_isoformat now_jan14 world_sent_garbled
  = (Ret true, world_sent_garbled).
Proof.
  apply (should_send_when_unparseable parse_isoformat now_jan14
           world_sent_garbled {["last_analytics_sent" := VStr "yesterday"]}).
  - reflexivity.
  - intros s [= <-]. reflexivity.
Defined.

Lemma daily_flush_gate_witness :
  new_events world_sent_yesterday
    (exec (try_send_daily_analytics parse_isoformat now_jan14)
          world_sent_yesterday)
  = [EvThreadStart].
Proof.
  destruct (daily_flush_gate parse_isoformat now_jan14 world_sent_yesterday
              {["last_analytics_sent" := VStr "2026-01-13T23:59:59.500000"]}
              eq_refl) as (_ & _ & _ & _ & H & _).
  apply (H "2026-01-13T23:59:59.500000"
           (mk_datetime (mk_date 2026 1 13) 23 59 59 500000 None));
    [reflexivity | discriminate | reflexivity | reflexivity].
Defined.

(** C4, as stated, fails: with a stored date after today the upload is
    skipped although that date is not today. *)
Lemma flush_skipped_on_later_date :
  ~ (forall (now : datetime) (w : world) (a : dict) (s : string) (t : datetime),
       stored_analytics w = VDict a ->
       dict_get "last_analytics_sent" a = VStr s ->
       parse_isoformat s = Some t ->
       (new_events w (exec (try_send_daily_analytics parse_isoformat now) w) = []
        <-> dt_date t = dt_date now)).
Proof.
  intros H.
  specialize (H now_jan14 world_sent_tomorrow
                {["last_analytics_sent" := VStr "2026-01-15T00:10:00"]}
                "2026-01-15T00:10:00"
                (mk_datetime (mk_date 2026 1 15) 0 10 0 0 None)
                eq_refl eq_refl eq_refl).
  destruct H as [H _]. specialize (H eq_refl). discriminate H.
Qed.

(* ===================================================================== *)
(** ** The upload *)
(* ===================================================================== *)

Lemma getConfig_run (w : world) : getConfig w = (Ret (config w), w).
Proof. reflexivity. Qed.

Lemma send_no_endpoint (net : http_result) (now : datetime) (w : world) :
  truthy (endpoint_url_of w) = false ->
  _send net now w = (Ret tt, w).
Proof.
  unfold endpoint_url_of. intros He.
  unfold _send, try_except. rewrite bind_run, getConfig_run. by rewrite He.
Qed.

Lemma send_no_record (net : http_result) (now : datetime) (w : world) :
  truthy (endpoint_url_of w) = true ->
  (forall a, stored_analytics w ≠ VDict a) ->
  _send net now w = (Ret tt, w).
Proof.
  unfold endpoint_url_of. intros He Hs.
  unfold _send, try_except. rewrite bind_run, getConfig_run, He.
  cbn [negb]. run_op.
  destruct (stored_analytics w) as [| | | | | |a]; try done.
  by destruct (Hs a).
Qed.

Lemma send_with_record (net : http_result) (now : datetime) (w : world) (a : dict) :
  truthy (endpoint_url_of w) = true ->
  stored_analytics w = VDict a ->
  _send net now w =
  match net with
  | RequestError => (Ret tt, w)
  | NetworkError | Timeout => (Ret tt, posted w a)
  | HttpResponse status =>
      if status =? 200 then
        save_analytics_data
          (VDict (<["last_analytics_sent" := VStr (isoformat now)]> a))
          (posted w a)
      else (Ret tt, posted w a)
  end.
Proof.
  unfold endpoint_url_of. intros He Hs.
  unfold _send, try_except. rewrite bind_run, getConfig_run, He.
  cbn [negb]. run_op.
  destruct net as [status| | |]; try reflexivity.
  cbn [urlopen]. rewrite bind_run. cbv beta iota.
  fold (endpoint_url_of w). fold (posted w a).
  destruct (status =? 200); [|reflexivity].
  by rewrite save_analytics_data_run.
Qed.

Lemma new_events_posted (w : world) (a : dict) :
  new_events w (posted w a) =
  [EvHttpPost (endpoint_url_of w) (build_payload a)].
Proof. apply new_events_app. Qed.

Lemma new_events_posted_saved (w : world) (a : dict) (v : value) :
  new_events w (exec (save_analytics_data v) (posted w a)) =
  [EvHttpPost (endpoint_url_of w) (build_payload a);
   EvWriteConfig (<["analytics" := v]> (config_or_empty (config w)))].
Proof.
  unfold exec. rewrite save_analytics_data_run. cbn [snd posted events config].
  rewrite <- app_assoc. apply new_events_app.
Qed.

(** C5. [_send] never raises, starts no thread and makes at most one POST.
    When a POST is made and answered with status 200 it stores the record
    it read with [last_analytics_sent] set to now, in one write.  In every
    other case (no endpoint, a record that is no dict, an exception before
    or during the request, a timeout, another status) the configuration is
    left as it was and nothing is written. *)
Theorem send_persists_only_on_200
  (net : http_result) (now : datetime) (w : world) :
  let w' := exec (_send net now) w in
  let uploaded_200 :=
    net = HttpResponse 200 /\
    count_events is_post (new_events w w') = 1%nat in
  fst (_send net now w) = Ret tt
  /\ (count_events is_post (new_events w w') <= 1)%nat
  /\ count_events is_thread_start (new_events w w') = 0%nat
  /\ (uploaded_200 ->
      exists a,
        stored_analytics w = VDict a /\
        stored_analytics w' =
          VDict (<["last_analytics_sent" := VStr (isoformat now)]> a) /\
        count_events is_write (new_events w w') = 1%nat)
  /\ (~ uploaded_200 ->
      config w' = config w /\
      count_events is_write (new_events w w') = 0%nat).
Proof.
  intros w' uploaded_200. subst w' uploaded_200. unfold exec.
  destruct (truthy (endpoint_url_of w)) eqn:He.
  2: { rewrite (send_no_endpoint net now w He). cbn [fst snd].
       rewrite new_events_same. cbn.
       repeat split; try done; try lia; by intros [_ ?]. }
  destruct (stored_analytics w) as [| | | | | |a] eqn:Hs.
  1-6: rewrite (send_no_record net now w He) by (intros a; congruence);
       cbn [fst snd]; rewrite new_events_same; cbn;
       repeat split; try done; try lia; by intros [_ ?].
  rewrite (send_with_record net now w a He Hs).
  destruct net as [status| | |].
  - destruct (status =? 200) eqn:E200.
    + apply Z.eqb_eq in E200. subst status.
      fold (exec (save_analytics_data
                    (VDict (<["last_analytics_sent" := VStr (isoformat now)]> a)))
                 (posted w a)).
      rewrite new_events_posted_saved.
      rewrite save_analytics_data_run. cbn [fst].
      repeat split; try done; try (cbn; lia).
      * intros _. exists a. split; [done|]. split; [|done].
        unfold exec. rewrite save_analytics_data_run. cbn [snd].
        apply stored_analytics_saved.
      * exfalso. match goal with H : ¬ _ |- _ => by apply H end.
      * exfalso. match goal with H : ¬ _ |- _ => by apply H end.
    + cbn [fst snd]. rewrite new_events_posted. cbn.
      apply Z.eqb_neq in E200.
      repeat split; try done; try lia; intros [[= ?] _]; done.
  - cbn [fst snd]. rewrite new_events_posted. cbn.
    repeat split; try done; try lia; by intros [? _].
  - cbn [fst snd]. rewrite new_events_posted. cbn.
    repeat split; try done; try lia; by intros [? _].
  - cbn [fst snd]. rewrite new_events_same. cbn.
    repeat split; try done; try lia; by intros [? _].
Qed.

Lemma send_persists_only_on_200_witness :
  config (exec (_send Timeout now_jan14) world_in_use) = config world_in_use /\
  stored_field "last_analytics_sent"
    (exec (_send (HttpResponse 200) now_jan14) world_in_use)
  = VStr "2026-01-14T10:00:00".
Proof.
  split.
  - destruct (send_persists_only_on_200 Timeout now_jan14 world_in_use)
      as (_ & _ & _ & _ & H).
    apply H. intros [? _]. discriminate.
  - destruct (send_persists_only_on_200 (HttpResponse 200) now_jan14 world_in_use)
      as (_ & _ & _ & H & _).
    destruct H as (a & Ha & Ha' & _); [split; reflexivity|].
    unfold stored_field. rewrite Ha'.
    injection Ha as <-. reflexivity.
Defined.

(** Run without interruption, [_send] is the request followed by
    [_send_after]. *)
Lemma send_in_two_halves (net : http_result) (now : datetime) (w : world)
  (a : dict) :
  truthy (endpoint_url_of w) = true ->
  stored_analytics w = VDict a ->
  net ≠ RequestError ->
  _send net now w = _send_after a net now (posted w a).
Proof.
  intros He Hs Hn. rewrite (send_with_record net now w a He Hs).
  unfold _send_after, try_except. rewrite bind_run.
  destruct net as [status| | |]; try done.
  cbn [mret M_ret]. destruct (status =? 200); [|done].
  by rewrite save_analytics_data_run.
Qed.

(** The write-back is of the record read before the request: a usage
    recorded while the request is under way is lost when the answer is
    200, and [total_uses] goes from 8 back to 7. *)
Remark send_write_back_loses_usage :
  let a := <["first_install_date" := VStr "2026-01-04T10:00:00"]>
             {["total_uses" := VInt 7]} in
  let during := exec (track_usage now_jan14 now_jan14) (posted world_in_use a) in
  stored_analytics world_in_use = VDict a /\
  stored_counter "total_uses" during = Some 8 /\
  stored_counter "total_uses"
    (exec (_send_after a (HttpResponse 200) now_jan14) during) = Some 7.
Proof. repeat split; reflexivity. Qed.

(* ===================================================================== *)
(** ** The payload *)
(* ===================================================================== *)

Lemma dom_build_payload (a : dict) : dom (build_payload a) = payload_keys.
Proof.
  unfold build_payload. rewrite !dom_insert_L, dom_empty_L.
  apply (bool_decide_unpack _). vm_compute. exact I.
Qed.

Lemma build_payload_lookup (a : dict) (k : string) :
  k ∈ payload_keys ->
  build_payload a !! k = Some (dict_get_default k (payload_default k) a).
Proof.
  unfold payload_keys. rewrite elem_of_list_to_set.
  rewrite !elem_of_cons, elem_of_nil.
  intros H. unfold build_payload.
  repeat (destruct H as [->|H]; [by simplify_map_eq|]). done.
Qed.

(** C9, as stated, fails: the data model lists [daily_usage] (and
    [last_analytics_sent]), which no payload carries. *)
Lemma payload_omits_daily_usage :
  ~ (forall a : dict, dom (build_payload a) = spec_data_model_fields).
Proof.
  intros H. specialize (H ∅).
  assert (Hin : "daily_usage" ∈ dom (build_payload ∅)).
  { rewrite H. unfold spec_data_model_fields.
    apply (bool_decide_unpack _). vm_compute. exact I. }
  rewrite dom_build_payload in Hin. revert Hin.
  apply (bool_decide_unpack _). vm_compute. exact I.
Qed.

(** C9, as the code has it. Whatever the record, the payload has the same
    fourteen keys: the fields of the data model without [daily_usage] and
    [last_analytics_sent].  Each carries what the record holds under that
    key, or the default of the key.  The payload [_send] posts is the one
    built from the stored record. *)
Theorem payload_has_fixed_keys (a : dict) :
  dom (build_payload a) =
    spec_data_model_fields ∖ {["daily_usage"; "last_analytics_sent"]}
  /\ (forall b : dict, dom (build_payload b) = dom (build_payload a))
  /\ (forall k : string,
        k ∈ dom (build_payload a) ->
        build_payload a !! k = Some (dict_get_default k (payload_default k) a))
  /\ (forall (w : world) (status : Z) (now : datetime),
        stored_analytics w = VDict a ->
        truthy (endpoint_url_of w) = true ->
        exists rest,
          new_events w (exec (_send (HttpResponse status) now) w) =
          EvHttpPost (endpoint_url_of w) (build_payload a) :: rest).
Proof.
  split; [|split; [|split]].
  - rewrite dom_build_payload. apply (bool_decide_unpack _). vm_compute. exact I.
  - intros b. by rewrite !dom_build_payload.
  - intros k. rewrite dom_build_payload. apply build_payload_lookup.
  - intros w status now Hs He. unfold exec.
    rewrite (send_with_record _ now w a He Hs).
    destruct (status =? 200).
    + fold (exec (save_analytics_data
                    (VDict (<["last_analytics_sent" := VStr (isoformat now)]> a)))
                 (posted w a)).
      rewrite new_events_posted_saved. by eexists.
    + cbn [snd]. rewrite new_events_posted. by eexists.
Qed.

Lemma payload_has_fixed_keys_witness :
  build_payload
    (<["first_install_date" := VStr "2026-01-04T10:00:00"]>
       {["total_uses" := VInt 7]}) !! "total_uses" = Some (VInt 7)
  /\ exists rest,
       new_events world_in_use
         (exec (_send (HttpResponse 200) now_jan14) world_in_use) =
       EvHttpPost (VStr "https://collector.example/ingest")
         (build_payload
            (<["first_install_date" := VStr "2026-01-04T10:00:00"]>
               {["total_uses" := VInt 7]})) :: rest.
Proof.
  destruct (payload_has_fixed_keys
              (<["first_install_date" := VStr "2026-01-04T10:00:00"]>
                 {["total_uses" := VInt 7]})) as (_ & _ & Hk & Hp).
  split.
  - rewrite Hk; [reflexivity|].
    apply (bool_decide_unpack _). vm_compute. exact I.
  - apply (Hp world_in_use 200 now_jan14); reflexivity.
Defined.

(* ===================================================================== *)
(** ** Counters over sequences of operations *)
(* ===================================================================== *)

(** C1, as stated, fails: on a fresh configuration a usage recorded before
    the initialisation counts 1, and the initialisation sets it back to
    0. *)
Lemma initialize_after_usage_resets_total_uses :
  ~ (forall (w : world) (ops : list ledger_op) (o : ledger_op) (n n' : Z),
       stored_counter "total_uses" (run_ops ops w) = Some n ->
       stored_counter "total_uses" (run_op o (run_ops ops w)) = Some n' ->
       n <= n').
Proof.
  intros H.
  specialize (H (mk_world None []) [OpRecordUsage now_jan14 now_jan14]
                (OpInitialize now_jan14 host_no_locale) 1 0).
  assert (Hle : 1 <= 0); [apply H; vm_compute; reflexivity | lia].
Qed.

Lemma counters_le_refl (w : world) : counters_le w w.
Proof. intros k n _ H. exists n. split; [done | lia]. Qed.

Lemma counters_le_trans (w1 w2 w3 : world) :
  counters_le w1 w2 -> counters_le w2 w3 -> counters_le w1 w3.
Proof.
  intros H12 H23 k n Hk H1.
  destruct (H12 k n Hk H1) as (n2 & H2 & Hle).
  destruct (H23 k n2 Hk H2) as (n3 & H3 & Hle').
  exists n3. split; [done | lia].
Qed.

Lemma stored_analytics_config (w w' : world) :
  config w' = config w -> stored_analytics w' = stored_analytics w.
Proof. unfold stored_analytics. by intros ->. Qed.

Lemma kept_config_ok (w w' : world) :
  config w' = config w ->
  installed w -> installed w' /\ counters_le w w'.
Proof.
  intros Hc Hi. apply stored_analytics_config in Hc.
  unfold installed, counters_le, stored_field, stored_counter in *.
  rewrite Hc. split; [done|]. intros k n _ H. exists n. split; [done | lia].
Qed.

Lemma saved_record_ok (w w2 : world) (a a' : dict) :
  stored_analytics w = VDict a ->
  record_grows a a' ->
  installed (exec (save_analytics_data (VDict a')) w2) /\
  counters_le w (exec (save_analytics_data (VDict a')) w2).
Proof.
  intros Hs [Hi Hc]. unfold exec. rewrite save_analytics_data_run. cbn [snd].
  unfold installed, counters_le, stored_field, stored_counter.
  rewrite stored_analytics_saved, Hs. split; [done|]. apply Hc.
Qed.

Lemma py_add_one_as_int (v v' : value) (n : Z) :
  as_int v = Some n -> py_add_one v = Ret v' -> v' = VInt (n + 1).
Proof.
  destruct v; simpl; try discriminate.
  - by intros [= <-] [= <-].
  - by intros [= <-] [= <-].
Qed.

Lemma in_counter_keys (k : string) :
  In k counter_keys ->
  k = "total_uses" \/ k = "quick_action_usage_count" \/
  k = "shortcut_usage_count".
Proof. simpl. intuition. Qed.

(** Closes [record_grows a a'] when [a'] is [a] with keys inserted, none of
    them the install date, and each inserted counter one more than it
    was. *)
Ltac grows_by_lookup :=
  split;
  [ unfold dict_get in *; by simplify_map_eq
  | let k := fresh "k" in
    let n := fresh "n" in
    let Hk := fresh "Hk" in
    let Hn := fresh "Hn" in
    intros k n Hk Hn; apply in_counter_keys in Hk;
    destruct Hk as [-> | [-> | ->]];
    unfold dict_get_default in *; simplify_map_eq;
    try (eexists; split; [eassumption | lia]);
    try (match goal with
         | Ha : py_add_one _ = Ret ?v |- _ =>
             rewrite (py_add_one_as_int _ _ _ Hn Ha); cbn [as_int];
             eexists; split; [reflexivity | lia]
         end) ].

Lemma installed_dict (w : world) :
  installed w ->
  exists a, stored_analytics w = VDict a /\
            truthy (dict_get "first_install_date" a) = true.
Proof.
  unfold installed, stored_field.
  destruct (stored_analytics w); try discriminate. eauto.
Qed.

(** Closes a step whose world is the old one, or a saved record. *)
Ltac finish_step a :=
  cbn [snd];
  first [ by apply kept_config_ok
        | apply (saved_record_ok _ _ a); [done | grows_by_lookup] ].

Lemma step_init (now : datetime) (h : host) (w : world) :
  installed w ->
  installed (exec (init_analytics now h) w) /\
  counters_le w (exec (init_analytics now h) w).
Proof.
  intros Hi. unfold exec. rewrite (init_analytics_installed now h w Hi).
  by apply kept_config_ok.
Qed.

Lemma step_signup (method : string) (now : datetime) (w : world) :
  installed w ->
  installed (exec (track_signup_click method now) w) /\
  counters_le w (exec (track_signup_click method now) w).
Proof.
  intros Hi. destruct (installed_dict w Hi) as (a & Hs & Ha).
  unfold exec. rewrite (track_signup_click_run _ _ _ _ Hs).
  destruct (negb _); finish_step a.
Qed.

Lemma step_auth (button_type : string) (now : datetime) (w : world) :
  installed w ->
  installed (exec (track_auth_button_click button_type now) w) /\
  counters_le w (exec (track_auth_button_click button_type now) w).
Proof.
  intros Hi. destruct (installed_dict w Hi) as (a & Hs & Ha).
  unfold exec, track_auth_button_click. run_op.
  destruct (negb _); finish_step a.
Qed.

Lemma step_login (now : datetime) (w : world) :
  installed w ->
  installed (exec (track_login_detected now) w) /\
  counters_le w (exec (track_login_detected now) w).
Proof.
  intros Hi. destruct (installed_dict w Hi) as (a & Hs & Ha).
  unfold exec, track_login_detected. run_op.
  destruct (negb _); finish_step a.
Qed.

Lemma step_onboarding (w : world) :
  installed w ->
  installed (exec track_onboarding_completed w) /\
  counters_le w (exec track_onboarding_completed w).
Proof.
  intros Hi. destruct (installed_dict w Hi) as (a & Hs & Ha).
  unfold exec, track_onboarding_completed. run_op.
  destruct (negb _); finish_step a.
Qed.

Lemma step_tutorial_status (status : string) (w : world) :
  installed w ->
  installed (exec (track_tutorial_status status) w) /\
  counters_le w (exec (track_tutorial_status status) w).
Proof.
  intros Hi. destruct (installed_dict w Hi) as (a & Hs & Ha).
  unfold exec, track_tutorial_status. run_op.
  destruct (py_ne_str _ _); finish_step a.
Qed.

Lemma step_tutorial_step (current total : Z) (w : world) :
  installed w ->
  installed (exec (track_tutorial_step current total) w) /\
  counters_le w (exec (track_tutorial_step current total) w).
Proof.
  intros Hi. destruct (installed_dict w Hi) as (a & Hs & Ha).
  unfold exec, track_tutorial_step. run_op. finish_step a.
Qed.

Lemma step_quick_action (w : world) :
  installed w ->
  installed (exec track_quick_action_used w) /\
  counters_le w (exec track_quick_action_used w).
Proof.
  intros Hi. destruct (installed_dict w Hi) as (a & Hs & Ha).
  unfold exec, track_quick_action_used. run_op.
  destruct (py_add_one _) as [v|e] eqn:Hv; finish_step a.
Qed.

Lemma step_shortcut (w : world) :
  installed w ->
  installed (exec track_shortcut_used w) /\
  counters_le w (exec track_shortcut_used w).
Proof.
  intros Hi. destruct (installed_dict w Hi) as (a & Hs & Ha).
  unfold exec, track_shortcut_used. run_op.
  destruct (py_add_one _) as [v|e] eqn:Hv; finish_step a.
Qed.

Lemma step_usage (now now' : datetime) (w : world) :
  installed w ->
  installed (exec (track_usage now now') w) /\
  counters_le w (exec (track_usage now now') w).
Proof.
  intros Hi. destruct (installed_dict w Hi) as (a & Hs & Ha).
  unfold exec, track_usage. run_op.
  destruct (py_add_one _) as [v|e] eqn:Hv; [|finish_step a].
  run_op.
  destruct (dict_get_default "daily_usage" _ _) as [| | | | | |du] eqn:Hdu;
    try finish_step a.
  run_op.
  destruct (py_add_one (dict_get_default _ _ du)) as [c|e] eqn:Hc;
    [|finish_step a].
  run_op. unfold cleanup_old_daily_data.
  rewrite lookup_insert_ne by done. rewrite lookup_insert_eq.
  destruct (sub_days 90 (dt_date now')) as [cutoff|]; [|finish_step a].
  run_op. clear Hdu. finish_step a.
Qed.

Lemma step_flush (net : http_result) (now : datetime) (w : world) :
  installed w ->
  installed (exec (_send net now) w) /\
  counters_le w (exec (_send net now) w).
Proof.
  intros Hi. destruct (installed_dict w Hi) as (a & Hs & Ha).
  unfold exec.
  destruct (truthy (endpoint_url_of w)) eqn:He.
  - rewrite (send_with_record net now w a He Hs).
    destruct net as [status| | |]; try finish_step a.
    destruct (status =? 200); finish_step a.
  - rewrite (send_no_endpoint net now w He). finish_step a.
Qed.

Lemma run_op_step (o : ledger_op) (w : world) :
  installed w ->
  installed (run_op o w) /\ counters_le w (run_op o w).
Proof.
  destruct o; simpl;
    auto using step_init, step_usage, step_signup, step_auth, step_login,
      step_onboarding, step_tutorial_status, step_tutorial_step,
      step_quick_action, step_shortcut, step_flush.
Qed.

Lemma run_ops_app (ops : list ledger_op) (o : ledger_op) (w : world) :
  run_ops (ops ++ [o]) w = run_op o (run_ops ops w).
Proof. unfold run_ops. by rewrite fold_left_app. Qed.

Lemma run_ops_steps (ops : list ledger_op) (w : world) :
  installed w ->
  installed (run_ops ops w) /\ counters_le w (run_ops ops w).
Proof.
  revert w. induction ops as [|o ops IH]; intros w Hi.
  - split; [done | apply counters_le_refl].
  - destruct (run_op_step o w Hi) as [Hi1 Hle1].
    destruct (IH (run_op o w) Hi1) as [Hi2 Hle2].
    split; [done|]. by apply counters_le_trans with (run_op o w).
Qed.

(* ===================================================================== *)
(** ** Formatted dates sort as dates *)
(* ===================================================================== *)

Lemma digit_compare (a b : Z) :
  Ascii.compare (digit a) (digit b) = (a mod 10 ?= b mod 10).
Proof.
  unfold Ascii.compare, digit.
  pose proof (Z.mod_pos_bound a 10 ltac:(lia)) as Ha.
  pose proof (Z.mod_pos_bound b 10 ltac:(lia)) as Hb.
  rewrite !N_ascii_embedding by lia.
  rewrite <- N2Z.inj_compare, !N2Z.inj_add, !Z2N.id by lia.
  apply Z.add_compare_mono_l.
Qed.

Lemma string_compare_refl (s : string) : String.compare s s = Eq.
Proof.
  induction s as [|c s IH]; [done|]. simpl.
  unfold Ascii.compare. by rewrite N.compare_refl.
Qed.

(** Behind prefixes of one length the comparison is lexicographic. *)
Lemma string_compare_app (s1 s2 t1 t2 : string) :
  String.length s1 = String.length s2 ->
  String.compare (s1 ++ t1) (s2 ++ t2) =
  match String.compare s1 s2 with
  | Eq => String.compare t1 t2
  | c => c
  end.
Proof.
  revert s2. induction s1 as [|c1 s1 IH]; intros [|c2 s2] Hlen;
    try discriminate; [done|].
  simpl. destruct (Ascii.compare c1 c2); [|done..].
  apply IH. by injection Hlen.
Qed.

Lemma string_length_app (s t : string) :
  String.length (s ++ t) = (String.length s + String.length t)%nat.
Proof. induction s as [|c s IH]; simpl; [done | by rewrite IH]. Qed.

Lemma pad_length (w : nat) (n : Z) : String.length (pad w n) = w.
Proof.
  revert n. induction w as [|w IH]; intros n; [done|].
  cbn [pad]. rewrite string_length_app, IH. simpl. lia.
Qed.

Lemma compare_by_last_digit (a b : Z) :
  match a / 10 ?= b / 10 with
  | Eq => a mod 10 ?= b mod 10
  | c => c
  end = (a ?= b).
Proof.
  pose proof (Z.div_mod a 10 ltac:(lia)) as Ha.
  pose proof (Z.div_mod b 10 ltac:(lia)) as Hb.
  pose proof (Z.mod_pos_bound a 10 ltac:(lia)).
  pose proof (Z.mod_pos_bound b 10 ltac:(lia)).
  destruct (Z.compare_spec (a / 10) (b / 10));
    destruct (Z.compare_spec (a mod 10) (b mod 10));
    destruct (Z.compare_spec a b); try reflexivity; lia.
Qed.

(** Zero-padded numbers of one width compare as the numbers, whatever the
    numbers are modulo [10^w]. *)
Lemma pad_compare (w : nat) (a b : Z) :
  0 <= a < 10 ^ Z.of_nat w ->
  0 <= b < 10 ^ Z.of_nat w ->
  String.compare (pad w a) (pad w b) = (a ?= b).
Proof.
  revert a b. induction w as [|w IH]; intros a b Ha Hb.
  - simpl in *. assert (a = 0) as -> by lia. by assert (b = 0) as -> by lia.
  - cbn [pad]. rewrite string_compare_app by by rewrite !pad_length.
    rewrite Nat2Z.inj_succ, Z.pow_succ_r in Ha, Hb by lia.
    rewrite IH by (split; [apply Z.div_pos; lia
                          | apply Z.div_lt_upper_bound; lia]).
    simpl. rewrite digit_compare.
    rewrite <- (compare_by_last_digit a b).
    by destruct (a mod 10 ?= b mod 10), (a / 10 ?= b / 10).
Qed.

Lemma valid_date_bounds (d : date) :
  valid_date d = true ->
  1 <= year d <= 9999 /\ 1 <= month d <= 12 /\ 1 <= day d <= 31.
Proof.
  unfold valid_date, days_in_month. rewrite !andb_true_iff, !Z.leb_le.
  intros [[[[[? ?] ?] ?] ?] Hd].
  repeat split; try lia.
  destruct (month d =? 2); [destruct (is_leap (year d))|
    destruct ((month d =? 4) || (month d =? 6) || (month d =? 9)
              || (month d =? 11))]; lia.
Qed.

Lemma strftime_Y_four_digits (y : Z) : 1000 <= y -> strftime_Y y = pad 4 y.
Proof.
  intros Hy. unfold strftime_Y.
  destruct (Z.ltb_spec y 10); [lia|].
  destruct (Z.ltb_spec y 100); [lia|].
  by destruct (Z.ltb_spec y 1000); [lia|].
Qed.

(** On valid dates from the year 1000 on, where the year has its four
    digits, the order of the [YYYY-MM-DD] strings is the order of the
    dates. *)
Lemma strftime_ymd_compare (d1 d2 : date) :
  valid_date d1 = true ->
  valid_date d2 = true ->
  1000 <= year d1 ->
  1000 <= year d2 ->
  String.compare (strftime_ymd d1) (strftime_ymd d2) = date_compare d1 d2.
Proof.
  intros H1 H2 Hy1 Hy2.
  apply valid_date_bounds in H1. apply valid_date_bounds in H2.
  unfold strftime_ymd, date_compare.
  rewrite !strftime_Y_four_digits by done.
  rewrite string_compare_app by by rewrite !pad_length.
  rewrite pad_compare by (simpl; lia).
  destruct (year d1 ?= year d2); [|done..].
  change ("-" ++ ?s) with (String "-" s). cbn [String.compare].
  change (Ascii.compare "-" "-") with Eq. cbv iota.
  rewrite string_compare_app by by rewrite !pad_length.
  rewrite pad_compare by (simpl; lia).
  destruct (month d1 ?= month d2); [|done..].
  change ("-" ++ ?s) with (String "-" s). cbn [String.compare].
  change (Ascii.compare "-" "-") with Eq. cbv iota.
  apply pad_compare; simpl; lia.
Qed.

Lemma date_compare_eq (d1 d2 : date) : date_compare d1 d2 = Eq -> d1 = d2.
Proof.
  unfold date_compare. destruct d1 as [y1 m1 x1], d2 as [y2 m2 x2]. simpl.
  destruct (Z.compare_spec y1 y2); try discriminate.
  destruct (Z.compare_spec m1 m2); try discriminate.
  destruct (Z.compare_spec x1 x2); try discriminate.
  intros _. congruence.
Qed.

Lemma strftime_ymd_inj (d1 d2 : date) :
  valid_date d1 = true ->
  valid_date d2 = true ->
  1000 <= year d1 ->
  1000 <= year d2 ->
  strftime_ymd d1 = strftime_ymd d2 -> d1 = d2.
Proof.
  intros H1 H2 Hy1 Hy2 He. apply date_compare_eq.
  rewrite <- strftime_ymd_compare by done.
  rewrite He. apply string_compare_refl.
Qed.

(** Before the year 1000 the formatted year is shorter and the strings no
    longer sort as the dates do: the 15th of January 1000 formats below
    the 17th of October 999.  [isoformat] keeps its four digits. *)
Remark strftime_before_year_1000 :
  strftime_ymd (mk_date 999 6 15) = "999-06-15"
  /\ isoformat (mk_datetime (mk_date 999 6 15) 0 0 0 0 None)
     = "0999-06-15T00:00:00"
  /\ str_ge (strftime_ymd (mk_date 1000 1 15))
            (strftime_ymd (mk_date 999 10 17)) = false.
Proof. by vm_compute. Qed.

Lemma date_compare_index (d1 d2 : date) :
  valid_date d1 = true ->
  valid_date d2 = true ->
  date_compare d1 d2 = (date_index d1 ?= date_index d2).
Proof.
  intros H1 H2.
  apply valid_date_bounds in H1. apply valid_date_bounds in H2.
  unfold date_compare, date_index.
  destruct (Z.compare_spec (year d1) (year d2));
    destruct (Z.compare_spec (month d1) (month d2));
    destruct (Z.compare_spec (day d1) (day d2));
    symmetry;
    first [ apply Z.compare_eq_iff; lia
          | apply Z.compare_lt_iff; lia
          | apply Z.compare_gt_iff; lia ].
Qed.

Lemma year_le_by_index (d1 d2 : date) :
  valid_date d1 = true ->
  valid_date d2 = true ->
  date_index d1 <= date_index d2 -> year d1 <= year d2.
Proof.
  intros H1 H2.
  apply valid_date_bounds in H1. apply valid_date_bounds in H2.
  unfold date_index. lia.
Qed.

Lemma year_le_not_before (k cutoff : date) :
  valid_date k = true ->
  valid_date cutoff = true ->
  date_ltb k cutoff = false -> year cutoff <= year k.
Proof.
  intros Hk Hc Hlt. apply year_le_by_index; [done..|].
  unfold date_ltb in Hlt. rewrite date_compare_index in Hlt by done.
  destruct (Z.compare_spec (date_index k) (date_index cutoff));
    try discriminate; lia.
Qed.

Lemma days_in_month_bounds (y m : Z) : 28 <= days_in_month y m <= 31.
Proof.
  unfold days_in_month.
  destruct (m =? 2); [destruct (is_leap y)|
    destruct ((m =? 4) || (m =? 6) || (m =? 9) || (m =? 11))]; lia.
Qed.

Lemma prev_day_valid (d p : date) :
  valid_date d = true -> prev_day d = Some p -> valid_date p = true.
Proof.
  intros Hv. pose proof (valid_date_bounds d Hv) as Hb.
  revert Hv. unfold valid_date, prev_day.
  rewrite !andb_true_iff, !Z.leb_le. intros [[[[[? ?] ?] ?] ?] Hd].
  destruct (1 <? day d) eqn:E1; [|destruct (1 <? month d) eqn:E2;
    [|destruct (1 <? year d) eqn:E3; [|discriminate]]];
    intros [= <-]; simpl;
    rewrite ?andb_true_iff, ?Z.leb_le;
    rewrite ?Z.ltb_lt, ?Z.ltb_ge in *.
  - repeat split; lia.
  - pose proof (days_in_month_bounds (year d) (month d - 1)).
    repeat split; lia.
  - repeat split; try lia. by vm_compute.
Qed.

Lemma sub_days_valid (n : nat) (d c : date) :
  valid_date d = true -> sub_days n d = Some c ->
  valid_date c = true /\ date_index c <= date_index d.
Proof.
  revert d. induction n as [|n IH]; intros d Hv; simpl.
  - intros [= <-]. split; [done | lia].
  - destruct (prev_day d) as [p|] eqn:Hp; [|discriminate].
    intros Hc. pose proof (prev_day_valid d p Hv Hp) as Hvp.
    destruct (IH p Hvp Hc) as [Hvc Hle]. split; [done|].
    pose proof (prev_day_lt d p Hp) as Hlt. unfold date_ltb in Hlt.
    rewrite date_compare_index in Hlt by done.
    destruct (Z.compare_spec (date_index p) (date_index d)); try discriminate.
    lia.
Qed.

(** *** Subtracting days moves the ordinal *)

Lemma days_before_month_succ (y m : Z) :
  1 <= m ->
  days_before_month y (m + 1) = days_before_month y m + days_in_month y m.
Proof.
  intros Hm. unfold days_before_month.
  replace (Z.to_nat (m + 1 - 1)) with (S (Z.to_nat (m - 1))) by lia.
  cbn [days_before_month_nat]. f_equal. f_equal. lia.
Qed.

Lemma days_before_year_succ (y : Z) :
  1 <= y ->
  days_before_year (y + 1) =
  days_before_year y + 365 + (if is_leap y then 1 else 0).
Proof.
  intros Hy. unfold days_before_year, is_leap.
  replace (y + 1 - 1) with y by lia.
  destruct (Z.eqb_spec (y mod 4) 0), (Z.eqb_spec (y mod 100) 0),
    (Z.eqb_spec (y mod 400) 0); cbn [negb andb orb];
    Z.div_mod_to_equations; lia.
Qed.

Lemma days_before_december (y : Z) :
  days_before_month y 12 = 334 + (if is_leap y then 1 else 0).
Proof.
  unfold days_before_month. change (Z.to_nat (12 - 1)) with 11%nat.
  cbn [days_before_month_nat]. unfold days_in_month.
  destruct (is_leap y); reflexivity.
Qed.

Lemma prev_day_toordinal (d p : date) :
  valid_date d = true -> prev_day d = Some p -> toordinal p = toordinal d - 1.
Proof.
  unfold valid_date, prev_day, toordinal.
  rewrite !andb_true_iff, !Z.leb_le. intros [[[[[? ?] ?] ?] ?] Hd].
  destruct (Z.ltb_spec 1 (day d)); [|destruct (Z.ltb_spec 1 (month d));
    [|destruct (Z.ltb_spec 1 (year d)); [|discriminate]]];
    intros [= <-]; cbn [year month day].
  - lia.
  - pose proof (days_before_month_succ (year d) (month d - 1) ltac:(lia)) as Hm.
    replace (month d - 1 + 1) with (month d) in Hm by lia. lia.
  - pose proof (days_before_year_succ (year d - 1) ltac:(lia)) as Hy.
    replace (year d - 1 + 1) with (year d) in Hy by lia.
    rewrite days_before_december.
    replace (month d) with 1 by lia.
    change (days_before_month (year d) 1) with 0.
    destruct (is_leap (year d - 1)); lia.
Qed.

(** [sub_days n] is [fromordinal (toordinal d - n)], as [datetime] computes
    [d - timedelta(days=n)]. *)
Lemma sub_days_toordinal (n : nat) (d c : date) :
  valid_date d = true -> sub_days n d = Some c ->
  toordinal c = toordinal d - Z.of_nat n.
Proof.
  revert d. induction n as [|n IH]; intros d Hv.
  - intros [= <-]. simpl. lia.
  - cbn [sub_days]. destruct (prev_day d) as [p|] eqn:Hp; [|discriminate].
    intros Hc. rewrite (IH p (prev_day_valid d p Hv Hp) Hc).
    rewrite (prev_day_toordinal d p Hv Hp). lia.
Qed.

(* ===================================================================== *)
(** ** Recording a usage *)
(* ===================================================================== *)

(** What [cleanup_old_daily_data] keeps of a [daily_usage]. *)
Lemma lookup_kept (cutoff_str k : string) (du : dict) :
  filter (λ kv : string * value, str_ge kv.1 cutoff_str = true) du !! k =
  if str_ge k cutoff_str then du !! k else None.
Proof.
  destruct (str_ge k cutoff_str) eqn:E.
  - destruct (du !! k) as [v|] eqn:Hv.
    + by apply map_lookup_filter_Some.
    + apply map_lookup_filter_None. by left.
  - apply map_lookup_filter_None. right. intros v _. simpl. by rewrite E.
Qed.

Lemma str_ge_strftime (k cutoff : date) :
  valid_date k = true ->
  valid_date cutoff = true ->
  1000 <= year k ->
  1000 <= year cutoff ->
  str_ge (strftime_ymd k) (strftime_ymd cutoff) = negb (date_ltb k cutoff).
Proof.
  intros Hk Hc Hyk Hyc. unfold str_ge, date_ltb.
  rewrite strftime_ymd_compare by done. by destruct (date_compare k cutoff).
Qed.

Lemma track_usage_run (now now' : datetime) (w : world) (a du : dict)
  (n c : Z) (cutoff : date) :
  stored_analytics w = VDict a ->
  dict_get_default "total_uses" (VInt 0) a = VInt n ->
  dict_get_default "daily_usage" (VDict ∅) a = VDict du ->
  dict_get_default (strftime_ymd (dt_date now)) (VInt 0) du = VInt c ->
  sub_days 90 (dt_date now') = Some cutoff ->
  track_usage now now' w =
  save_analytics_data
    (VDict
       (<["daily_usage" :=
            VDict (filter (λ kv : string * value,
                             str_ge kv.1 (strftime_ymd cutoff) = true)
                          (<[strftime_ymd (dt_date now) := VInt (c + 1)]> du))]>
          (<["last_used_date" := VStr (strftime_ymd (dt_date now))]>
             (<["daily_usage" :=
                  VDict (<[strftime_ymd (dt_date now) := VInt (c + 1)]> du)]>
                (<["total_uses" := VInt (n + 1)]> a))))) w.
Proof.
  intros Hs Hn Hdu Hc Hcut. unfold track_usage. run_op.
  rewrite Hn. cbn [py_add_one]. run_op.
  replace (dict_get_default "daily_usage" (VDict ∅)
             (<["total_uses" := VInt (n + 1)]> a)) with (VDict du)
    by (rewrite <- Hdu; unfold dict_get_default;
        by rewrite lookup_insert_ne).
  run_op. rewrite Hc. cbn [py_add_one]. run_op.
  unfold cleanup_old_daily_data.
  rewrite lookup_insert_ne by done. rewrite lookup_insert_eq, Hcut.
  by run_op.
Qed.

(** C2. [track_usage] on date [D] (both clock readings on [D]; the cut-off,
    the date 90 days before [D], in the year 1000 or later, where [%Y] has
    its four digits on every platform), on a record whose [total_uses] and
    whose count for [D] are integers: it returns normally, [total_uses] is
    one more, the count under [D] is one more (1 when there was none),
    [last_used_date] is [D], every key that is a date (of a four-digit
    year) before the cut-off is gone from [daily_usage], every key that is
    another date from the cut-off on keeps what it held, and the other
    fields are untouched.  Before the year 1000 the strings glibc formats
    have fewer digits and their order is no longer that of the dates. *)
Theorem track_usage_on_date
  (now now' : datetime) (w : world) (a du : dict) (n c : Z) (D cutoff : date) :
  stored_analytics w = VDict a ->
  dt_date now = D ->
  dt_date now' = D ->
  valid_date D = true ->
  sub_days 90 D = Some cutoff ->
  1000 <= year cutoff ->
  dict_get_default "total_uses" (VInt 0) a = VInt n ->
  dict_get_default "daily_usage" (VDict ∅) a = VDict du ->
  dict_get_default (strftime_ymd D) (VInt 0) du = VInt c ->
  toordinal cutoff = toordinal D - 90 /\
  exists (w' : world) (du' : dict),
    track_usage now now' w = (Ret tt, w') /\
    stored_field "total_uses" w' = VInt (n + 1) /\
    stored_field "last_used_date" w' = VStr (strftime_ymd D) /\
    stored_field "daily_usage" w' = VDict du' /\
    du' !! strftime_ymd D = Some (VInt (c + 1)) /\
    (forall k : date,
       valid_date k = true -> 1000 <= year k -> date_ltb k cutoff = true ->
       du' !! strftime_ymd k = None) /\
    (forall k : date,
       valid_date k = true -> date_ltb k cutoff = false -> k ≠ D ->
       du' !! strftime_ymd k = du !! strftime_ymd k) /\
    (forall f : string,
       f ≠ "total_uses" -> f ≠ "daily_usage" -> f ≠ "last_used_date" ->
       stored_field f w' = dict_get f a).
Proof.
  intros Hs HD HD' Hv Hcut Hyc Hn Hdu Hc.
  split; [apply (sub_days_toordinal 90 D cutoff Hv Hcut)|].
  subst D. rewrite <- HD' in Hcut.
  rewrite (track_usage_run now now' w a du n c cutoff Hs Hn Hdu Hc Hcut).
  rewrite save_analytics_data_run.
  eexists. eexists. split; [reflexivity|].
  unfold stored_field. rewrite stored_analytics_saved.
  rewrite HD' in Hcut.
  destruct (sub_days_valid 90 _ _ Hv Hcut) as [Hvc Hle].
  pose proof (year_le_by_index _ _ Hvc Hv Hle) as HyD.
  unfold dict_get.
  split; [by simplify_map_eq|]. split; [by simplify_map_eq|].
  split; [by rewrite lookup_insert_eq|].
  split; [|split; [|split]].
  - rewrite lookup_kept, str_ge_strftime by (done || lia).
    unfold date_ltb. rewrite date_compare_index by done.
    destruct (Z.compare_spec (date_index (dt_date now)) (date_index cutoff));
      try lia; cbn [negb]; by rewrite lookup_insert_eq.
  - intros k Hk Hyk Hlt. by rewrite lookup_kept, str_ge_strftime, Hlt.
  - intros k Hk Hlt Hne.
    pose proof (year_le_not_before k cutoff Hk Hvc Hlt) as Hyk.
    rewrite lookup_kept, str_ge_strftime, Hlt by (done || lia). cbn [negb].
    apply lookup_insert_ne. intros He. apply Hne. symmetry.
    apply strftime_ymd_inj; (done || lia).
  - intros f H1 H2 H3. by rewrite !lookup_insert_ne.
Qed.

Lemma track_usage_on_date_witness :
  exists (w' : world) (du' : dict),
    track_usage now_jan14 now_jan14 world_with_history = (Ret tt, w') /\
    stored_field "total_uses" w' = VInt 8 /\
    stored_field "daily_usage" w' = VDict du' /\
    du' !! "2026-01-14" = Some (VInt 2) /\
    du' !! "2025-10-15" = None /\
    du' !! "2025-10-16" = Some (VInt 4).
Proof.
  destruct (track_usage_on_date now_jan14 now_jan14 world_with_history
              (<["total_uses" := VInt 7]>
              (<["first_install_date" := VStr "2025-09-01T08:00:00"]>
                 {["daily_usage" :=
                     VDict (<["2025-10-15" := VInt 2]>
                           (<["2025-10-16" := VInt 4]>
                              {["2026-01-14" := VInt 1]}))]}))
              (<["2025-10-15" := VInt 2]>
              (<["2025-10-16" := VInt 4]> {["2026-01-14" := VInt 1]}))
              7 1 (mk_date 2026 1 14) (mk_date 2025 10 16))
    as (_ & w' & du' & Hrun & Ht & _ & Hd & Htoday & Hold & Hkeep & _);
    try reflexivity; try (cbn [year]; lia).
  exists w', du'. split; [exact Hrun|]. split; [exact Ht|].
  split; [exact Hd|]. split; [exact Htoday|]. split.
  - apply (Hold (mk_date 2025 10 15)); [reflexivity | cbn [year]; lia | reflexivity].
  - etransitivity;
      [apply (Hkeep (mk_date 2025 10 16));
         [reflexivity | reflexivity | discriminate]
      | reflexivity].
Defined.

(* ===================================================================== *)
(** ** Retention metrics *)
(* ===================================================================== *)

Lemma delta_days_floor (a b : datetime) :
  delta_days a b * 86400000000 <= to_microseconds a - to_microseconds b
  < (delta_days a b + 1) * 86400000000.
Proof.
  unfold delta_days.
  pose proof (Z.div_mod (to_microseconds a - to_microseconds b) 86400000000
                ltac:(lia)).
  pose proof (Z.mod_pos_bound (to_microseconds a - to_microseconds b)
                86400000000 ltac:(lia)).
  lia.
Qed.

Lemma round_half_even_nearest (n d : Z) :
  0 < d ->
  2 * Z.abs (n - round_half_even n d * d) <= d /\
  (2 * Z.abs (n - round_half_even n d * d) = d ->
   Z.even (round_half_even n d) = true).
Proof.
  intros Hd. unfold round_half_even.
  pose proof (Z.div_mod n d ltac:(lia)) as Hn.
  pose proof (Z.mod_pos_bound n d Hd) as Hr.
  destruct (Z.ltb_spec (2 * (n mod d)) d); [split; lia|].
  destruct (Z.ltb_spec d (2 * (n mod d))); [split; lia|].
  destruct (Z.even (n / d)) eqn:He; [split; [lia | done]|].
  split; [lia|]. intros _.
  by rewrite Z.add_1_r, Z.even_succ, <- Z.negb_even, He.
Qed.

Lemma scaled_hundredths_nearest (m e : Z) :
  nearest_hundredths m e (scaled_hundredths m e).
Proof.
  unfold nearest_hundredths, scaled_hundredths.
  destruct (Z.leb_spec 0 e).
  - rewrite Z.max_l, Z.max_r by lia. change (2 ^ 0) with 1. split; lia.
  - rewrite Z.max_r, Z.max_l by lia. change (2 ^ 0) with 1.
    replace (100 * m * 1) with (m * 100) by lia.
    apply round_half_even_nearest. apply Z.pow_pos_nonneg; lia.
Qed.

(** The nearest hundredths are determined. *)
Lemma nearest_hundredths_unique (m e n n' : Z) :
  nearest_hundredths m e n -> nearest_hundredths m e n' -> n = n'.
Proof.
  unfold nearest_hundredths.
  set (num := 100 * m * 2 ^ Z.max e 0). set (den := 2 ^ Z.max (- e) 0).
  assert (Hden : 0 < den) by (apply Z.pow_pos_nonneg; lia).
  clearbody num den. cbv zeta. intros [H1 T1] [H2 T2].
  assert (Hnear : -1 <= n' - n <= 1) by nia.
  assert (Hc : n' = n \/ n' = n + 1 \/ n = n' + 1) by lia.
  destruct Hc as [-> | [-> | ->]]; [done| |].
  - assert (He : Z.even n = true) by (apply T1; lia).
    assert (He' : Z.even (n + 1) = true) by (apply T2; lia).
    rewrite Z.add_1_r, Z.even_succ, <- Z.negb_even, He in He'. discriminate.
  - assert (He : Z.even n' = true) by (apply T2; lia).
    assert (He' : Z.even (n' + 1) = true) by (apply T1; lia).
    rewrite Z.add_1_r, Z.even_succ, <- Z.negb_even, He in He'. discriminate.
Qed.

(** [round(x, 2)] rounds to two decimals, and nothing else does. *)
Lemma py_round2_rounds (x : float) : rounded_to_2_decimals x (py_round2 x).
Proof.
  unfold rounded_to_2_decimals, py_round2.
  destruct (Prim2SF x) as [| | |s m e]; try reflexivity.
  exists (scaled_hundredths (Z.pos m) e).
  split; [apply scaled_hundredths_nearest | reflexivity].
Qed.

Lemma rounded_to_2_decimals_unique (x r' : float) :
  rounded_to_2_decimals x r' -> r' = py_round2 x.
Proof.
  unfold rounded_to_2_decimals, py_round2.
  destruct (Prim2SF x) as [| | |s m e]; try done.
  intros (n & Hn & ->).
  by rewrite (nearest_hundredths_unique _ _ _ _ Hn
                (scaled_hundredths_nearest (Z.pos m) e)).
Qed.

Section Retention.

Variable fromisoformat : string -> option datetime.

Local Abbreviation metrics := (get_retention_metrics fromisoformat).

(** Every path through [get_retention_metrics], returning or raising,
    leaves the world as it found it. *)
Lemma get_retention_metrics_reads_only (now : datetime) (w : world) :
  exec (metrics now) w = w.
Proof.
  unfold exec, get_retention_metrics.
  destruct (stored_analytics w) as [| | | | | |a] eqn:Hs;
    try (by run_op).
  run_op.
  destruct (negb (truthy (dict_get "first_install_date" a)));
    [reflexivity|].
  rewrite bind_run. unfold py_fromisoformat.
  destruct (dict_get "first_install_date" a) as [| | | |s| |];
    try reflexivity.
  destruct (fromisoformat s) as [t|]; [|reflexivity].
  cbn [mret M_ret]. rewrite bind_run. unfold lift.
  destruct (datetime_sub_days now t) as [days|]; [|reflexivity].
  rewrite bind_run.
  destruct (py_len _) as [n|]; [|reflexivity].
  rewrite bind_run.
  destruct (py_round_2 _) as [r|]; reflexivity.
Qed.

Lemma get_retention_metrics_run (now first_install : datetime) (w : world)
  (a du : dict) (s : string) :
  stored_analytics w = VDict a ->
  dict_get "first_install_date" a = VStr s ->
  s ≠ "" ->
  fromisoformat s = Some first_install ->
  tzinfo now = None ->
  tzinfo first_install = None ->
  dict_get_default "daily_usage" (VDict ∅) a = VDict du ->
  let days := delta_days now first_install in
  let active := Z.of_nat (size du) in
  metrics now w =
  (Ret (<["days_since_install" := VInt days]>
       (<["active_days" := VInt active]>
       (<["total_uses" := dict_get_default "total_uses" (VInt 0) a]>
       (<["retention_rate" :=
            if 0 <? days then
              VFloat (py_round2
                        (int_true_div active (Z.max days 1) * 100)%float)
            else VInt 0]>
       (<["last_used" := dict_get "last_used_date" a]>
       (<["has_logged_in" :=
            dict_get_default "has_logged_in" (VBool false) a]>
       (<["signup_method" := dict_get "signup_method" a]> ∅))))))),
   w).
Proof.
  intros Hs Hv Hne Hp Hnow Hfi Hdu days active.
  unfold get_retention_metrics. run_op. rewrite Hv.
  cbn [truthy]. apply String.eqb_neq in Hne. rewrite Hne. cbn [negb].
  unfold py_fromisoformat. rewrite bind_run, Hp. cbn [mret M_ret].
  unfold datetime_sub_days. rewrite Hnow, Hfi.
  rewrite bind_run. cbn [lift]. rewrite Hdu. cbn [py_len].
  cbv beta iota. fold days. fold active.
  rewrite bind_run. cbn [lift]. rewrite bind_run.
  by destruct (0 <? days).
Qed.

(** C3, as the code has it.  [get_retention_metrics] leaves the world as
    it was on every path.  Without an install date it returns the empty
    dict.  With one, a naive timestamp that parses, it returns
    [days_since_install], the floor of the elapsed time in days;
    [active_days], the number of keys of [daily_usage]; and
    [retention_rate]: the integer 0 when [days_since_install] is not
    positive, and otherwise the float product
    [active_days / max(days_since_install, 1) * 100], the quotient taken
    first, rounded to two decimals, that is, the one float of [n / 100]
    with [n] the hundredths nearest to the exact value of that product
    (the even one of two equally near).  Ten days and three keys give 10, 3
    and 30.0; 160 days and 23 keys give 14.37. *)
Theorem retention_metrics_computed (now : datetime) (w : world) (a : dict) :
  stored_analytics w = VDict a ->
  exec (metrics now) w = w
  /\ (truthy (dict_get "first_install_date" a) = false ->
      metrics now w = (Ret ∅, w))
  /\ (forall (s : string) (first_install : datetime) (du : dict),
        dict_get "first_install_date" a = VStr s ->
        s ≠ "" ->
        fromisoformat s = Some first_install ->
        tzinfo now = None ->
        tzinfo first_install = None ->
        dict_get_default "daily_usage" (VDict ∅) a = VDict du ->
        exists (m : dict) (days : Z),
          metrics now w = (Ret m, w) /\
          days * 86400000000
            <= to_microseconds now - to_microseconds first_install
            < (days + 1) * 86400000000 /\
          m !! "days_since_install" = Some (VInt days) /\
          m !! "active_days" = Some (VInt (Z.of_nat (size du))) /\
          (days <= 0 -> m !! "retention_rate" = Some (VInt 0)) /\
          (0 < days ->
           exists r : float,
             m !! "retention_rate" = Some (VFloat r) /\
             rounded_to_2_decimals
               (int_true_div (Z.of_nat (size du)) (Z.max days 1) * 100)%float r /\
             forall r' : float,
               rounded_to_2_decimals
                 (int_true_div (Z.of_nat (size du)) (Z.max days 1) * 100)%float
                 r' ->
               r' = r) /\
          m !! "total_uses" = Some (dict_get_default "total_uses" (VInt 0) a) /\
          m !! "last_used" = Some (dict_get "last_used_date" a) /\
          m !! "has_logged_in" =
            Some (dict_get_default "has_logged_in" (VBool false) a) /\
          m !! "signup_method" = Some (dict_get "signup_method" a) /\
          (days = 10 -> size du = 3%nat ->
           m !! "retention_rate" = Some (VFloat 30%float)) /\
          (days = 160 -> size du = 23%nat ->
           m !! "retention_rate" = Some (VFloat (1437 / 100)%float))).
Proof.
  intros Hs. split; [apply get_retention_metrics_reads_only | split].
  - intros Hf. unfold get_retention_metrics. run_op. by rewrite Hf.
  - intros s fi du Hv Hne Hp Hnow Hfi Hdu.
    rewrite (get_retention_metrics_run now fi w a du s Hs Hv Hne Hp Hnow Hfi Hdu).
    eexists. exists (delta_days now fi). split; [reflexivity|].
    split; [apply delta_days_floor|].
    split; [by simplify_map_eq|]. split; [by simplify_map_eq|].
    assert (Hrate : forall v (m0 : dict),
              (<["days_since_install" := VInt (delta_days now fi)]>
              (<["active_days" := VInt (Z.of_nat (size du))]>
              (<["total_uses" := dict_get_default "total_uses" (VInt 0) a]>
              (<["retention_rate" := v]> m0)))) !! "retention_rate" = Some v).
    { intros v m0. by simplify_map_eq. }
    rewrite Hrate.
    split; [|split].
    + intros Hle. by destruct (Z.ltb_spec 0 (delta_days now fi)); [lia|].
    + intros Hlt. destruct (Z.ltb_spec 0 (delta_days now fi)); [|lia].
      eexists. split; [reflexivity|].
      split; [apply py_round2_rounds | apply rounded_to_2_decimals_unique].
    + repeat (split; [by simplify_map_eq|]).
      split; intros Hd Hn; rewrite Hd, Hn; reflexivity.
Qed.

End Retention.

(** C3, as stated, fails.  With 23 active days in the 160 days since the
    installation, 100 * 23 / 160 is 14.375 and rounds to 14.38, in
    hundredths over the exact quotient as well as in floating point.  The
    code takes the quotient first and multiplies after; the float product
    lies just below 14.375, and the rate returned is 14.37. *)
Lemma retention_rate_of_23_in_160 :
  spec_retention_rate_hundredths 23 160 = 1438
  /\ spec_retention_rate 23 160 = (1438 / 100)%float
  /\ exists m : dict,
       get_retention_metrics parse_isoformat now_jan14 world_23_in_160
       = (Ret m, world_23_in_160)
       /\ m !! "days_since_install" = Some (VInt 160)
       /\ m !! "active_days" = Some (VInt 23)
       /\ m !! "retention_rate" = Some (VFloat (1437 / 100)%float)
       /\ m !! "retention_rate" ≠ Some (VFloat (spec_retention_rate 23 160)).
Proof.
  split; [reflexivity|]. split; [reflexivity|].
  assert (Hs : stored_analytics world_23_in_160 = VDict record_23_in_160)
    by (vm_compute; reflexivity).
  assert (Hv : dict_get "first_install_date" record_23_in_160
               = VStr "2025-08-07T10:00:00") by (vm_compute; reflexivity).
  assert (Hp : parse_isoformat "2025-08-07T10:00:00"
               = Some (mk_datetime (mk_date 2025 8 7) 10 0 0 0 None))
    by (vm_compute; reflexivity).
  assert (Hdu : dict_get_default "daily_usage" (VDict ∅) record_23_in_160
                = VDict usage_23_days) by (vm_compute; reflexivity).
  pose proof (get_retention_metrics_run parse_isoformat now_jan14 _
                world_23_in_160 _ _ _ Hs Hv ltac:(discriminate) Hp
                eq_refl eq_refl Hdu) as Hrun.
  cbv zeta in Hrun.
  replace (delta_days now_jan14 (mk_datetime (mk_date 2025 8 7) 10 0 0 0 None))
    with 160 in Hrun by (vm_compute; reflexivity).
  replace (Z.of_nat (size usage_23_days)) with 23 in Hrun
    by (vm_compute; reflexivity).
  eexists. split; [exact Hrun|].
  split; [apply lookup_insert_eq|].
  split; [rewrite lookup_insert_ne by done; apply lookup_insert_eq|].
  rewrite lookup_insert_ne by done. rewrite lookup_insert_ne by done.
  rewrite lookup_insert_ne by done. rewrite lookup_insert_eq.
  split; [reflexivity | discriminate].
Qed.

Lemma retention_metrics_computed_witness :
  exists m : dict,
    get_retention_metrics parse_isoformat now_jan14 world_ten_days
    = (Ret m, world_ten_days) /\
    m !! "days_since_install" = Some (VInt 10) /\
    m !! "active_days" = Some (VInt 3) /\
    m !! "retention_rate" = Some (VFloat 30%float).
Proof.
  destruct (retention_metrics_computed parse_isoformat now_jan14 world_ten_days
              (<["first_install_date" := VStr "2026-01-04T09:15:00"]>
              (<["total_uses" := VInt 5]>
                 {["daily_usage" :=
                     VDict (<["2026-01-04" := VInt 2]>
                           (<["2026-01-09" := VInt 1]>
                              {["2026-01-14" := VInt 2]}))]}))
              eq_refl) as (_ & _ & H).
  destruct (H "2026-01-04T09:15:00"
              (mk_datetime (mk_date 2026 1 4) 9 15 0 0 None)
              (<["2026-01-04" := VInt 2]>
              (<["2026-01-09" := VInt 1]> {["2026-01-14" := VInt 2]})))
    as (m & days & Hrun & Hfloor & Hdays & Hactive & _ & _ & _ & _ & _ & _
        & Hrate & _);
    [reflexivity | discriminate | reflexivity | reflexivity | reflexivity
    | reflexivity |].
  assert (Hd : days = 10).
  { assert (He : to_microseconds now_jan14
                 - to_microseconds (mk_datetime (mk_date 2026 1 4) 9 15 0 0 None)
                 = 866700000000) by reflexivity.
    rewrite He in Hfloor. lia. }
  exists m. split; [exact Hrun|]. subst days.
  split; [exact Hdays|]. split; [exact Hactive|].
  apply Hrate; reflexivity.
Defined.

(* ===================================================================== *)
(** ** What one call does *)
(* ===================================================================== *)

Lemma run_op_call (o : ledger_op) (w : world) :
  run_op o w = exec (op_call o) w.
Proof. by destruct o. Qed.

Lemma same_off_refl (ks : list string) (a : dict) : same_off ks a a.
Proof. by intros k _. Qed.

(** Closes [same_off ks a a'] when [a'] is [a] with keys of [ks]
    inserted. *)
Ltac same_off_by_lookup :=
  let k := fresh "k" in
  let Hk := fresh "Hk" in
  intros k Hk;
  repeat (apply not_elem_of_cons in Hk as [? Hk]);
  by rewrite ?lookup_insert_ne by congruence.

(** Closes [op_outcome] at a leaf of the case analysis of a call. *)
Ltac outcome_leaf a :=
  first
    [ by left
    | right; left; by eexists
    | right; right; right; exists a; eexists; eexists;
      split; [first [eassumption | reflexivity]|];
      split; [by left|]; split; [reflexivity|];
      first [ apply same_off_refl | same_off_by_lookup ] ].

Lemma op_outcome_no_record (o : ledger_op) (w : world) :
  (forall a, stored_analytics w ≠ VDict a) ->
  (forall net now, o ≠ OpFlush net now) ->
  exists e, op_call o w = (Raise e, w).
Proof.
  intros Hs Hf.
  destruct o; cbn [op_call];
    try (by destruct (Hf net now));
    match goal with
    | |- exists e, ?f ?w = _ => unfold f
    | |- exists e, ?f _ ?w = _ => unfold f
    | |- exists e, ?f _ _ ?w = _ => unfold f
    end;
    rewrite bind_run, get_analytics_data_run;
    destruct (stored_analytics w) as [| | | | | |a] eqn:E;
    try (by destruct (Hs a)); by eexists.
Qed.

Lemma op_outcome_flush (net : http_result) (now : datetime) (w : world) :
  op_outcome (OpFlush net now) w.
Proof.
  unfold op_outcome. cbn [op_call].
  destruct (truthy (endpoint_url_of w)) eqn:He;
    [|left; by apply send_no_endpoint].
  destruct (stored_analytics w) as [| | | | | |a] eqn:Hs;
    try (left; apply send_no_record; [done | intros a; congruence]).
  rewrite (send_with_record net now w a He Hs).
  destruct net as [status| | |]; [destruct (status =? 200)| | |].
  - right; right; right. exists a. eexists. exists (posted w a).
    split; [done|]. split; [right; split; [by eexists; eexists | done]|].
    split; [reflexivity|]. cbn [touched]. same_off_by_lookup.
  - right; right; left. by exists a, (HttpResponse status), now.
  - right; right; left. by exists a, NetworkError, now.
  - right; right; left. by exists a, Timeout, now.
  - by left.
Qed.

(** Every call has one of the outcomes of [op_outcome]. *)
Lemma op_outcome_holds (o : ledger_op) (w : world) : op_outcome o w.
Proof.
  destruct (stored_analytics w) as [| | | | | |a] eqn:Hs.
  1-6: destruct o;
    try apply op_outcome_flush;
    right; left; apply op_outcome_no_record;
    [intros a; congruence | discriminate
    |intros a; congruence | discriminate
    |intros a; congruence | discriminate
    |intros a; congruence | discriminate
    |intros a; congruence | discriminate
    |intros a; congruence | discriminate
    |intros a; congruence | discriminate
    |intros a; congruence | discriminate
    |intros a; congruence | discriminate
    |intros a; congruence | discriminate].
  destruct o; try apply op_outcome_flush; unfold op_outcome; cbn [op_call touched].
  - (* init_analytics *)
    unfold init_analytics. run_op.
    destruct (negb _); outcome_leaf a.
  - (* track_usage *)
    unfold track_usage. run_op.
    destruct (py_add_one _) as [v|e]; [|outcome_leaf a].
    run_op.
    destruct (dict_get_default "daily_usage" _ _) as [| | | | | |du];
      try outcome_leaf a.
    run_op.
    destruct (py_add_one (dict_get_default _ _ du)) as [c|e];
      [|outcome_leaf a].
    run_op. unfold cleanup_old_daily_data.
    rewrite lookup_insert_ne by done. rewrite lookup_insert_eq.
    destruct (sub_days 90 (dt_date now')) as [cutoff|]; [|outcome_leaf a].
    run_op. outcome_leaf a.
  - (* track_signup_click *)
    rewrite (track_signup_click_run _ _ _ _ Hs).
    destruct (negb _); outcome_leaf a.
  - unfold track_auth_button_click. run_op. destruct (negb _); outcome_leaf a.
  - unfold track_login_detected. run_op. destruct (negb _); outcome_leaf a.
  - unfold track_onboarding_completed. run_op.
    destruct (negb _); outcome_leaf a.
  - unfold track_tutorial_status. run_op.
    destruct (py_ne_str _ _); outcome_leaf a.
  - unfold track_tutorial_step. run_op. outcome_leaf a.
  - unfold track_quick_action_used. run_op.
    destruct (py_add_one _) as [v|e]; outcome_leaf a.
  - unfold track_shortcut_used. run_op.
    destruct (py_add_one _) as [v|e]; outcome_leaf a.
Qed.

Lemma stored_field_posted (k : string) (w : world) (a : dict) :
  stored_field k (posted w a) = stored_field k w.
Proof. reflexivity. Qed.

(** A call leaves every field outside [touched] as it was. *)
Lemma run_op_frame (o : ledger_op) (w : world) (k : string) :
  k ∉ touched o -> stored_field k (run_op o w) = stored_field k w.
Proof.
  intros Hk. rewrite run_op_call. unfold exec.
  destruct (op_outcome_holds o w)
    as [->|[[e ->]|[(a & net & now & _ & ->)|(a & a' & w0 & Hs & Hw0 & -> & Hoff)]]];
    try reflexivity.
  rewrite save_analytics_data_run. cbn [snd].
  unfold stored_field. rewrite stored_analytics_saved, Hs.
  unfold dict_get. by rewrite (Hoff k Hk).
Qed.

(** A call leaves every key of the configuration but ["analytics"] as it
    was. *)
Lemma run_op_config_frame (o : ledger_op) (w : world) (k : string) :
  k ≠ "analytics" ->
  config_or_empty (config (run_op o w)) !! k = config_or_empty (config w) !! k.
Proof.
  intros Hk. rewrite run_op_call. unfold exec.
  destruct (op_outcome_holds o w)
    as [->|[[e ->]|[(a & net & now & _ & ->)|(a & a' & w0 & Hs & Hw0 & -> & Hoff)]]];
    try reflexivity.
  rewrite save_analytics_data_run. cbn [snd config].
  unfold config_or_empty at 1. cbn [default from_option]. unfold id.
  rewrite lookup_insert_ne by done.
  by destruct Hw0 as [->|[_ ->]].
Qed.

(** X1. A call of the ledger changes, of the stored record, only the
    fields it assigns to ([touched]), and of the add-on's configuration
    only the ["analytics"] entry: every other field and every other
    configuration key reads after the call as before it. *)
Theorem call_changes_only_its_fields (o : ledger_op) (w : world) (k : string) :
  (k ∉ touched o -> stored_field k (run_op o w) = stored_field k w)
  /\ (k ≠ "analytics" ->
      config_or_empty (config (run_op o w)) !! k
      = config_or_empty (config w) !! k).
Proof. split; [apply run_op_frame | apply run_op_config_frame]. Qed.

Lemma call_changes_only_its_fields_witness :
  stored_field "total_uses"
    (run_op (OpSignupClick "organic" now_jan14) world_in_use) = VInt 7
  /\ config_or_empty
       (config (run_op (OpRecordUsage now_jan14 now_jan14) world_in_use))
       !! "analytics_endpoint"
     = Some (VStr "https://collector.example/ingest").
Proof.
  split.
  - destruct (call_changes_only_its_fields (OpSignupClick "organic" now_jan14)
                world_in_use "total_uses") as [H _].
    rewrite H; [reflexivity|]. apply (bool_decide_unpack _). vm_compute. exact I.
  - destruct (call_changes_only_its_fields (OpRecordUsage now_jan14 now_jan14)
                world_in_use "analytics_endpoint") as [_ H].
    rewrite H; [reflexivity | discriminate].
Defined.

Lemma count_events_single (p : event -> bool) (e : event) :
  count_events p [e] = if p e then 1%nat else 0%nat.
Proof. unfold count_events. simpl. by destruct (p e). Qed.

(** X2. A call of the ledger is all or nothing.  If it raises, the world
    is as it was.  It calls [writeConfig] at most once and starts no
    thread; only the upload makes an HTTP call, and at most one; and when
    nothing was written the configuration is as it was. *)
Theorem call_is_all_or_nothing (o : ledger_op) (w : world) :
  let w' := run_op o w in
  ((exists e, fst (op_call o w) = Raise e) -> w' = w)
  /\ (count_events is_write (new_events w w') <= 1)%nat
  /\ count_events is_thread_start (new_events w w') = 0%nat
  /\ (count_events is_post (new_events w w') <= 1)%nat
  /\ ((forall net now, o ≠ OpFlush net now) ->
      count_events is_post (new_events w w') = 0%nat)
  /\ (count_events is_write (new_events w w') = 0%nat -> config w' = config w).
Proof.
  intros w'. subst w'. rewrite run_op_call. unfold exec.
  destruct (op_outcome_holds o w)
    as [->|[[e ->]|[(a & net & now & Ho & ->)|(a & a' & w0 & Hs & Hw0 & -> & Hoff)]]];
    cbn [fst snd].
  - rewrite new_events_same. cbn.
    split_and!; try done; try lia; by intros [e ?].
  - rewrite new_events_same. cbn. split_and!; try done; lia.
  - rewrite new_events_posted. cbn.
    split_and!; try done; try lia;
      first [by intros [e ?] | intros Hf; by destruct (Hf net now)].
  - destruct Hw0 as [->|[(net & now & Ho) ->]].
    + rewrite save_analytics_data_run. cbn [fst snd].
      rewrite new_events_app. cbn.
      split_and!; try done; try lia; by intros [e ?].
    + fold (exec (save_analytics_data (VDict a')) (posted w a)).
      rewrite new_events_posted_saved, save_analytics_data_run. cbn.
      split_and!; try done; try lia;
        first [by intros [e ?] | intros Hf; by destruct (Hf net now)].
Qed.

(** A record whose [total_uses] is no number. *)
Lemma call_is_all_or_nothing_witness :
  run_op (OpRecordUsage now_jan14 now_jan14)
    (mk_world (Some {["analytics" := VDict {["total_uses" := VStr "many"]}]}) [])
  = mk_world (Some {["analytics" := VDict {["total_uses" := VStr "many"]}]}) [].
Proof.
  apply (call_is_all_or_nothing (OpRecordUsage now_jan14 now_jan14)
           (mk_world (Some {["analytics" := VDict {["total_uses" := VStr "many"]}]}) [])).
  exists TypeError. reflexivity.
Defined.

(* ===================================================================== *)
(** ** A stored record that is no dict *)
(* ===================================================================== *)

(** X3. When what is stored under ["analytics"] is no dict (a [null], a
    number, a string, a list), every tracking call raises and leaves the
    world as it was, and so do [is_user_logged_in],
    [get_retention_metrics], [should_send_analytics] and
    [try_send_daily_analytics]; only the upload thread swallows the error,
    after which it has posted and written nothing. *)
Theorem not_a_dict_raises
  (fromisoformat : string -> option datetime) (w : world)
  (o : ledger_op) (now : datetime) (net : http_result) :
  (forall a, stored_analytics w ≠ VDict a) ->
  ((forall net' now', o ≠ OpFlush net' now') ->
   exists e, op_call o w = (Raise e, w))
  /\ (exists e, is_user_logged_in w = (Raise e, w))
  /\ (exists e, get_retention_metrics fromisoformat now w = (Raise e, w))
  /\ (exists e, should_send_analytics fromisoformat now w = (Raise e, w))
  /\ (exists e, try_send_daily_analytics fromisoformat now w = (Raise e, w))
  /\ _send net now w = (Ret tt, w).
Proof.
  intros Hs. split; [by apply op_outcome_no_record|].
  assert (Hraise : expect_dict AttributeError (stored_analytics w) w
                   = (Raise AttributeError, w)).
  { destruct (stored_analytics w) as [| | | | | |a] eqn:E; try reflexivity.
    by destruct (Hs a). }
  split_and!.
  - unfold is_user_logged_in. rewrite bind_run, get_analytics_data_run.
    rewrite bind_run, Hraise. by eexists.
  - unfold get_retention_metrics. rewrite bind_run, get_analytics_data_run.
    rewrite bind_run, Hraise. by eexists.
  - unfold should_send_analytics. rewrite bind_run, get_analytics_data_run.
    rewrite bind_run, Hraise. by eexists.
  - unfold try_send_daily_analytics, should_send_analytics.
    rewrite !bind_run, get_analytics_data_run.
    rewrite bind_run, Hraise. by eexists.
  - destruct (truthy (endpoint_url_of w)) eqn:He.
    + by apply send_no_record.
    + by apply send_no_endpoint.
Qed.

Lemma not_a_dict_raises_witness :
  (exists e, track_quick_action_used world_null_record
             = (Raise e, world_null_record))
  /\ exists e, try_send_daily_analytics parse_isoformat now_jan14
                 world_null_record = (Raise e, world_null_record).
Proof.
  destruct (not_a_dict_raises parse_isoformat world_null_record OpQuickAction
              now_jan14 Timeout) as (Hop & _ & _ & _ & Htry & _).
  - intros a. discriminate.
  - split; [apply Hop; discriminate | exact Htry].
Defined.

(* ===================================================================== *)
(** ** Counters, from any record *)
(* ===================================================================== *)

Lemma counters_le_config (w w' : world) :
  config w' = config w -> counters_le w w'.
Proof.
  intros Hc. apply stored_analytics_config in Hc.
  unfold counters_le, stored_counter. rewrite Hc.
  intros k n _ H. exists n. split; [done | lia].
Qed.

Lemma counters_le_saved (w w0 : world) (a a' : dict) :
  stored_analytics w = VDict a ->
  (forall (k : string) (n : Z),
     In k counter_keys ->
     as_int (dict_get_default k (VInt 0) a) = Some n ->
     exists n', as_int (dict_get_default k (VInt 0) a') = Some n' /\ n <= n') ->
  counters_le w (exec (save_analytics_data (VDict a')) w0).
Proof.
  intros Hs Hc. unfold exec. rewrite save_analytics_data_run. cbn [snd].
  unfold counters_le, stored_counter. rewrite stored_analytics_saved, Hs.
  apply Hc.
Qed.

(** A call that assigns to no counter leaves the counters as they were,
    whatever is stored. *)
Lemma counters_le_untouched (o : ledger_op) (w : world) :
  (forall k, In k counter_keys -> k ∉ touched o) ->
  counters_le w (run_op o w).
Proof.
  intros Hk. rewrite run_op_call. unfold exec.
  destruct (op_outcome_holds o w)
    as [->|[[e ->]|[(a & net & now & _ & ->)|(a & a' & w0 & Hs & Hw0 & -> & Hoff)]]];
    try apply counters_le_refl.
  - by apply counters_le_config.
  - apply (counters_le_saved w w0 a a' Hs).
    intros k n Hin Hn. exists n. split; [|lia].
    unfold dict_get_default in *. by rewrite (Hoff k (Hk k Hin)).
Qed.

(** Closes [counters_le] at a leaf of a counting call: the world is the old
    one, or a record is saved in which the counter assigned to is one more
    than it was. *)
Ltac counts_up a :=
  cbn [snd];
  first
    [ by apply counters_le_config
    | apply (counters_le_saved _ _ a); [done|];
      let k := fresh "k" in
      let n := fresh "n" in
      let Hk := fresh "Hk" in
      let Hn := fresh "Hn" in
      intros k n Hk Hn; apply in_counter_keys in Hk;
      destruct Hk as [-> | [-> | ->]];
      unfold dict_get_default in *; simplify_map_eq;
      try (eexists; split; [eassumption | lia]);
      try (match goal with
           | Ha : py_add_one _ = Ret ?v |- _ =>
               rewrite (py_add_one_as_int _ _ _ Hn Ha); cbn [as_int];
               eexists; split; [reflexivity | lia]
           end) ].

Lemma usage_counts_up (now now' : datetime) (w : world) :
  counters_le w (exec (track_usage now now') w).
Proof.
  destruct (stored_analytics w) as [| | | | | |a] eqn:Hs;
    try (unfold exec, track_usage; run_op; by apply counters_le_config).
  unfold exec, track_usage. run_op.
  destruct (py_add_one _) as [v|e] eqn:Hv; [|counts_up a].
  run_op.
  destruct (dict_get_default "daily_usage" _ _) as [| | | | | |du] eqn:Hdu;
    try counts_up a.
  run_op.
  destruct (py_add_one (dict_get_default _ _ du)) as [c|e] eqn:Hc;
    [|counts_up a].
  run_op. unfold cleanup_old_daily_data.
  rewrite lookup_insert_ne by done. rewrite lookup_insert_eq.
  destruct (sub_days 90 (dt_date now')) as [cutoff|]; [|counts_up a].
  run_op. clear Hdu. counts_up a.
Qed.

Lemma quick_action_counts_up (w : world) :
  counters_le w (exec track_quick_action_used w).
Proof.
  destruct (stored_analytics w) as [| | | | | |a] eqn:Hs;
    try (unfold exec, track_quick_action_used; run_op;
         by apply counters_le_config).
  unfold exec, track_quick_action_used. run_op.
  destruct (py_add_one _) as [v|e] eqn:Hv; counts_up a.
Qed.

Lemma shortcut_counts_up (w : world) :
  counters_le w (exec track_shortcut_used w).
Proof.
  destruct (stored_analytics w) as [| | | | | |a] eqn:Hs;
    try (unfold exec, track_shortcut_used; run_op;
         by apply counters_le_config).
  unfold exec, track_shortcut_used. run_op.
  destruct (py_add_one _) as [v|e] eqn:Hv; counts_up a.
Qed.

(** Only the initialisation of a record without an install date can lower
    a counter. *)
Lemma run_op_counters (o : ledger_op) (w : world) :
  installed w \/ (forall now h, o ≠ OpInitialize now h) ->
  counters_le w (run_op o w).
Proof.
  intros [Hi|Hn]; [by apply run_op_step|].
  destruct o; cbn [run_op];
    first [ by destruct (Hn now h)
          | apply usage_counts_up
          | apply quick_action_counts_up
          | apply shortcut_counts_up
          | idtac ].
  all: match goal with
       | |- counters_le ?w (exec ?c ?w) =>
           first
             [ apply (counters_le_untouched (OpSignupClick method now) w)
             | apply (counters_le_untouched (OpAuthButtonClick button_type now) w)
             | apply (counters_le_untouched (OpLoginDetected now) w)
             | apply (counters_le_untouched OpOnboardingCompleted w)
             | apply (counters_le_untouched (OpTutorialStatus status) w)
             | apply (counters_le_untouched (OpTutorialStep current total) w)
             | apply (counters_le_untouched (OpFlush net now) w) ]
       end;
    intros k Hk; apply in_counter_keys in Hk;
    destruct Hk as [-> | [-> | ->]];
    cbn [touched]; apply (bool_decide_unpack _); vm_compute; exact I.
Qed.

Lemma run_ops_counters (ops : list ledger_op) (w : world) :
  installed w \/ Forall (fun o => forall now h, o ≠ OpInitialize now h) ops ->
  counters_le w (run_ops ops w).
Proof.
  intros [Hi|Hn]; [by apply run_ops_steps|].
  revert w. induction Hn as [|o ops Ho _ IH]; intros w.
  - apply counters_le_refl.
  - cbn [run_ops fold_left]. fold (run_ops ops (run_op o w)).
    apply counters_le_trans with (run_op o w); [|apply IH].
    apply run_op_counters. by right.
Qed.

(** C1, as the code has it.  The calls run one after another, each to its
    end before the next.  From any record and after any sequence of calls,
    one more call lowers none of [total_uses], [quick_action_usage_count]
    and [shortcut_usage_count], unless it is [init_analytics] on a record
    without an install date: a counter that held an integer holds one at
    least as large.  So no counter decreases over a sequence that starts
    with an install date stored, or that has no initialisation in it.
    [init_analytics] on a record without an install date stores the date
    and writes 0 to the three counters, whatever they held. *)
Theorem counters_decrease_only_at_install
  (w : world) (ops : list ledger_op) (o : ledger_op) :
  (installed (run_ops ops w) \/ (forall now h, o ≠ OpInitialize now h) ->
   counters_le (run_ops ops w) (run_op o (run_ops ops w)))
  /\ (installed w
      \/ Forall (fun o' => forall now h, o' ≠ OpInitialize now h) ops ->
      counters_le w (run_ops ops w))
  /\ (forall (now : datetime) (h : host) (a : dict),
        stored_analytics (run_ops ops w) = VDict a ->
        ~ installed (run_ops ops w) ->
        installed (run_op (OpInitialize now h) (run_ops ops w))
        /\ forall k, In k counter_keys ->
             stored_counter k (run_op (OpInitialize now h) (run_ops ops w))
             = Some 0).
Proof.
  split; [apply run_op_counters|]. split; [apply run_ops_counters|].
  intros now h a Hs Hni.
  assert (Hf : truthy (dict_get "first_install_date" a) = false).
  { apply not_true_is_false. intros Ht. apply Hni.
    unfold installed, stored_field. by rewrite Hs. }
  cbn [run_op]. unfold exec.
  destruct (init_analytics_first now h _ a Hs Hf)
    as (a' & -> & Hd & _ & _ & _ & Hu & _ & _ & _ & _ & _ & _ & _ & _ & Hq & Hc).
  rewrite save_analytics_data_run. cbn [snd].
  unfold installed, stored_field, stored_counter.
  rewrite stored_analytics_saved. split.
  - rewrite Hd. apply isoformat_truthy.
  - intros k Hk. apply in_counter_keys in Hk.
    unfold dict_get, dict_get_default in *.
    destruct Hk as [-> | [-> | ->]].
    + destruct (a' !! "total_uses"); cbn in *; by simplify_eq.
    + destruct (a' !! "quick_action_usage_count"); cbn in *; by simplify_eq.
    + destruct (a' !! "shortcut_usage_count"); cbn in *; by simplify_eq.
Qed.

Lemma counters_decrease_only_at_install_witness :
  counters_le (mk_world None [])
    (run_ops [OpRecordUsage now_jan14 now_jan14; OpQuickAction]
             (mk_world None []))
  /\ stored_counter "total_uses"
       (run_ops [OpRecordUsage now_jan14 now_jan14; OpQuickAction]
                (mk_world None [])) = Some 1
  /\ stored_counter "total_uses"
       (run_op (OpInitialize now_jan14 host_no_locale)
          (run_ops [OpRecordUsage now_jan14 now_jan14; OpQuickAction]
                   (mk_world None []))) = Some 0.
Proof.
  destruct (counters_decrease_only_at_install (mk_world None [])
              [OpRecordUsage now_jan14 now_jan14; OpQuickAction]
              (OpInitialize now_jan14 host_no_locale)) as (_ & Hseq & Hinit).
  split; [|split; [vm_compute; reflexivity|]].
  - apply Hseq. right. repeat constructor; discriminate.
  - destruct (stored_analytics
                (run_ops [OpRecordUsage now_jan14 now_jan14; OpQuickAction]
                         (mk_world None []))) as [| | | | | |a] eqn:Hs;
      try (vm_compute in Hs; discriminate).
    apply (Hinit now_jan14 host_no_locale a eq_refl); [|simpl; auto].
    unfold installed. vm_compute. discriminate.
Defined.

(* ===================================================================== *)
(** ** Fields that are written once *)
(* ===================================================================== *)

(** Proves that a closed key is outside the keys a call assigns to. *)
Ltac not_touched :=
  cbn [touched]; apply (bool_decide_unpack _); vm_compute; exact I.


Lemma track_auth_button_click_set (button_type : string) (now : datetime)
  (w : world) :
  truthy (stored_field "auth_button_clicked" w) = true ->
  track_auth_button_click button_type now w = (Ret tt, w).
Proof.
  unfold stored_field. intros Ht. unfold track_auth_button_click. run_op.
  destruct (stored_analytics w); try discriminate.
  cbn [expect_dict mret M_ret]. by rewrite Ht.
Qed.

Lemma track_login_detected_set (now : datetime) (w : world) :
  truthy (stored_field "has_logged_in" w) = true ->
  track_login_detected now w = (Ret tt, w).
Proof.
  unfold stored_field. intros Ht. unfold track_login_detected. run_op.
  destruct (stored_analytics w); try discriminate.
  cbn [expect_dict mret M_ret]. by rewrite Ht.
Qed.

Lemma track_onboarding_completed_set (w : world) :
  truthy (stored_field "onboarding_completed" w) = true ->
  track_onboarding_completed w = (Ret tt, w).
Proof.
  unfold stored_field. intros Ht. unfold track_onboarding_completed. run_op.
  destruct (stored_analytics w); try discriminate.
  cbn [expect_dict mret M_ret]. by rewrite Ht.
Qed.















(* ===================================================================== *)
(** ** First click, first login, onboarding *)
(* ===================================================================== *)

Lemma is_user_logged_in_run (w : world) (a : dict) :
  stored_analytics w = VDict a ->
  is_user_logged_in w
  = (Ret (dict_get_default "has_logged_in" (VBool false) a), w).
Proof. intros Hs. unfold is_user_logged_in. by run_op. Qed.

Lemma track_auth_button_click_first (button_type : string) (now : datetime)
  (w : world) (a : dict) :
  stored_analytics w = VDict a ->
  truthy (dict_get "auth_button_clicked" a) = false ->
  track_auth_button_click button_type now w =
  save_analytics_data
    (VDict (<["auth_button_click_date" := VStr (isoformat now)]>
              (<["auth_button_clicked" := VStr button_type]> a))) w.
Proof.
  intros Hs Hf. unfold track_auth_button_click. run_op. by rewrite Hf.
Qed.

Lemma track_login_detected_first (now : datetime) (w : world) (a : dict) :
  stored_analytics w = VDict a ->
  truthy (dict_get "has_logged_in" a) = false ->
  track_login_detected now w =
  save_analytics_data
    (VDict (<["first_login_date" := VStr (isoformat now)]>
              (<["has_logged_in" := VBool true]> a))) w.
Proof.
  intros Hs Hf. unfold track_login_detected. run_op. by rewrite Hf.
Qed.

Lemma track_onboarding_completed_first (w : world) (a : dict) :
  stored_analytics w = VDict a ->
  truthy (dict_get "onboarding_completed" a) = false ->
  track_onboarding_completed w =
  save_analytics_data (VDict (<["onboarding_completed" := VBool true]> a)) w.
Proof.
  intros Hs Hf. unfold track_onboarding_completed. run_op. by rewrite Hf.
Qed.

(** X7. The first auth button click wins.  On a record without one,
    [track_auth_button_click] stores the button and the time of the click
    in one write; a later call, with whatever button, returns without
    writing and leaves the world as the first call left it, so that the
    first button and the first time stay stored.  The button is a
    non-empty string. *)
Theorem first_auth_button_click_wins
  (first later : string) (now now' : datetime) (w : world) (a : dict) :
  stored_analytics w = VDict a ->
  truthy (dict_get "auth_button_clicked" a) = false ->
  first ≠ "" ->
  let w1 := exec (track_auth_button_click first now) w in
  stored_field "auth_button_clicked" w1 = VStr first
  /\ stored_field "auth_button_click_date" w1 = VStr (isoformat now)
  /\ count_events is_write (new_events w w1) = 1%nat
  /\ track_auth_button_click later now' w1 = (Ret tt, w1).
Proof.
  intros Hs Hf Hne w1. subst w1. unfold exec.
  rewrite (track_auth_button_click_first _ _ _ _ Hs Hf).
  rewrite save_analytics_data_run. cbn [snd].
  rewrite new_events_app.
  assert (Hb : forall k c l,
             stored_field k
               (mk_world
                  (Some (<["analytics" :=
                             VDict (<["auth_button_click_date" :=
                                        VStr (isoformat now)]>
                                      (<["auth_button_clicked" := VStr first]> a))]>
                           c)) l)
             = dict_get k (<["auth_button_click_date" := VStr (isoformat now)]>
                             (<["auth_button_clicked" := VStr first]> a))).
  { intros k c l. unfold stored_field. by rewrite stored_analytics_saved. }
  split_and!.
  - rewrite Hb. unfold dict_get. by simplify_map_eq.
  - rewrite Hb. unfold dict_get. by simplify_map_eq.
  - reflexivity.
  - apply track_auth_button_click_set. rewrite Hb.
    unfold dict_get. simplify_map_eq. cbn [truthy].
    apply negb_true_iff. by apply String.eqb_neq.
Qed.

Lemma first_auth_button_click_wins_witness :
  stored_field "auth_button_clicked"
    (exec (track_auth_button_click "login" now_jan14)
          (exec (track_auth_button_click "signup" now_jan14) world_in_use))
  = VStr "signup".
Proof.
  destruct (first_auth_button_click_wins "signup" "login" now_jan14 now_jan14
              world_in_use
              (<["first_install_date" := VStr "2026-01-04T10:00:00"]>
                 {["total_uses" := VInt 7]}))
    as (H1 & _ & _ & H2); [reflexivity | reflexivity | discriminate |].
  unfold exec at 1. rewrite H2. exact H1.
Defined.

(** X8. Login detection is a one-way switch that [is_user_logged_in]
    reads.  On a record without [has_logged_in] the reader returns
    [False].  After [track_login_detected] on a record that is not logged
    in it returns [True], and [first_login_date] is the time of that call;
    a later detection returns without writing, so that date stays. *)
Theorem login_is_detected_once
  (now now' : datetime) (w : world) (a : dict) :
  stored_analytics w = VDict a ->
  (a !! "has_logged_in" = None ->
   is_user_logged_in w = (Ret (VBool false), w))
  /\ (truthy (dict_get "has_logged_in" a) = false ->
      let w1 := exec (track_login_detected now) w in
      is_user_logged_in w1 = (Ret (VBool true), w1)
      /\ stored_field "first_login_date" w1 = VStr (isoformat now)
      /\ track_login_detected now' w1 = (Ret tt, w1)).
Proof.
  intros Hs. split.
  - intros Hn. rewrite (is_user_logged_in_run w a Hs).
    unfold dict_get_default. by rewrite Hn.
  - intros Hf w1. subst w1. unfold exec.
    rewrite (track_login_detected_first _ _ _ Hs Hf).
    rewrite save_analytics_data_run. cbn [snd].
    split_and!.
    + erewrite is_user_logged_in_run by apply stored_analytics_saved.
      unfold dict_get_default. by simplify_map_eq.
    + unfold stored_field. rewrite stored_analytics_saved.
      unfold dict_get. by simplify_map_eq.
    + apply track_login_detected_set.
      unfold stored_field. rewrite stored_analytics_saved.
      unfold dict_get. by simplify_map_eq.
Qed.

Lemma login_is_detected_once_witness :
  is_user_logged_in world_in_use = (Ret (VBool false), world_in_use)
  /\ stored_field "first_login_date"
       (exec (track_login_detected now_jan14) world_in_use)
     = VStr "2026-01-14T10:00:00".
Proof.
  destruct (login_is_detected_once now_jan14 now_jan14 world_in_use
              (<["first_install_date" := VStr "2026-01-04T10:00:00"]>
                 {["total_uses" := VInt 7]}) eq_refl) as [H1 H2].
  split; [apply H1; reflexivity|].
  destruct H2 as (_ & H & _); [reflexivity|]. exact H.
Defined.

(** X9. [track_onboarding_completed] is idempotent: on a record whose
    onboarding is not completed it stores [True] in one write, and a
    second call returns without writing, leaving the world of the
    first. *)
Theorem onboarding_completed_is_idempotent (w : world) (a : dict) :
  stored_analytics w = VDict a ->
  truthy (dict_get "onboarding_completed" a) = false ->
  let w1 := exec track_onboarding_completed w in
  stored_field "onboarding_completed" w1 = VBool true
  /\ count_events is_write (new_events w w1) = 1%nat
  /\ track_onboarding_completed w1 = (Ret tt, w1).
Proof.
  intros Hs Hf w1. subst w1. unfold exec.
  rewrite (track_onboarding_completed_first _ _ Hs Hf).
  rewrite save_analytics_data_run. cbn [snd]. rewrite new_events_app.
  assert (Hb : forall c l,
             stored_field "onboarding_completed"
               (mk_world
                  (Some (<["analytics" :=
                             VDict (<["onboarding_completed" := VBool true]> a)]> c))
                  l) = VBool true).
  { intros c l. unfold stored_field. rewrite stored_analytics_saved.
    unfold dict_get. by simplify_map_eq. }
  split_and!; [apply Hb | reflexivity |].
  apply track_onboarding_completed_set. by rewrite Hb.
Qed.

Lemma onboarding_completed_is_idempotent_witness :
  exec track_onboarding_completed (exec track_onboarding_completed world_in_use)
  = exec track_onboarding_completed world_in_use.
Proof.
  destruct (onboarding_completed_is_idempotent world_in_use
              (<["first_install_date" := VStr "2026-01-04T10:00:00"]>
                 {["total_uses" := VInt 7]}))
    as (_ & _ & H); [reflexivity | reflexivity |].
  unfold exec at 1. by rewrite H.
Defined.

(* ===================================================================== *)
(** ** Counting *)
(* ===================================================================== *)

Lemma stored_counter_saved (k : string) (a : dict) (w : world) :
  stored_counter k (exec (save_analytics_data (VDict a)) w)
  = as_int (dict_get_default k (VInt 0) a).
Proof.
  unfold exec. rewrite save_analytics_data_run. cbn [snd].
  unfold stored_counter. by rewrite stored_analytics_saved.
Qed.

Lemma quick_action_counted (w : world) (c : Z) :
  stored_counter "quick_action_usage_count" w = Some c ->
  stored_counter "quick_action_usage_count" (run_op OpQuickAction w)
  = Some (c + 1).
Proof.
  unfold stored_counter at 1.
  destruct (stored_analytics w) as [| | | | | |a] eqn:Hs; try discriminate.
  intros Hc. cbn [run_op]. unfold exec, track_quick_action_used. run_op.
  destruct (py_add_one _) as [v|e] eqn:Hv.
  - rewrite (py_add_one_as_int _ _ _ Hc Hv). run_op.
    fold (exec (save_analytics_data
                  (VDict (<["quick_action_usage_count" := VInt (c + 1)]> a))) w).
    rewrite stored_counter_saved. unfold dict_get_default.
    by rewrite lookup_insert_eq.
  - destruct (dict_get_default _ _ a); simpl in *; congruence.
Qed.

Lemma shortcut_counted (w : world) (c : Z) :
  stored_counter "shortcut_usage_count" w = Some c ->
  stored_counter "shortcut_usage_count" (run_op OpShortcut w) = Some (c + 1).
Proof.
  unfold stored_counter at 1.
  destruct (stored_analytics w) as [| | | | | |a] eqn:Hs; try discriminate.
  intros Hc. cbn [run_op]. unfold exec, track_shortcut_used. run_op.
  destruct (py_add_one _) as [v|e] eqn:Hv.
  - rewrite (py_add_one_as_int _ _ _ Hc Hv). run_op.
    fold (exec (save_analytics_data
                  (VDict (<["shortcut_usage_count" := VInt (c + 1)]> a))) w).
    rewrite stored_counter_saved. unfold dict_get_default.
    by rewrite lookup_insert_eq.
  - destruct (dict_get_default _ _ a); simpl in *; congruence.
Qed.

(** X10. The two feature counters count calls: [n] calls of
    [track_quick_action_used] raise [quick_action_usage_count] by exactly
    [n], and [n] calls of [track_shortcut_used] raise
    [shortcut_usage_count] by exactly [n]; a counter that is missing from
    the record counts from 0. *)
Theorem feature_counters_count_calls (n : nat) (w : world) (c : Z) :
  (stored_counter "quick_action_usage_count" w = Some c ->
   stored_counter "quick_action_usage_count"
     (Nat.iter n (run_op OpQuickAction) w) = Some (c + Z.of_nat n))
  /\ (stored_counter "shortcut_usage_count" w = Some c ->
      stored_counter "shortcut_usage_count"
        (Nat.iter n (run_op OpShortcut) w) = Some (c + Z.of_nat n)).
Proof.
  split; intros Hc; induction n as [|n IH].
  - cbn. rewrite Hc. f_equal. lia.
  - rewrite Nat.iter_succ, (quick_action_counted _ _ IH). f_equal. lia.
  - cbn. rewrite Hc. f_equal. lia.
  - rewrite Nat.iter_succ, (shortcut_counted _ _ IH). f_equal. lia.
Qed.

Lemma feature_counters_count_calls_witness :
  stored_counter "quick_action_usage_count"
    (Nat.iter 3 (run_op OpQuickAction) (mk_world None [])) = Some 3.
Proof.
  apply (feature_counters_count_calls 3 (mk_world None []) 0). reflexivity.
Defined.

Lemma usage_state_step (D cutoff : date) (now now' : datetime) (t c : Z)
  (w : world) :
  valid_date D = true ->
  sub_days 90 D = Some cutoff ->
  1000 <= year cutoff ->
  dt_date now = D ->
  dt_date now' = D ->
  usage_state D t c w ->
  usage_state D (t + 1) (c + 1) (exec (track_usage now now') w)
  /\ stored_field "last_used_date" (exec (track_usage now now') w)
     = VStr (strftime_ymd D).
Proof.
  intros Hv Hcut Hyc HD HD' (a & du & Hs & Ht & Hdu & Hc). subst D.
  rewrite <- HD' in Hcut. unfold exec.
  rewrite (track_usage_run now now' w a du t c cutoff Hs Ht Hdu Hc Hcut).
  rewrite save_analytics_data_run. cbn [snd].
  rewrite HD' in Hcut.
  destruct (sub_days_valid 90 _ _ Hv Hcut) as [Hvc Hle].
  pose proof (year_le_by_index _ _ Hvc Hv Hle) as HyD.
  split.
  - eexists. eexists. split; [apply stored_analytics_saved|].
    unfold dict_get_default. split_and!.
    + by simplify_map_eq.
    + by rewrite lookup_insert_eq.
    + rewrite lookup_kept, str_ge_strftime by (done || lia).
      unfold date_ltb. rewrite date_compare_index by done.
      destruct (Z.compare_spec (date_index (dt_date now)) (date_index cutoff));
        try lia; cbn [negb]; by rewrite lookup_insert_eq.
  - unfold stored_field. rewrite stored_analytics_saved.
    unfold dict_get. by simplify_map_eq.
Qed.

(** X11. Usages on one day are all counted.  On a record whose
    [total_uses] is the integer [t] and whose count for day [D] is the
    integer [c] (0 and 0 when they are missing), any number of
    [track_usage] calls with clock readings on [D] leave [total_uses] at
    [t] plus the number of calls and the count for [D] at [c] plus that
    number: with the cut-off, 90 days before [D], in the year 1000 or
    later, where the formatted year has its four digits, the pruning
    never drops the current day. *)
Theorem usages_on_one_day_are_counted
  (D cutoff : date) (nows : list (datetime * datetime)) (t c : Z)
  (w : world) (a du : dict) :
  valid_date D = true ->
  sub_days 90 D = Some cutoff ->
  1000 <= year cutoff ->
  Forall (fun p => dt_date (fst p) = D /\ dt_date (snd p) = D) nows ->
  stored_analytics w = VDict a ->
  dict_get_default "total_uses" (VInt 0) a = VInt t ->
  dict_get_default "daily_usage" (VDict ∅) a = VDict du ->
  dict_get_default (strftime_ymd D) (VInt 0) du = VInt c ->
  exists a' du' : dict,
    stored_analytics (run_ops (usage_calls nows) w) = VDict a' /\
    dict_get_default "total_uses" (VInt 0) a'
    = VInt (t + Z.of_nat (List.length nows)) /\
    dict_get_default "daily_usage" (VDict ∅) a' = VDict du' /\
    dict_get_default (strftime_ymd D) (VInt 0) du'
    = VInt (c + Z.of_nat (List.length nows)).
Proof.
  intros Hv Hcut Hyc Hnows Hs Ht Hdu Hc.
  assert (H0 : usage_state D t c w) by (by exists a, du).
  clear Hs Ht Hdu Hc. revert t c w H0.
  change (forall t c w, usage_state D t c w ->
            usage_state D (t + Z.of_nat (List.length nows))
              (c + Z.of_nat (List.length nows))
              (run_ops (usage_calls nows) w)).
  induction Hnows as [|[now now'] nows [HD HD'] _ IH]; intros t c w H0.
  - cbn. by rewrite !Z.add_0_r.
  - cbn [usage_calls List.map run_ops fold_left run_op fst snd List.length].
    fold (usage_calls nows).
    fold (run_ops (usage_calls nows) (exec (track_usage now now') w)).
    destruct (usage_state_step D cutoff now now' t c w Hv Hcut Hyc HD HD' H0)
      as [H1 _].
    specialize (IH _ _ _ H1).
    replace (t + Z.of_nat (S (List.length nows)))
      with (t + 1 + Z.of_nat (List.length nows)) by lia.
    by replace (c + Z.of_nat (S (List.length nows)))
      with (c + 1 + Z.of_nat (List.length nows)) by lia.
Qed.

Lemma usages_on_one_day_are_counted_witness :
  exists a' du' : dict,
    stored_analytics
      (run_ops (usage_calls [(now_jan14, now_jan14); (now_jan14, now_jan14)])
               (mk_world None [])) = VDict a' /\
    dict_get_default "total_uses" (VInt 0) a' = VInt 2 /\
    dict_get_default "daily_usage" (VDict ∅) a' = VDict du' /\
    dict_get_default "2026-01-14" (VInt 0) du' = VInt 2.
Proof.
  apply (usages_on_one_day_are_counted (mk_date 2026 1 14) (mk_date 2025 10 16)
           [(now_jan14, now_jan14); (now_jan14, now_jan14)] 0 0
           (mk_world None []) ∅ ∅); try reflexivity.
  - cbn [year]. lia.
  - repeat constructor.
Defined.

(* ===================================================================== *)
(** ** Pruning on its own *)
(* ===================================================================== *)

Lemma cleanup_old_daily_data_run (now : datetime) (a : dict) (w : world) :
  cleanup_old_daily_data now a w =
  match a !! "daily_usage" with
  | None => (Ret a, w)
  | Some v =>
      match sub_days 90 (dt_date now) with
      | None => (Raise OverflowError, w)
      | Some cutoff =>
          match v with
          | VDict du =>
              (Ret (<["daily_usage" :=
                        VDict (filter (λ kv : string * value,
                                         str_ge kv.1 (strftime_ymd cutoff) = true)
                                      du)]> a), w)
          | _ => (Raise AttributeError, w)
          end
      end
  end.
Proof.
  unfold cleanup_old_daily_data.
  destruct (a !! "daily_usage") as [v|]; [|done].
  destruct (sub_days 90 (dt_date now)) as [cutoff|]; [|done].
  by destruct v.
Qed.

Lemma kept_twice (cutoff_str : string) (du : dict) :
  filter (λ kv : string * value, str_ge kv.1 cutoff_str = true)
    (filter (λ kv : string * value, str_ge kv.1 cutoff_str = true) du)
  = filter (λ kv : string * value, str_ge kv.1 cutoff_str = true) du.
Proof.
  apply map_eq. intros k. rewrite !lookup_kept.
  by destruct (str_ge k cutoff_str).
Qed.

(** X12. [cleanup_old_daily_data] on its own.  It never touches the
    stored configuration.  A record without [daily_usage] is returned as
    it is.  When it returns, the record differs from the one given only
    under [daily_usage], whose new value holds a part of the old entries
    with their old counts (nothing is added or changed), and cleaning the
    result again at the same time changes nothing more. *)
Theorem cleanup_only_removes
  (now : datetime) (a a' : dict) (w w' : world) :
  (a !! "daily_usage" = None -> cleanup_old_daily_data now a w = (Ret a, w))
  /\ (cleanup_old_daily_data now a w = (Ret a', w') ->
      w' = w
      /\ same_off ["daily_usage"] a a'
      /\ (forall du : dict,
            a !! "daily_usage" = Some (VDict du) ->
            exists du' : dict,
              a' !! "daily_usage" = Some (VDict du') /\ du' ⊆ du)
      /\ cleanup_old_daily_data now a' w = (Ret a', w)).
Proof.
  rewrite !cleanup_old_daily_data_run. split.
  - by intros ->.
  - destruct (a !! "daily_usage") as [v|] eqn:Hv.
    + destruct (sub_days 90 (dt_date now)) as [cutoff|] eqn:Hc; [|done].
      destruct v as [| | | | | |du]; try done.
      intros [= <- <-]. split_and!.
      * done.
      * intros k Hk. apply not_elem_of_cons in Hk as [Hk _].
        by rewrite lookup_insert_ne.
      * intros du0 [= <-]. eexists. split; [apply lookup_insert_eq|].
        apply map_filter_subseteq.
      * rewrite lookup_insert_eq. cbv iota.
        by rewrite kept_twice, insert_insert_eq.
    + intros [= <- <-]. split_and!; try done. by rewrite Hv.
Qed.

Lemma cleanup_only_removes_witness :
  cleanup_old_daily_data now_jan14
    (<["daily_usage" := VDict {["2025-10-16" := VInt 4]}]>
       {["daily_usage" :=
           VDict (<["2025-10-15" := VInt 2]> {["2025-10-16" := VInt 4]})]})
    (mk_world None [])
  = (Ret (<["daily_usage" := VDict {["2025-10-16" := VInt 4]}]>
            {["daily_usage" :=
                VDict (<["2025-10-15" := VInt 2]>
                         {["2025-10-16" := VInt 4]})]}),
     mk_world None []).
Proof.
  destruct (cleanup_only_removes now_jan14
              {["daily_usage" :=
                  VDict (<["2025-10-15" := VInt 2]> {["2025-10-16" := VInt 4]})]}
              (<["daily_usage" := VDict {["2025-10-16" := VInt 4]}]>
                 {["daily_usage" :=
                     VDict (<["2025-10-15" := VInt 2]>
                              {["2025-10-16" := VInt 4]})]})
              (mk_world None []) (mk_world None [])) as [_ H].
  destruct H as (_ & _ & _ & H); [reflexivity|]. exact H.
Defined.

(* ===================================================================== *)
(** ** Metrics and the daily gate, composed with the writers *)
(* ===================================================================== *)

Section Composed.

Variable fromisoformat : string -> option datetime.

Local Abbreviation metrics := (get_retention_metrics fromisoformat).
Local Abbreviation should_send := (should_send_analytics fromisoformat).
Local Abbreviation try_send := (try_send_daily_analytics fromisoformat).

(** X13. Unlike the daily check, [get_retention_metrics] lets a bad
    install date through to its caller: with a stored
    [first_install_date] that is true but no string or not parseable, with
    one that parses to an aware datetime, or with a [daily_usage] that has
    no length, it raises, the world left as it was. *)
Theorem retention_metrics_raises (now : datetime) (w : world) (a : dict) :
  stored_analytics w = VDict a ->
  truthy (dict_get "first_install_date" a) = true ->
  tzinfo now = None ->
  ((forall s, dict_get "first_install_date" a = VStr s ->
              fromisoformat s = None) ->
   exists e, metrics now w = (Raise e, w))
  /\ (forall s t offset,
        dict_get "first_install_date" a = VStr s ->
        fromisoformat s = Some t ->
        tzinfo t = Some offset ->
        metrics now w = (Raise TypeError, w))
  /\ (forall s t e,
        dict_get "first_install_date" a = VStr s ->
        fromisoformat s = Some t ->
        tzinfo t = None ->
        py_len (dict_get_default "daily_usage" (VDict ∅) a) = Raise e ->
        metrics now w = (Raise e, w)).
Proof.
  intros Hs Ht Hnow. split_and!.
  - intros Hp. unfold get_retention_metrics. run_op. rewrite Ht. cbn [negb].
    rewrite bind_run. unfold py_fromisoformat.
    destruct (dict_get "first_install_date" a) as [| | | |s| |];
      try by eexists.
    rewrite (Hp s eq_refl). by eexists.
  - intros s t offset Hv Hp Hz. unfold get_retention_metrics. run_op.
    rewrite Ht. cbn [negb]. rewrite bind_run. unfold py_fromisoformat.
    rewrite Hv, Hp. cbn [mret M_ret]. rewrite bind_run.
    unfold datetime_sub_days. by rewrite Hnow, Hz.
  - intros s t e Hv Hp Hz Hl. unfold get_retention_metrics. run_op.
    rewrite Ht. cbn [negb]. rewrite bind_run. unfold py_fromisoformat.
    rewrite Hv, Hp. cbn [mret M_ret]. rewrite bind_run.
    unfold datetime_sub_days. rewrite Hnow, Hz. cbn [lift].
    rewrite bind_run. by rewrite Hl.
Qed.

(** The daily check reads the stored record and nothing else. *)
Lemma should_send_reads_config (now : datetime) (w1 w2 : world) :
  config w1 = config w2 ->
  fst (should_send now w1) = fst (should_send now w2).
Proof.
  intros Hc. apply stored_analytics_config in Hc.
  destruct (stored_analytics w2) as [| | | | | |a] eqn:Hs2;
    try (unfold should_send_analytics; by run_op).
  destruct (dict_get "last_analytics_sent" a) as [| | | |s| |] eqn:Hv;
    try (rewrite (should_send_unparsed fromisoformat now w1 a),
           (should_send_unparsed fromisoformat now w2 a);
         try done; intros s' Hs'; congruence).
  destruct (fromisoformat s) as [t|] eqn:Hp.
  - destruct (String.eqb s "") eqn:He.
    + rewrite (should_send_unset fromisoformat now w1 a),
        (should_send_unset fromisoformat now w2 a); try done;
        rewrite Hv; cbn [truthy]; by rewrite He.
    + apply String.eqb_neq in He.
      by rewrite (should_send_parsed fromisoformat now t w1 a s),
        (should_send_parsed fromisoformat now t w2 a s).
  - rewrite (should_send_unparsed fromisoformat now w1 a),
      (should_send_unparsed fromisoformat now w2 a);
      try done; intros s' Hs'; congruence.
Qed.

(** X14. The daily gate closes when an upload has succeeded, not when one
    is started.  After [_send] got a 200 at time [now] and wrote its
    timestamp (which [fromisoformat] reads back), the daily check at a
    later time answers whether the date has moved on:
    [try_send_daily_analytics] starts nothing for the rest of that day
    and starts one thread on a later day.  Until that write the gate
    stays open: where the check answers [True], two calls of
    [try_send_daily_analytics] in a row start two threads, so the gate
    does not bound uploads that overlap. *)
Theorem gate_closes_when_an_upload_succeeds
  (now now' : datetime) (w : world) (a : dict) :
  truthy (endpoint_url_of w) = true ->
  stored_analytics w = VDict a ->
  fromisoformat (isoformat now) = Some now ->
  let w1 := exec (_send (HttpResponse 200) now) w in
  should_send now' w1 = (Ret (date_ltb (dt_date now) (dt_date now')), w1)
  /\ (dt_date now' = dt_date now ->
      new_events w1 (exec (try_send now') w1) = [])
  /\ (date_ltb (dt_date now) (dt_date now') = true ->
      new_events w1 (exec (try_send now') w1) = [EvThreadStart])
  /\ (forall now1 now2 : datetime,
        should_send now1 w = (Ret true, w) ->
        should_send now2 w = (Ret true, w) ->
        new_events w (exec (try_send now2) (exec (try_send now1) w))
        = [EvThreadStart; EvThreadStart]).
Proof.
  intros He Hs Hp w1.
  assert (Hs1 : stored_analytics w1
                = VDict (<["last_analytics_sent" := VStr (isoformat now)]> a)).
  { subst w1. unfold exec. rewrite (send_with_record _ now w a He Hs).
    cbn [Z.eqb Pos.eqb]. rewrite save_analytics_data_run. cbn [snd].
    apply stored_analytics_saved. }
  assert (Hsend : should_send now' w1
                  = (Ret (date_ltb (dt_date now) (dt_date now')), w1)).
  { apply (should_send_parsed fromisoformat now' now w1 _ (isoformat now) Hs1).
    - unfold dict_get. by rewrite lookup_insert_eq.
    - apply isoformat_nonempty.
    - exact Hp. }
  split; [exact Hsend|].
  destruct (try_send_events fromisoformat now' w1 _ Hsend) as [_ Hev].
  split; [|split].
  - intros Hd. rewrite Hev, Hd. by rewrite date_ltb_irrefl.
  - intros Hd. by rewrite Hev, Hd.
  - intros now1 now2 H1 H2.
    assert (Hw : exec (try_send now1) w
                 = mk_world (config w) (events w ++ [EvThreadStart])).
    { unfold exec, try_send_daily_analytics. by rewrite bind_run, H1. }
    rewrite Hw. set (w2 := mk_world (config w) (events w ++ [EvThreadStart])).
    assert (Hs2 : stored_analytics w2 = VDict a).
    { rewrite <- Hs. by apply stored_analytics_config. }
    destruct (should_send_total fromisoformat now2 w2 a Hs2) as [b Hb].
    assert (b = true) as ->.
    { pose proof (should_send_reads_config now2 w2 w eq_refl) as Hf.
      rewrite Hb, H2 in Hf. by injection Hf. }
    unfold exec, try_send_daily_analytics. rewrite bind_run, Hb.
    unfold send_analytics_background, new_events. subst w2.
    cbn [snd events]. rewrite <- app_assoc. by rewrite drop_app_length.
Qed.

(** X15. An upload that does not end in a 200, or that finds no endpoint
    configured, leaves the daily gate as it was: nothing is written, the
    stored record is the same, and [should_send_analytics] answers
    afterwards what it answered before, so that the next
    [try_send_daily_analytics] tries again.  Without an endpoint nothing
    is posted either. *)
Theorem failed_upload_keeps_the_gate
  (net : http_result) (now now' : datetime) (w : world) :
  net ≠ HttpResponse 200 \/ truthy (endpoint_url_of w) = false ->
  let w1 := exec (_send net now) w in
  count_events is_write (new_events w w1) = 0%nat
  /\ stored_analytics w1 = stored_analytics w
  /\ fst (should_send now' w1) = fst (should_send now' w)
  /\ (truthy (endpoint_url_of w) = false -> w1 = w).
Proof.
  intros Hnet w1.
  assert (Hc : config w1 = config w
               /\ count_events is_write (new_events w w1) = 0%nat
               /\ (truthy (endpoint_url_of w) = false -> w1 = w)).
  { subst w1. unfold exec.
    destruct (truthy (endpoint_url_of w)) eqn:He.
    - destruct Hnet as [Hnet|?]; [|done].
      destruct (stored_analytics w) as [| | | | | |a] eqn:Hs;
        try (rewrite (send_no_record net now w He)
               by (intros a; congruence);
             cbn [snd]; by rewrite new_events_same).
      rewrite (send_with_record net now w a He Hs).
      destruct net as [status| | |].
      + destruct (Z.eqb_spec status 200) as [->|Hne]; [done|].
        cbn [snd]. by rewrite new_events_posted.
      + cbn [snd]. by rewrite new_events_posted.
      + cbn [snd]. by rewrite new_events_posted.
      + cbn [snd]. by rewrite new_events_same.
    - rewrite (send_no_endpoint net now w He). cbn [snd].
      by rewrite new_events_same. }
  destruct Hc as (Hc & Hw & Hn). split_and!; try done.
  - by apply stored_analytics_config.
  - by apply should_send_reads_config.
Qed.

(** X16. The metrics of a fresh installation.  After [init_analytics] at
    time [now] on a record without an install date (and with
    [fromisoformat] reading back the timestamp written),
    [get_retention_metrics] at time [now'] returns, without raising, the
    whole days elapsed between the two clock readings, no active day, no
    use, no login, and the integer 0 as rate while less than a day has
    passed. *)
Theorem metrics_of_a_fresh_install
  (now now' : datetime) (h : host) (w : world) (a : dict) :
  stored_analytics w = VDict a ->
  truthy (dict_get "first_install_date" a) = false ->
  fromisoformat (isoformat now) = Some now ->
  tzinfo now = None ->
  tzinfo now' = None ->
  let w1 := exec (init_analytics now h) w in
  exists m : dict,
    metrics now' w1 = (Ret m, w1) /\
    m !! "days_since_install" = Some (VInt (delta_days now' now)) /\
    m !! "active_days" = Some (VInt 0) /\
    m !! "total_uses" = Some (VInt 0) /\
    m !! "has_logged_in" = Some (VBool false) /\
    m !! "signup_method" = Some VNone /\
    (delta_days now' now <= 0 -> m !! "retention_rate" = Some (VInt 0)).
Proof.
  intros Hs Hf Hp Hz Hz' w1. subst w1. unfold exec.
  destruct (init_analytics_first now h w a Hs Hf)
    as (a1 & -> & Hd & _ & _ & _ & Hu & Hdu & Hlu & Hsm & Hli & _).
  rewrite save_analytics_data_run. cbn [snd].
  set (w1 := mk_world _ _).
  assert (Hs1 : stored_analytics w1 = VDict a1) by apply stored_analytics_saved.
  assert (Hdef : forall k d v, dict_get k a1 = v -> v ≠ VNone ->
                   dict_get_default k d a1 = v).
  { intros k d v. unfold dict_get, dict_get_default.
    destruct (a1 !! k); simpl; congruence. }
  rewrite (get_retention_metrics_run fromisoformat now' now w1 a1 ∅
             (isoformat now) Hs1 Hd (isoformat_nonempty now) Hp Hz' Hz
             (Hdef _ _ _ Hdu ltac:(done))).
  eexists. split; [reflexivity|].
  rewrite (Hdef _ (VInt 0) _ Hu ltac:(done)).
  rewrite (Hdef _ (VBool false) _ Hli ltac:(done)), Hsm.
  split_and!; try by simplify_map_eq.
  intros Hle. rewrite lookup_insert_ne by done.
  rewrite lookup_insert_ne by done. rewrite lookup_insert_ne by done.
  rewrite lookup_insert_eq.
  by destruct (Z.ltb_spec 0 (delta_days now' now)); [lia|].
Qed.

End Composed.

Lemma retention_metrics_raises_witness :
  exists e,
    get_retention_metrics parse_isoformat now_jan14
      (mk_world (Some {["analytics" :=
                          VDict {["first_install_date" := VStr "last week"]}]}) [])
    = (Raise e,
       mk_world (Some {["analytics" :=
                          VDict {["first_install_date" := VStr "last week"]}]}) []).
Proof.
  destruct (retention_metrics_raises parse_isoformat now_jan14
              (mk_world (Some {["analytics" :=
                                  VDict {["first_install_date" :=
                                            VStr "last week"]}]}) [])
              {["first_install_date" := VStr "last week"]})
    as (H & _); [reflexivity | reflexivity | reflexivity |].
  apply H. intros s [= <-]. reflexivity.
Defined.

Lemma gate_closes_when_an_upload_succeeds_witness :
  new_events (exec (_send (HttpResponse 200) now_jan14) world_in_use)
    (exec (try_send_daily_analytics parse_isoformat
             (mk_datetime (mk_date 2026 1 14) 23 59 0 0 None))
          (exec (_send (HttpResponse 200) now_jan14) world_in_use))
  = []
  /\ new_events world_in_use
       (exec (try_send_daily_analytics parse_isoformat now_jan14)
          (exec (try_send_daily_analytics parse_isoformat now_jan14)
                world_in_use))
     = [EvThreadStart; EvThreadStart].
Proof.
  destruct (gate_closes_when_an_upload_succeeds parse_isoformat now_jan14
              (mk_datetime (mk_date 2026 1 14) 23 59 0 0 None) world_in_use
              (<["first_install_date" := VStr "2026-01-04T10:00:00"]>
                 {["total_uses" := VInt 7]}))
    as (_ & H & _ & Hopen); [reflexivity | reflexivity | reflexivity |].
  split; [apply H; reflexivity | apply Hopen; reflexivity].
Defined.

Lemma failed_upload_keeps_the_gate_witness :
  stored_analytics (exec (_send Timeout now_jan14) world_in_use)
  = stored_analytics world_in_use.
Proof.
  apply (failed_upload_keeps_the_gate parse_isoformat Timeout now_jan14
           now_jan14 world_in_use).
  left. discriminate.
Defined.

Lemma metrics_of_a_fresh_install_witness :
  exists m : dict,
    get_retention_metrics parse_isoformat
      (mk_datetime (mk_date 2026 1 16) 9 0 0 0 None)
      (exec (init_analytics now_jan14 host_no_locale) (mk_world None []))
    = (Ret m, exec (init_analytics now_jan14 host_no_locale) (mk_world None []))
    /\ m !! "days_since_install" = Some (VInt 1)
    /\ m !! "active_days" = Some (VInt 0).
Proof.
  destruct (metrics_of_a_fresh_install parse_isoformat now_jan14
              (mk_datetime (mk_date 2026 1 16) 9 0 0 0 None)
              host_no_locale (mk_world None []) ∅)
    as (m & Hm & Hd & Ha & _); try reflexivity.
  exists m. split; [exact Hm|]. split; [exact Hd | exact Ha].
Defined.

(* ===================================================================== *)
(** ** Daily counts against the total *)
(* ===================================================================== *)

Lemma daily_sum_empty : daily_sum ∅ = 0.
Proof. unfold daily_sum. by rewrite map_fold_empty. Qed.

Lemma daily_sum_insert_new (du : dict) (k : string) (v : value) :
  du !! k = None ->
  daily_sum (<[k := v]> du) = daily_sum du + default 0 (as_int v).
Proof.
  intros Hk. unfold daily_sum.
  rewrite map_fold_insert_L; [done | intros; lia | done].
Qed.

Lemma daily_sum_insert_old (du : dict) (k : string) (v v' : value) :
  du !! k = Some v' ->
  daily_sum (<[k := v]> du)
  = daily_sum du - default 0 (as_int v') + default 0 (as_int v).
Proof.
  intros Hk.
  rewrite <- (insert_delete_eq du k v).
  rewrite <- (insert_delete_id du k v' Hk) at 2.
  rewrite !daily_sum_insert_new by apply lookup_delete_eq. lia.
Qed.

Lemma daily_sum_kept_le (cutoff_str : string) (du : dict) :
  (forall k v, du !! k = Some v -> exists z, v = VInt z /\ 0 <= z) ->
  daily_sum (filter (λ kv : string * value, str_ge kv.1 cutoff_str = true) du)
  <= daily_sum du.
Proof.
  induction du as [|k v du Hk IH] using map_ind; intros Hok.
  - by rewrite map_filter_empty.
  - assert (Hok' : forall k' v', du !! k' = Some v' ->
                     exists z, v' = VInt z /\ 0 <= z).
    { intros k' v' Hl. apply (Hok k' v').
      rewrite lookup_insert_ne; [done|]. intros <-. congruence. }
    destruct (Hok k v (lookup_insert_eq _ _ _)) as (z & -> & Hz).
    rewrite daily_sum_insert_new by done.
    change (default 0 (as_int (VInt z))) with z.
    destruct (str_ge k cutoff_str) eqn:E.
    + rewrite map_filter_insert_True by done.
      rewrite daily_sum_insert_new
        by (apply map_lookup_filter_None; by left).
      change (default 0 (as_int (VInt z))) with z.
      specialize (IH Hok'). lia.
    + rewrite map_filter_insert_not by (intros y; simpl; by rewrite E).
      specialize (IH Hok'). lia.
Qed.

Lemma track_usage_overflow (now now' : datetime) (w : world) (a du : dict)
  (n c : Z) :
  stored_analytics w = VDict a ->
  dict_get_default "total_uses" (VInt 0) a = VInt n ->
  dict_get_default "daily_usage" (VDict ∅) a = VDict du ->
  dict_get_default (strftime_ymd (dt_date now)) (VInt 0) du = VInt c ->
  sub_days 90 (dt_date now') = None ->
  track_usage now now' w = (Raise OverflowError, w).
Proof.
  intros Hs Hn Hdu Hc Hcut. unfold track_usage. run_op.
  rewrite Hn. cbn [py_add_one]. run_op.
  replace (dict_get_default "daily_usage" (VDict ∅)
             (<["total_uses" := VInt (n + 1)]> a)) with (VDict du)
    by (rewrite <- Hdu; unfold dict_get_default;
        by rewrite lookup_insert_ne).
  run_op. rewrite Hc. cbn [py_add_one]. run_op.
  unfold cleanup_old_daily_data.
  rewrite lookup_insert_ne by done. rewrite lookup_insert_eq, Hcut.
  by run_op.
Qed.

Lemma usage_consistent_saved (a' du' : dict) (t' : Z) (w0 : world) :
  dict_get_default "total_uses" (VInt 0) a' = VInt t' ->
  dict_get_default "daily_usage" (VDict ∅) a' = VDict du' ->
  (forall k v, du' !! k = Some v -> exists z, v = VInt z /\ 0 <= z) ->
  daily_sum du' <= t' ->
  usage_consistent (exec (save_analytics_data (VDict a')) w0).
Proof.
  intros Ht Hdu Hok Hle. exists a', du', t'.
  split; [|done]. unfold exec. rewrite save_analytics_data_run.
  apply stored_analytics_saved.
Qed.

Lemma usage_consistent_config (w w' : world) :
  config w' = config w -> usage_consistent w -> usage_consistent w'.
Proof.
  intros Hc (a & du & t & Hs & H). exists a, du, t. split; [|done].
  by rewrite (stored_analytics_config _ _ Hc).
Qed.

Lemma usage_consistent_usage (now now' : datetime) (w : world) :
  usage_consistent w -> usage_consistent (exec (track_usage now now') w).
Proof.
  intros (a & du & t & Hs & Ht & Hdu & Hok & Hle).
  set (today := strftime_ymd (dt_date now)).
  assert (Hc : exists c, dict_get_default today (VInt 0) du = VInt c /\ 0 <= c
                 /\ daily_sum (<[today := VInt (c + 1)]> du) = daily_sum du + 1).
  { unfold dict_get_default. destruct (du !! today) as [v|] eqn:E.
    - destruct (Hok _ _ E) as (z & -> & Hz). exists z. split_and!; try done.
      rewrite (daily_sum_insert_old _ _ _ _ E).
      change (default 0 (as_int (VInt z))) with z.
      change (default 0 (as_int (VInt (z + 1)))) with (z + 1). lia.
    - exists 0. split_and!; try done.
      rewrite (daily_sum_insert_new _ _ _ E).
      change (default 0 (as_int (VInt (0 + 1)))) with (0 + 1). lia. }
  destruct Hc as (c & Hc & Hc0 & Hsum).
  destruct (sub_days 90 (dt_date now')) as [cutoff|] eqn:Hcut.
  - unfold exec.
    rewrite (track_usage_run now now' w a du t c cutoff Hs Ht Hdu Hc Hcut).
    fold today.
    match goal with
    | |- usage_consistent (snd (save_analytics_data (VDict ?r) w)) =>
        apply (usage_consistent_saved r
                 (filter (λ kv : string * value,
                            str_ge kv.1 (strftime_ymd cutoff) = true)
                         (<[today := VInt (c + 1)]> du)) (t + 1) w)
    end.
    + unfold dict_get_default. by simplify_map_eq.
    + unfold dict_get_default. by rewrite lookup_insert_eq.
    + intros k v Hl. apply map_lookup_filter_Some in Hl as [Hl _].
      destruct (decide (k = today)) as [->|Hne].
      * rewrite lookup_insert_eq in Hl. injection Hl as <-.
        exists (c + 1). split; [done | lia].
      * rewrite lookup_insert_ne in Hl by done. by apply (Hok k).
    + etransitivity; [apply daily_sum_kept_le|lia].
      intros k v Hl. destruct (decide (k = today)) as [->|Hne].
      * rewrite lookup_insert_eq in Hl. injection Hl as <-.
        exists (c + 1). split; [done | lia].
      * rewrite lookup_insert_ne in Hl by done. by apply (Hok k).
  - unfold exec.
    rewrite (track_usage_overflow now now' w a du t c Hs Ht Hdu Hc Hcut).
    by exists a, du, t.
Qed.

(** A call that assigns neither [total_uses] nor [daily_usage] keeps a
    consistent record consistent. *)
Lemma usage_consistent_other (o : ledger_op) (w : world) :
  "total_uses" ∉ touched o ->
  "daily_usage" ∉ touched o ->
  usage_consistent w -> usage_consistent (run_op o w).
Proof.
  intros Ht Hd (a0 & du & t & Hs0 & Ha & Hdu & Hok & Hle).
  rewrite run_op_call. unfold exec.
  destruct (op_outcome_holds o w)
    as [->|[[e ->]|[(a & net & now & _ & ->)
                   |(a & a' & w0 & Hs & Hw0 & -> & Hoff)]]];
    try (by exists a0, du, t).
  rewrite Hs in Hs0. injection Hs0 as <-.
  apply (usage_consistent_saved a' du t w0); try done;
    unfold dict_get_default in *; by rewrite Hoff.
Qed.

Lemma usage_consistent_step (o : ledger_op) (w : world) :
  usage_consistent w -> usage_consistent (run_op o w).
Proof.
  intros Hu.
  destruct o as [now h|now now'| | | | | | | | |];
    try (apply usage_consistent_other; [not_touched | not_touched | done]).
  - (* init_analytics *)
    cbn [run_op]. destruct Hu as (a & du & t & Hs & Ht & Hdu & Hok & Hle).
    destruct (truthy (dict_get "first_install_date" a)) eqn:Hi.
    + unfold exec. rewrite init_analytics_installed.
      * by exists a, du, t.
      * unfold stored_field. by rewrite Hs.
    + unfold exec.
      destruct (init_analytics_first now h w a Hs Hi)
        as (a1 & -> & _ & _ & _ & _ & Hu1 & Hd1 & _).
      apply (usage_consistent_saved a1 ∅ 0 w).
      * revert Hu1. unfold dict_get, dict_get_default.
        destruct (a1 !! "total_uses"); simpl; [by intros -> | discriminate].
      * revert Hd1. unfold dict_get, dict_get_default.
        destruct (a1 !! "daily_usage"); simpl; [by intros -> | discriminate].
      * intros k v. by rewrite lookup_empty.
      * by rewrite daily_sum_empty.
  - (* track_usage *)
    by apply usage_consistent_usage.
Qed.

(** X17. The daily counts never exceed the total.  A record whose
    [total_uses] is an integer and whose daily counts are non-negative
    integers summing to at most [total_uses] (an empty or missing record
    is one) is still such a record after every sequence of ledger calls:
    [track_usage] adds one to both sides and pruning only removes
    counts. *)
Theorem daily_counts_within_total (ops : list ledger_op) (w : world) :
  usage_consistent w -> usage_consistent (run_ops ops w).
Proof.
  revert w. induction ops as [|o ops IH]; intros w Hu; [done|].
  cbn [run_ops fold_left]. fold (run_ops ops (run_op o w)).
  by apply IH, usage_consistent_step.
Qed.

Lemma daily_counts_within_total_witness :
  usage_consistent
    (run_ops [OpRecordUsage now_jan14 now_jan14;
              OpInitialize now_jan14 host_no_locale;
              OpRecordUsage now_jan14 now_jan14] (mk_world None [])).
Proof.
  apply daily_counts_within_total.
  exists ∅, ∅, 0.
  split_and!;
    first [ reflexivity
          | intros k v; by rewrite lookup_empty
          | by rewrite daily_sum_empty ].
Defined.

(* ===================================================================== *)
(** ** The other writers of the configuration *)
(* ===================================================================== *)

Lemma writeConfig_insert_run (k : string) (v : value) (w : world) :
  (c ← getConfig; writeConfig (<[k := v]> (config_or_empty c))) w
  = (Ret tt,
     mk_world (Some (<[k := v]> (config_or_empty (config w))))
       (events w ++ [EvWriteConfig (<[k := v]> (config_or_empty (config w)))])).
Proof. reflexivity. Qed.

Lemma complete_onboarding_run (w : world) :
  complete_onboarding w
  = (Ret tt,
     mk_world
       (Some (<["onboarding_completed" := VBool true]>
                (config_or_empty (config w))))
       (events w ++
        [EvWriteConfig (<["onboarding_completed" := VBool true]>
                          (config_or_empty (config w)))])).
Proof. reflexivity. Qed.

Lemma complete_tutorial_run (m : manager) (w : world) :
  complete_tutorial m w
  = (Ret (mk_manager None (completed_tasks m)),
     mk_world
       (Some (<["tutorial_completed" := VBool true]>
                (config_or_empty (config w))))
       (events w ++
        [EvWriteConfig (<["tutorial_completed" := VBool true]>
                          (config_or_empty (config w)))])).
Proof. reflexivity. Qed.

Lemma stored_analytics_other_key (k : string) (v : value) (c : dict)
  (l : list event) (w : world) :
  k ≠ "analytics" ->
  c = config_or_empty (config w) ->
  stored_analytics (mk_world (Some (<[k := v]> c)) l) = stored_analytics w.
Proof.
  intros Hk ->. unfold stored_analytics, dict_get_default.
  cbn [config]. unfold config_or_empty at 1. cbn [default from_option].
  unfold id. by rewrite lookup_insert_ne.
Qed.

(** X18. The three other writers of the add-on's configuration
    ([complete_onboarding], [complete_tutorial], [save_shortcuts]) set
    their own key in one write and leave every other key, the analytics
    record among them, as it was.  The first two make a configuration when
    the add-on has none; [save_shortcuts] then raises [TypeError] and
    writes nothing. *)
Theorem other_writers_keep_the_record
  (m : manager) (shortcuts : value) (w : world) (k : string) :
  let w1 := exec complete_onboarding w in
  let w2 := exec (complete_tutorial m) w in
  let w3 := exec (save_shortcuts shortcuts) w in
  (stored_analytics w1 = stored_analytics w
   /\ config_or_empty (config w1) !! "onboarding_completed" = Some (VBool true)
   /\ (k ≠ "onboarding_completed" ->
       config_or_empty (config w1) !! k = config_or_empty (config w) !! k))
  /\ (stored_analytics w2 = stored_analytics w
      /\ config_or_empty (config w2) !! "tutorial_completed" = Some (VBool true)
      /\ (k ≠ "tutorial_completed" ->
          config_or_empty (config w2) !! k = config_or_empty (config w) !! k))
  /\ (config w ≠ None ->
      stored_analytics w3 = stored_analytics w
      /\ config_or_empty (config w3) !! "quick_actions" = Some shortcuts
      /\ (k ≠ "quick_actions" ->
          config_or_empty (config w3) !! k = config_or_empty (config w) !! k))
  /\ (config w = None ->
      save_shortcuts shortcuts w = (Raise TypeError, w)).
Proof.
  intros w1 w2 w3. subst w1 w2 w3. unfold exec.
  rewrite complete_onboarding_run, complete_tutorial_run. cbn [snd].
  split_and!.
  - by apply stored_analytics_other_key.
  - cbn. apply lookup_insert_eq.
  - intros Hk. cbn [config]. unfold config_or_empty at 1.
    cbn [default from_option]. unfold id. by rewrite lookup_insert_ne.
  - by apply stored_analytics_other_key.
  - cbn. apply lookup_insert_eq.
  - intros Hk. cbn [config]. unfold config_or_empty at 1.
    cbn [default from_option]. unfold id. by rewrite lookup_insert_ne.
  - intros Hc. unfold save_shortcuts. rewrite bind_run, getConfig_run.
    destruct (config w) as [c|] eqn:E; [|done]. cbn [snd writeConfig].
    split_and!.
    + apply stored_analytics_other_key; [done|]. by rewrite E.
    + cbn. apply lookup_insert_eq.
    + intros Hk. cbn. by rewrite lookup_insert_ne.
  - intros Hc. unfold save_shortcuts. rewrite bind_run, getConfig_run.
    by rewrite Hc.
Qed.

Lemma other_writers_keep_the_record_witness :
  stored_analytics
    (exec (save_shortcuts (VDict {["add_to_chat" := VDict {["keys" := VList [VStr "Meta"; VStr "F"]]}]}))
          world_in_use)
  = stored_analytics world_in_use
  /\ save_shortcuts VNone (mk_world None []) = (Raise TypeError, mk_world None []).
Proof.
  split.
  - destruct (other_writers_keep_the_record new_manager
                (VDict {["add_to_chat" := VDict {["keys" := VList [VStr "Meta"; VStr "F"]]}]})
                world_in_use "analytics") as (_ & _ & H & _).
    destruct H as [H _]; [discriminate | exact H].
  - destruct (other_writers_keep_the_record new_manager VNone
                (mk_world None []) "analytics") as (_ & _ & _ & H).
    apply H. reflexivity.
Defined.

Lemma run_ops_config_frame (ops : list ledger_op) (w : world) (k : string) :
  k ≠ "analytics" ->
  config_or_empty (config (run_ops ops w)) !! k
  = config_or_empty (config w) !! k.
Proof.
  intros Hk. revert w. induction ops as [|o ops IH]; intros w; [done|].
  cbn [run_ops fold_left]. fold (run_ops ops (run_op o w)).
  rewrite IH. by apply run_op_config_frame.
Qed.

(** X19. What the other writers stored survives the ledger: after
    [complete_onboarding], [complete_tutorial] or [save_shortcuts], no
    sequence of ledger calls (tracking, initialisation, upload) changes
    [onboarding_completed], [tutorial_completed] or [quick_actions] in the
    configuration. *)
Theorem ledger_keeps_other_settings
  (ops : list ledger_op) (m : manager) (shortcuts : value) (w : world) :
  config_or_empty (config (run_ops ops (exec complete_onboarding w)))
    !! "onboarding_completed" = Some (VBool true)
  /\ config_or_empty (config (run_ops ops (exec (complete_tutorial m) w)))
       !! "tutorial_completed" = Some (VBool true)
  /\ (config w ≠ None ->
      config_or_empty (config (run_ops ops (exec (save_shortcuts shortcuts) w)))
        !! "quick_actions" = Some shortcuts).
Proof.
  split_and!.
  - rewrite run_ops_config_frame by done. unfold exec.
    rewrite complete_onboarding_run. cbn. apply lookup_insert_eq.
  - rewrite run_ops_config_frame by done. unfold exec.
    rewrite complete_tutorial_run. cbn. apply lookup_insert_eq.
  - intros Hc. rewrite run_ops_config_frame by done.
    unfold exec, save_shortcuts. rewrite bind_run, getConfig_run.
    destruct (config w) as [c|]; [|done]. cbn. apply lookup_insert_eq.
Qed.

Lemma ledger_keeps_other_settings_witness :
  config_or_empty
    (config (run_ops [OpInitialize now_jan14 host_no_locale;
                      OpFlush (HttpResponse 200) now_jan14]
               (exec (save_shortcuts (VStr "kept")) world_in_use)))
    !! "quick_actions" = Some (VStr "kept").
Proof.
  apply (ledger_keeps_other_settings
           [OpInitialize now_jan14 host_no_locale;
            OpFlush (HttpResponse 200) now_jan14]
           new_manager (VStr "kept") world_in_use).
  discriminate.
Defined.

(* ===================================================================== *)
(** ** The tutorial checklist *)
(* ===================================================================== *)

Lemma complete_in_tasks_none (id : Z) (ts : list task) :
  complete_in_tasks id ts = None <->
  id ∉ List.map task_id (List.filter (fun t => negb (completed t)) ts).
Proof.
  induction ts as [|t ts IH]; cbn [complete_in_tasks List.filter List.map].
  - split; [intros _; apply not_elem_of_nil | done].
  - destruct (Z.eqb_spec (task_id t) id) as [He|He];
      destruct (completed t) eqn:Hc; cbn [negb andb List.map].
    + rewrite <- IH. by destruct (complete_in_tasks id ts).
    + split; [done|]. intros Hn. destruct Hn. rewrite He. by left.
    + rewrite <- IH. by destruct (complete_in_tasks id ts).
    + rewrite not_elem_of_cons, <- IH.
      destruct (complete_in_tasks id ts); cbn; split; try done;
        first [by intros [_ ?] | intros _; split; [congruence | done]].
Qed.

Lemma complete_in_tasks_some (id : Z) (ts ts' : list task) :
  complete_in_tasks id ts = Some ts' ->
  List.map task_id (List.filter completed ts')
    ≡ₚ id :: List.map task_id (List.filter completed ts)
  /\ id :: List.map task_id (List.filter (fun t => negb (completed t)) ts')
       ≡ₚ List.map task_id (List.filter (fun t => negb (completed t)) ts)
  /\ List.length ts' = List.length ts.
Proof.
  revert ts'. induction ts as [|t ts IH]; intros ts';
    cbn [complete_in_tasks]; [done|].
  destruct (Z.eqb_spec (task_id t) id) as [He|He];
    destruct (completed t) eqn:Hc; cbn [negb andb].
  2: { intros [= <-]. cbn [List.filter completed List.map negb task_id].
       rewrite Hc. cbn [negb List.map]. by rewrite He. }
  all: destruct (complete_in_tasks id ts) as [ts0|]; [|done];
       intros [= <-]; destruct (IH ts0 eq_refl) as (H1 & H2 & H3);
       cbn [List.filter List.length]; rewrite Hc; cbn [negb List.map].
  - rewrite H1, H3. split_and!; [apply Permutation_swap | done | done].
  - rewrite H1, H3. split_and!; [apply Permutation_swap | done | done].
  - rewrite <- H2, H1, H3. split_and!; [done | apply Permutation_swap | done].
Qed.

Lemma complete_task_not_pending (id : Z) (secs : list section_data) :
  id ∉ pending secs -> complete_task id secs = secs.
Proof.
  induction secs as [|s secs IH]; [done|].
  unfold pending. cbn [flat_map complete_task]. fold (pending secs).
  rewrite not_elem_of_app. intros [Hs Hr].
  apply complete_in_tasks_none in Hs. rewrite Hs. by rewrite IH.
Qed.

Lemma complete_task_pending (id : Z) (secs : list section_data) :
  id ∈ pending secs ->
  ticked (complete_task id secs) ≡ₚ id :: ticked secs
  /\ id :: pending (complete_task id secs) ≡ₚ pending secs.
Proof.
  induction secs as [|s secs IH].
  - intros H. by apply elem_of_nil in H.
  - unfold pending, ticked. cbn [flat_map complete_task].
    fold (pending secs) (ticked secs).
    destruct (complete_in_tasks id (tasks s)) as [ts|] eqn:E.
    + intros _. destruct (complete_in_tasks_some _ _ _ E) as (H1 & H2 & _).
      cbn [flat_map tasks]. fold (pending secs) (ticked secs).
      rewrite H1, <- H2. by split.
    + intros Hin. apply elem_of_app in Hin as [Hin|Hin].
      { by apply complete_in_tasks_none in E. }
      destruct (IH Hin) as [H1 H2].
      cbn [flat_map]. fold (pending (complete_task id secs))
                           (ticked (complete_task id secs)).
      rewrite H1, <- H2. split.
      * by rewrite Permutation_middle.
      * by rewrite Permutation_middle.
Qed.

Lemma complete_task_counts (id : Z) (secs : list section_data) :
  Forall section_counts_ok secs ->
  Forall section_counts_ok (complete_task id secs).
Proof.
  induction 1 as [|s secs [Hc Ht] Hrest IH]; cbn [complete_task]; [done|].
  destruct (complete_in_tasks id (tasks s)) as [ts|] eqn:E.
  - constructor; [|done].
    destruct (complete_in_tasks_some _ _ _ E) as (H1 & _ & H3).
    split; cbn [completed_count total_count tasks].
    + apply Permutation_length in H1.
      cbn [List.length] in H1. rewrite !length_map in H1. lia.
    + by rewrite H3.
  - by constructor.
Qed.

Lemma complete_task_collapsed (id : Z) (secs : list section_data) :
  List.map collapsed (complete_task id secs) = List.map collapsed secs.
Proof.
  induction secs as [|s secs IH]; cbn [complete_task]; [done|].
  destruct (complete_in_tasks id (tasks s)); [done|].
  cbn [List.map]. by rewrite IH.
Qed.

(** X20. [complete_task] ticks one task.  When no open task has the id it
    changes nothing (an unknown id, or a task already completed).
    Otherwise the id moves from the open tasks to the completed ones and
    nothing else moves: no task is ever un-completed.  The counts of a
    section stay equal to the numbers of its completed tasks and of its
    tasks, no section is opened or closed, and with distinct open ids a
    second call with the same id changes nothing. *)
Theorem complete_task_ticks_one (id : Z) (secs : list section_data) :
  (id ∉ pending secs -> complete_task id secs = secs)
  /\ (id ∈ pending secs ->
      ticked (complete_task id secs) ≡ₚ id :: ticked secs
      /\ id :: pending (complete_task id secs) ≡ₚ pending secs)
  /\ (Forall section_counts_ok secs ->
      Forall section_counts_ok (complete_task id secs))
  /\ List.map collapsed (complete_task id secs) = List.map collapsed secs
  /\ (NoDup (pending secs) ->
      complete_task id (complete_task id secs) = complete_task id secs).
Proof.
  split_and!.
  - apply complete_task_not_pending.
  - apply complete_task_pending.
  - apply complete_task_counts.
  - apply complete_task_collapsed.
  - intros Hnd. destruct (decide (id ∈ pending secs)) as [Hin|Hin].
    + destruct (complete_task_pending id secs Hin) as [_ H2].
      apply complete_task_not_pending.
      rewrite <- H2 in Hnd. by apply NoDup_cons in Hnd as [? _].
    + by rewrite !(complete_task_not_pending id secs Hin).
Qed.

Lemma complete_task_ticks_one_witness :
  ticked (complete_task 2 new_sections) ≡ₚ [2]
  /\ complete_task 2 (complete_task 2 new_sections)
     = complete_task 2 new_sections.
Proof.
  destruct (complete_task_ticks_one 2 new_sections) as (_ & H & _ & _ & Hi).
  split.
  - destruct H as [H _]; [|exact H].
    apply (bool_decide_unpack _). vm_compute. exact I.
  - apply Hi. apply (bool_decide_unpack _). vm_compute. exact I.
Defined.

Lemma list_index_some (len : nat) (i : Z) (n : nat) :
  list_index len i = Some n ->
  (n < len)%nat /\
  (0 <= i -> Z.of_nat n = i) /\
  (i < 0 -> forall j : nat, Z.of_nat j ≠ i).
Proof.
  unfold list_index.
  destruct ((0 <=? i) && (i <? Z.of_nat len)) eqn:E1;
    [|destruct ((- Z.of_nat len <=? i) && (i <? 0)) eqn:E2; [|done]];
    intros [= <-].
  - apply andb_true_iff in E1 as [?%Z.leb_le ?%Z.ltb_lt].
    split_and!; lia.
  - apply andb_true_iff in E2 as [?%Z.leb_le ?%Z.ltb_lt].
    split_and!; lia.
Qed.

(** X21. [toggle_section] keeps the checklist an accordion.  With an index
    Python accepts, the section it names is flipped between open and
    closed and every other section is closed, whatever was open before;
    tasks and counts are not touched.  With any other index it raises
    [IndexError]. *)
Theorem toggle_section_closes_the_others
  (section_idx : Z) (secs : list section_data) :
  (section_idx < - Z.of_nat (List.length secs)
   \/ Z.of_nat (List.length secs) <= section_idx ->
   toggle_section section_idx secs = None)
  /\ (forall n : nat,
        list_index (List.length secs) section_idx = Some n ->
        exists secs',
          toggle_section section_idx secs = Some secs' /\
          List.length secs' = List.length secs /\
          forall (j : nat) (s : section_data),
            secs !! j = Some s ->
            secs' !! j =
            Some (mk_section
                    (if decide (j = n) then negb (collapsed s) else true)
                    (tasks s) (completed_count s) (total_count s))).
Proof.
  split.
  - intros Hout. unfold toggle_section, list_index.
    destruct ((0 <=? section_idx) && (section_idx <? Z.of_nat (List.length secs)))
      eqn:E1.
    { apply andb_true_iff in E1 as [?%Z.leb_le ?%Z.ltb_lt]. lia. }
    destruct ((- Z.of_nat (List.length secs) <=? section_idx)
              && (section_idx <? 0)) eqn:E2; [|done].
    apply andb_true_iff in E2 as [?%Z.leb_le ?%Z.ltb_lt]. lia.
  - intros n Hn. destruct (list_index_some _ _ _ Hn) as (Hlt & Hpos & Hneg).
    unfold toggle_section. rewrite Hn.
    destruct (lookup_lt_is_Some_2 secs n Hlt) as [sn Hsn]. rewrite Hsn.
    eexists. split; [reflexivity|]. split.
    + by rewrite length_alter, length_imap.
    + intros j s Hj. destruct (decide (j = n)) as [->|Hne].
      * rewrite list_lookup_alter_eq, list_lookup_imap, Hsn.
        rewrite Hj in Hsn. injection Hsn as <-. cbn [fmap option_fmap option_map].
        by destruct (negb (Z.of_nat n =? section_idx) && negb (collapsed s)).
      * rewrite list_lookup_alter_ne by congruence.
        rewrite list_lookup_imap, Hj. cbn [fmap option_fmap option_map].
        f_equal.
        assert (Hz : (Z.of_nat j =? section_idx) = false).
        { apply Z.eqb_neq. destruct (Z.lt_ge_cases section_idx 0) as [H|H].
          - by apply Hneg.
          - specialize (Hpos H). lia. }
        rewrite Hz. cbn [negb andb].
        destruct s as [[] ts cc tc]; reflexivity.
Qed.

Lemma toggle_section_closes_the_others_witness :
  exists secs',
    toggle_section 1 new_sections = Some secs' /\
    List.map collapsed secs' = [true; false; true; true].
Proof.
  destruct (toggle_section_closes_the_others 1 new_sections) as [_ H].
  destruct (H 1%nat eq_refl) as (secs' & Ht & _ & _).
  exists secs'. split; [exact Ht|].
  injection Ht as <-. reflexivity.
Defined.

(* ===================================================================== *)
(** ** The tutorial manager *)
(* ===================================================================== *)

Lemma event_to_task_range (e : string) (id : Z) :
  event_to_task e = Some id -> id ∈ [0; 2; 3; 4].
Proof.
  unfold event_to_task.
  repeat (destruct (String.eqb e _);
          [intros [= <-]; apply (bool_decide_unpack _); vm_compute; exact I|]).
  done.
Qed.

Lemma event_to_task_shortcut (e : string) :
  event_to_task e = Some 2 <-> e = "shortcut_used".
Proof.
  unfold event_to_task. split.
  - destruct (String.eqb_spec e "panel_opened"); [done|].
    destruct (String.eqb_spec e "shortcut_used"); [done|].
    destruct (String.eqb_spec e "text_highlighted"); [done|].
    by destruct (String.eqb_spec e "settings_opened").
  - by intros ->.
Qed.

(** The tasks a sequence of events completes: those of the table, and task
    1 with the shortcut. *)
Lemma after_events_snoc (events : list string) (e : string) (m : manager) :
  after_events (events ++ [e])%list m = on_event e (after_events events m).
Proof. unfold after_events. by rewrite fold_left_app. Qed.

Lemma in_all_tasks_split (c : list section_data) (id : Z) :
  (ticked c ++ pending c)%list ≡ₚ [0; 1; 2; 3; 4] ->
  id ∈ [0; 1; 2; 3; 4] ->
  id ∉ ticked c ->
  id ∈ pending c.
Proof.
  intros Hp Hin Hn. rewrite <- Hp in Hin.
  apply elem_of_app in Hin as [?|?]; done.
Qed.

Lemma tutorial_step (events : list string) (e : string) (m : manager)
  (c : list section_data) :
  checklist m = Some c ->
  (ticked c ++ pending c)%list ≡ₚ [0; 1; 2; 3; 4] ->
  Forall section_counts_ok c ->
  (forall id, id ∈ completed_tasks m <-> id ∈ ticked c) ->
  (forall id, id ∈ completed_tasks m <->
     (exists e', e' ∈ events /\ event_to_task e' = Some id)
     \/ (id = 1 /\ "shortcut_used" ∈ events)) ->
  exists c',
    checklist (on_event e m) = Some c' /\
    (ticked c' ++ pending c')%list ≡ₚ [0; 1; 2; 3; 4] /\
    Forall section_counts_ok c' /\
    (forall id, id ∈ completed_tasks (on_event e m) <-> id ∈ ticked c') /\
    (forall id, id ∈ completed_tasks (on_event e m) <->
       (exists e', e' ∈ (events ++ [e])%list /\ event_to_task e' = Some id)
       \/ (id = 1 /\ "shortcut_used" ∈ (events ++ [e])%list)).
Proof.
  intros Hc Hall Hok Htick Hev.
  assert (Hsame : on_event e m = m ->
            (forall id, id ∈ completed_tasks m ->
               id ∈ completed_tasks m) ->
            (forall id, event_to_task e = Some id -> id ∈ completed_tasks m) ->
            (e = "shortcut_used" -> 1 ∈ completed_tasks m) ->
            exists c',
              checklist (on_event e m) = Some c' /\
              (ticked c' ++ pending c')%list ≡ₚ [0; 1; 2; 3; 4] /\
              Forall section_counts_ok c' /\
              (forall id, id ∈ completed_tasks (on_event e m) <-> id ∈ ticked c') /\
              (forall id, id ∈ completed_tasks (on_event e m) <->
                 (exists e', e' ∈ (events ++ [e])%list /\ event_to_task e' = Some id)
                 \/ (id = 1 /\ "shortcut_used" ∈ (events ++ [e])%list))).
  { intros -> _ He H1. exists c. split_and!; try done.
    intros id. rewrite Hev. split.
    - intros [(e' & Hin & Ht)|[-> Hin]].
      + left. exists e'. split; [|done]. apply elem_of_app. by left.
      + right. split; [done|]. apply elem_of_app. by left.
    - intros [(e' & Hin & Ht)|[-> Hin]].
      + apply elem_of_app in Hin as [Hin|Hin%list_elem_of_singleton].
        * left. by exists e'.
        * subst e'. apply Hev. by apply He.
      + apply elem_of_app in Hin as [Hin|Hin%list_elem_of_singleton].
        * by right.
        * apply Hev. by apply H1. }
  unfold on_event in *. rewrite Hc in *.
  destruct (event_to_task e) as [i|] eqn:Hi.
  2: { apply Hsame; try done. intros ->. discriminate Hi. }
  destruct (bool_decide (i ∈ completed_tasks m)) eqn:Hseen.
  { apply bool_decide_eq_true in Hseen. apply Hsame; try done.
    - by intros id [= <-].
    - intros ->. injection Hi as <-.
      apply Hev. apply Hev in Hseen as [(e' & Hin & Ht)|[? _]]; [|done].
      right. split; [done|]. by apply event_to_task_shortcut in Ht as <-. }
  clear Hsame. apply bool_decide_eq_false in Hseen.
  assert (Hrange : i ∈ [0; 1; 2; 3; 4]).
  { apply event_to_task_range in Hi. revert Hi.
    rewrite !elem_of_cons. intuition. }
  assert (Hpend : i ∈ pending c).
  { apply (in_all_tasks_split c i Hall Hrange). by rewrite <- Htick. }
  destruct (complete_task_pending i c Hpend) as [Ht1 Hp1].
  assert (Hall1 : (ticked (complete_task i c) ++ pending (complete_task i c))%list
                  ≡ₚ [0; 1; 2; 3; 4]).
  { rewrite Ht1. cbn [app]. rewrite Permutation_middle, Hp1. done. }
  assert (Hnew : forall id, (exists e', e' ∈ (events ++ [e])%list /\ event_to_task e' = Some id)
                   <-> (exists e', e' ∈ events /\ event_to_task e' = Some id) \/ id = i).
  { intros id. split.
    - intros (e' & Hin & Ht).
      apply elem_of_app in Hin as [Hin|Hin%list_elem_of_singleton].
      + left. by exists e'.
      + subst e'. right. congruence.
    - intros [(e' & Hin & Ht)| ->].
      + exists e'. split; [|done]. apply elem_of_app. by left.
      + exists e. split; [|done]. apply elem_of_app. right.
        by apply list_elem_of_singleton. }
  assert (Hsc : "shortcut_used" ∈ (events ++ [e])%list <->
                "shortcut_used" ∈ events \/ i = 2).
  { rewrite elem_of_app, list_elem_of_singleton.
    split; intros [?|?]; try (by left); right.
    - subst e. by injection Hi as <-.
    - subst i. symmetry. by apply event_to_task_shortcut. }
  destruct (Z.eqb_spec i 2) as [->|Hne2]; cbn [andb].
  - destruct (bool_decide (1 ∈ ({[2]} ∪ completed_tasks m : gset Z))) eqn:H1;
      cbn [negb].
    + apply bool_decide_eq_true in H1.
      eexists. split; [reflexivity|]. cbn [completed_tasks].
      split_and!; try done.
      * by apply complete_task_counts.
      * intros id. rewrite Ht1, elem_of_union, elem_of_singleton, elem_of_cons.
        by rewrite Htick.
      * intros id. rewrite elem_of_union, elem_of_singleton, Hnew, Hsc, Hev.
        split; [intuition|].
        intros [[?|?]|[-> _]]; try tauto.
        apply elem_of_union in H1 as [H1%elem_of_singleton|H1]; [done|].
        right. by apply Hev.
    + apply bool_decide_eq_false in H1.
      assert (H1p : 1 ∈ pending (complete_task 2 c)).
      { apply (in_all_tasks_split _ 1 Hall1).
        - apply (bool_decide_unpack _). vm_compute. exact I.
        - rewrite Ht1, elem_of_cons. intros [?|Hin]; [done|].
          apply H1. apply elem_of_union. right. by apply Htick. }
      destruct (complete_task_pending 1 _ H1p) as [Ht2 Hp2].
      eexists. split; [reflexivity|]. cbn [completed_tasks].
      split_and!.
      * rewrite Ht2. cbn [app]. rewrite Permutation_middle, Hp2. done.
      * by do 2 apply complete_task_counts.
      * intros id. rewrite Ht2, Ht1, !elem_of_union, !elem_of_singleton,
          !elem_of_cons. by rewrite Htick.
      * intros id. rewrite !elem_of_union, !elem_of_singleton, Hnew, Hsc, Hev.
        tauto.
  - eexists. split; [reflexivity|]. cbn [completed_tasks].
    split_and!; try done.
    + by apply complete_task_counts.
    + intros id. rewrite Ht1, elem_of_union, elem_of_singleton, elem_of_cons.
      by rewrite Htick.
    + intros id. rewrite elem_of_union, elem_of_singleton, Hnew, Hsc, Hev.
      tauto.
Qed.

(** X22. What the tutorial shows after any events.  From a freshly
    started manager, after any sequence of event names, a task is in
    [completed_tasks] exactly when it is ticked in the checklist, and
    exactly when an event of the table named it, or, for task 1, when the
    shortcut was used; every one of the five tasks is either ticked or
    open, once; and each section's counts equal the numbers of its ticked
    tasks and of its tasks. *)
Theorem tutorial_events_tick_tasks (events : list string) :
  exists c : list section_data,
    checklist (after_events events (start new_manager)) = Some c /\
    (ticked c ++ pending c)%list ≡ₚ [0; 1; 2; 3; 4] /\
    Forall section_counts_ok c /\
    (forall id,
       id ∈ completed_tasks (after_events events (start new_manager))
       <-> id ∈ ticked c) /\
    (forall id,
       id ∈ completed_tasks (after_events events (start new_manager))
       <-> (exists e, e ∈ events /\ event_to_task e = Some id)
           \/ (id = 1 /\ "shortcut_used" ∈ events)).
Proof.
  induction events as [|e events IH] using rev_ind.
  - exists new_sections. split_and!; try done.
    + repeat constructor.
    + intros id. cbn. by rewrite elem_of_empty, elem_of_nil.
    + intros id. cbn. rewrite elem_of_empty. split; [done|].
      intros [(e & Hin & _)|[_ Hin]]; by apply elem_of_nil in Hin.
  - destruct IH as (c & Hc & Hall & Hok & Htick & Hev).
    rewrite after_events_snoc.
    by apply (tutorial_step events e _ c).
Qed.

(** X23. A second run does not tick what an earlier run has seen.  The
    set of tasks seen outlives [complete_tutorial] and [start]: when the
    tutorial is started again, an event whose task was seen before is
    ignored, and the new checklist, with nothing ticked, stays as it
    is. *)
Theorem second_run_ignores_seen_tasks
  (events : list string) (e : string) (id : Z) (w w' : world) (m' : manager) :
  complete_tutorial (after_events events (start new_manager)) w = (Ret m', w') ->
  event_to_task e = Some id ->
  id ∈ completed_tasks (after_events events (start new_manager)) ->
  checklist m' = None
  /\ on_event e m' = m'
  /\ checklist (start m') = Some new_sections
  /\ on_event e (start m') = start m'.
Proof.
  rewrite complete_tutorial_run. intros [= <- <-] Hid Hin.
  split_and!; try reflexivity.
  unfold on_event, start. cbn [checklist completed_tasks]. rewrite Hid.
  by rewrite bool_decide_eq_true_2.
Qed.

Lemma second_run_ignores_seen_tasks_witness :
  on_event "panel_opened"
    (start (mk_manager None
              (completed_tasks (after_events ["panel_opened"] (start new_manager)))))
  = start (mk_manager None
             (completed_tasks (after_events ["panel_opened"] (start new_manager)))).
Proof.
  apply (second_run_ignores_seen_tasks ["panel_opened"] "panel_opened" 0
           (mk_world None [])
           (exec (complete_tutorial (after_events ["panel_opened"] (start new_manager)))
                 (mk_world None []))
           (mk_manager None
              (completed_tasks (after_events ["panel_opened"] (start new_manager))))).
  - reflexivity.
  - reflexivity.
  - apply (bool_decide_unpack _). vm_compute. exact I.
Defined.

Lemma tutorial_events_tick_tasks_witness :
  exists c : list section_data,
    checklist (after_events ["shortcut_used"; "card_shown"] (start new_manager))
    = Some c
    /\ 1 ∈ ticked c.
Proof.
  destruct (tutorial_events_tick_tasks ["shortcut_used"; "card_shown"])
    as (c & Hc & _ & _ & Htick & Hev).
  exists c. split; [exact Hc|].
  apply Htick, Hev. right. split; [reflexivity|].
  apply elem_of_cons. by left.
Defined.
